(** * SkyReady: a shallow embedding of the scoring, caching and forecast code

    The development follows the layout of the repository:
    - [JS]      the fragment of JavaScript values, [Math] and strings the code relies on,
    - [Score]   src/services/score.js,
    - [Date]    the calendar and the local time behind the [Date] object,
    - [Data]    the objects the services hand to the application,
    - [Cache]   src/services/cache.js,
    - [Net]     what a [fetch] comes to,
    - [Astro]   src/services/astro.js,
    - [Weather] src/services/weather.js,
    - [Storage] src/services/storage.js,
    - [App]     the data-fusion part of src/app.js,
    - [HourlyChart] the hour filter of src/components/HourlyChart.js,
    - [Spec]    the vocabulary of the statements and sample inputs,
    followed by the lemmas and the theorems C1 to C10, and by the further
    properties X1 to X30 of the same code.

    Conventions.  A JavaScript number is an exact rational or [NaN]
    (infinities and the rounding error of doubles are not represented,
    except in the ensemble statistics of [Weather], which take the rounding
    of doubles as a parameter); a value read from an object field is
    [undefined], [null] or a number, so that a feed with text in the place
    of a number is outside the model; instants are integers, the
    milliseconds since the epoch, and an ISO time stamp string is identified
    with the instant it denotes. *)

From Stdlib Require Import ZArith QArith Qround Lia Lqa List Bool Ascii String.
From Stdlib Require Import Sorting.Sorted Permutation.
From stdpp Require Import base option list sorting gmap strings pretty.

Local Open Scope Z_scope.

(* ===================================================================== *)
(** * JavaScript numbers and values *)
(* ===================================================================== *)

Module JS.

(** A Number: [NaN] or a finite rational. *)
Inductive num : Type :=
| NaN
| Fin (q : Q).

(** What a property read can give where the code expects a number. *)
Inductive value : Type :=
| undefined
| null
| number (q : Q).

(** ToNumber: [undefined] is NaN, [null] is 0. *)
Definition ToNumber (v : value) : num :=
  match v with
  | undefined => NaN
  | null => Fin 0
  | number q => Fin q
  end.

(** ToBoolean on a value ([!v] is its negation): 0, null and undefined are falsy. *)
Definition truthy (v : value) : bool :=
  match v with
  | undefined | null => false
  | number q => negb (Qeq_bool q 0)
  end.

Definition truthy_num (n : num) : bool :=
  match n with
  | NaN => false
  | Fin q => negb (Qeq_bool q 0)
  end.

Definition lift2 (f : Q -> Q -> Q) (a b : num) : num :=
  match a, b with
  | Fin x, Fin y => Fin (f x y)
  | _, _ => NaN
  end.

Definition add : num -> num -> num := lift2 Qplus.
Definition sub : num -> num -> num := lift2 Qminus.
Definition mul : num -> num -> num := lift2 Qmult.
(** Division; a zero divisor, which gives an infinity or NaN, is NaN here. *)
Definition div (a b : num) : num :=
  match a, b with
  | Fin x, Fin y => if Qeq_bool y 0 then NaN else Fin (x / y)
  | _, _ => NaN
  end.

Definition Qltb (x y : Q) : bool := negb (Qle_bool y x).

(** Relational operators: every comparison with NaN is false. *)
Definition cmp (f : Q -> Q -> bool) (a b : num) : bool :=
  match a, b with
  | Fin x, Fin y => f x y
  | _, _ => false
  end.

Definition le : num -> num -> bool := cmp Qle_bool.
Definition lt : num -> num -> bool := cmp Qltb.
Definition ge (a b : num) : bool := le b a.
Definition gt (a b : num) : bool := lt b a.

(** [a || b] on numbers. *)
Definition or_else (a b : num) : num := if truthy_num a then a else b.

Module Math.
Definition max : num -> num -> num :=
  lift2 (fun x y => if Qle_bool x y then y else x).
Definition min : num -> num -> num :=
  lift2 (fun x y => if Qle_bool x y then x else y).
(** Math.round: the nearest integer, halves towards +infinity. *)
Definition roundQ (q : Q) : Z := Qfloor (q + (1 # 2)).
Definition round (n : num) : num :=
  match n with
  | NaN => NaN
  | Fin q => Fin (inject_Z (roundQ q))
  end.
Definition ceilQ (q : Q) : Z := Qceiling q.
Definition abs (z : Z) : Z := Z.abs z.
End Math.

(** [lo <= n <= hi] for a number that is not NaN. *)
Definition within (lo hi : Q) (n : num) : Prop :=
  match n with
  | NaN => False
  | Fin q => (lo <= q /\ q <= hi)%Q
  end.

(** Number to String for an integer-valued number, as template literals print it. *)
Definition show_int (z : Z) : string := pretty z.

(** [a || b] on values and on strings (the empty string is falsy). *)
Definition or (a b : value) : value := if truthy a then a else b.
Definition or_string (a : option string) (b : string) : string :=
  match a with
  | Some (String c r) => String c r
  | _ => b
  end.

(** The integer a rational is, if it is one. *)
Definition as_integer (q : Q) : option Z :=
  if Qeq_bool q (inject_Z (Qfloor q)) then Some (Qfloor q) else None.

(** Truncation towards zero and the remainder [a % b] that goes with it. *)
Definition Qtrunc (q : Q) : Z := if Qle_bool 0 q then Qfloor q else Qceiling q.
Definition Qrem (a b : Q) : Q := a - b * inject_Z (Qtrunc (a / b)).

(** [s.padStart(n, fill)] *)
Fixpoint repeat_string (n : nat) (s : string) : string :=
  match n with
  | O => ""
  | S k => s +:+ repeat_string k s
  end.
Definition padStart (target : nat) (fill s : string) : string :=
  let need := (target - String.length s)%nat in
  String.substring 0 need (repeat_string need fill) +:+ s.

(** [x.toFixed(digits)]: the nearest decimal with that many digits, ties
    upwards in magnitude, the sign kept in front. *)
Definition toFixed (x : Q) (digits : nat) : string :=
  let negative := Qltb x 0 in
  let a := if negative then (- x)%Q else x in
  let n := Qfloor (a * inject_Z (10 ^ Z.of_nat digits) + (1 # 2)) in
  let m := padStart (S digits) "0" (pretty n) in
  let k := (String.length m - digits)%nat in
  let body := match digits with
              | O => m
              | _ => String.substring 0 k m +:+ "." +:+ String.substring k digits m
              end in
  if negative then "-" +:+ body else body.

(** [parseInt(s)]: white space, a sign, an optional [0x], then the digits
    of the radix; [None] is NaN. *)
Definition digit_value (radix : Z) (a : Ascii.ascii) : option Z :=
  let n := Z.of_N (Ascii.N_of_ascii a) in
  let d := if (48 <=? n) && (n <=? 57) then n - 48
           else if (97 <=? n) && (n <=? 122) then n - 87
           else if (65 <=? n) && (n <=? 90) then n - 55
           else radix in
  if d <? radix then Some d else None.
Fixpoint digits (radix : Z) (acc : option Z) (s : string) : option Z :=
  match s with
  | EmptyString => acc
  | String a r =>
      match digit_value radix a with
      | Some d => digits radix (Some (default 0 acc * radix + d)) r
      | None => acc
      end
  end.
Definition is_white (a : Ascii.ascii) : bool :=
  let n := Z.of_N (Ascii.N_of_ascii a) in
  (n =? 32) || ((9 <=? n) && (n <=? 13)).
Fixpoint skip_white (s : string) : string :=
  match s with
  | String a r => if is_white a then skip_white r else s
  | EmptyString => s
  end.
Definition parseInt (s : string) : option Z :=
  let s := skip_white s in
  let '(sign, s) :=
    match s with
    | String "-"%char r => (-1, r)
    | String "+"%char r => (1, r)
    | _ => (1, s)
    end in
  let '(radix, s) :=
    match s with
    | String "0"%char (String "x"%char r) => (16, r)
    | String "0"%char (String "X"%char r) => (16, r)
    | _ => (10, s)
    end in
  Z.mul sign <$> digits radix None s.

(** Exceptions, and the completion of a computation that may throw. *)
Inductive error : Type :=
| Error (message : string)
| TypeError (message : string)
| RangeError (message : string)
| SyntaxError (message : string)
| QuotaExceededError.

Inductive completion (A : Type) : Type :=
| Normal (a : A)
| Throw (e : error).
Arguments Normal {A} a.
Arguments Throw {A} e.

Definition bind {A B} (c : completion A) (k : A -> completion B) : completion B :=
  match c with
  | Normal a => k a
  | Throw e => Throw e
  end.

(** [xs.map(f)] where [f] may throw: the first exception ends the loop. *)
Fixpoint map_throwing {A B} (f : A -> completion B) (xs : list A) : completion (list B) :=
  match xs with
  | [] => Normal []
  | x :: r => bind (f x) (fun y => bind (map_throwing f r) (fun ys => Normal (y :: ys)))
  end.

End JS.

Export JS.

(* ===================================================================== *)
(** * src/services/score.js *)
(* ===================================================================== *)

Module Score.

(** One entry of [MODE_WEIGHTS]. *)
Module Weights.
Record t : Type := {
  cloudCover : value;
  seeing : value;
  transparency : value;
  moonPhase : value;
  humidity : value
}.
End Weights.

Definition weights_general : Weights.t :=
  {| Weights.cloudCover := number 0.40;
     Weights.seeing := number 0.20;
     Weights.transparency := number 0.20;
     Weights.moonPhase := number 0.15;
     Weights.humidity := number 0.05 |}.
Definition weights_deep_sky : Weights.t :=
  {| Weights.cloudCover := number 0.40;
     Weights.seeing := number 0.10;
     Weights.transparency := number 0.30;
     Weights.moonPhase := number 0.15;
     Weights.humidity := number 0.05 |}.
Definition weights_planetary : Weights.t :=
  {| Weights.cloudCover := number 0.35;
     Weights.seeing := number 0.40;
     Weights.transparency := number 0.10;
     Weights.moonPhase := number 0.10;
     Weights.humidity := number 0.05 |}.
Definition weights_milky_way : Weights.t :=
  {| Weights.cloudCover := number 0.45;
     Weights.seeing := number 0.05;
     Weights.transparency := number 0.25;
     Weights.moonPhase := number 0.20;
     Weights.humidity := number 0.05 |}.

(** The own properties of the object literal [MODE_WEIGHTS]. *)
Definition MODE_WEIGHTS_own (mode : string) : option Weights.t :=
  if String.eqb mode "general" then Some weights_general
  else if String.eqb mode "deep-sky" then Some weights_deep_sky
  else if String.eqb mode "planetary" then Some weights_planetary
  else if String.eqb mode "milky-way" then Some weights_milky_way
  else None.

(** [MODE_WEIGHTS] is an object literal, so a property read also finds
    what it inherits from [Object.prototype]. *)
Definition Object_prototype_names : list string :=
  [ "constructor"; "hasOwnProperty"; "isPrototypeOf"; "propertyIsEnumerable";
    "toLocaleString"; "toString"; "valueOf"; "__proto__";
    "__defineGetter__"; "__defineSetter__"; "__lookupGetter__"; "__lookupSetter__" ]%string.

Definition inherited_name (mode : string) : bool :=
  existsb (String.eqb mode) Object_prototype_names.

(** The inherited members are functions (or the prototype object): they
    are truthy and have none of the five weight properties. *)
Definition weights_of_inherited : Weights.t :=
  {| Weights.cloudCover := undefined;
     Weights.seeing := undefined;
     Weights.transparency := undefined;
     Weights.moonPhase := undefined;
     Weights.humidity := undefined |}.

(** [MODE_WEIGHTS[mode] || MODE_WEIGHTS.general] *)
Definition lookup_weights (mode : string) : Weights.t :=
  match MODE_WEIGHTS_own mode with
  | Some w => w
  | None => if inherited_name mode then weights_of_inherited else weights_general
  end.

(** The fused conditions of one instant, as [calculateScore] receives them. *)
Module Conditions.
Record t : Type := {
  timestamp : option Z;
  cloudCover : value;
  cloudCoverMin : value;
  cloudCoverMax : value;
  cloudCoverConfidence : option string;
  seeing : value;
  seeingLabel : option string;
  transparency : value;
  transparencyLabel : option string;
  temperature : value;
  humidity : value;
  windSpeed : value;
  windDirectionLabel : option string;
  moonPhase : value;
  moonIllumination : value;
  moonPhaseName : option string;
  isMoonUp : bool;
  sunrise : option string;
  sunset : option string
}.
End Conditions.

Module Warning.
Record t : Type := {
  type : string;
  severity : string;
  message : string;
  icon : string
}.
End Warning.

Module Factor.
Record t : Type := { score : num; weight : value }.
End Factor.

Module Breakdown.
Record t : Type := {
  cloud : Factor.t;
  seeing : Factor.t;
  transparency : Factor.t;
  moon : Factor.t;
  humidity : Factor.t
}.
End Breakdown.

(** The object [calculateScore] returns. *)
Module Result.
Record t : Type := {
  overallScore : num;
  scoreRating : string;
  scoreUncertainty : num;
  breakdown : Breakdown.t;
  warnings : list Warning.t;
  bestObservingTimeNote : string
}.
End Result.

(** Calculate cloud cover score (0% clouds = 100 score) *)
Definition _calculateCloudScore (cloudCover : value) : num :=
  match cloudCover with
  | undefined | null => Fin 50
  | _ => Math.max (Fin 0) (Math.min (Fin 100) (sub (Fin 100) (ToNumber cloudCover)))
  end.

(** Calculate seeing score (1-5 scale to 0-100) *)
Definition _calculateSeeingScore (seeing : value) : num :=
  if negb (truthy seeing) then Fin 60
  else Math.min (Fin 100) (mul (ToNumber seeing) (Fin 20)).

(** Calculate transparency score (1-5 scale to 0-100) *)
Definition _calculateTransparencyScore (transparency : value) : num :=
  if negb (truthy transparency) then Fin 60
  else Math.min (Fin 100) (mul (ToNumber transparency) (Fin 20)).

(** Calculate moon score based on illumination and visibility *)
Definition _calculateMoonScore (illumination : value) (isMoonUp : bool) : num :=
  match illumination with
  | undefined => Fin 80
  | _ =>
      if negb isMoonUp then sub (Fin 100) (mul (ToNumber illumination) (Fin 0.3))
      else Math.max (Fin 0) (sub (Fin 100) (ToNumber illumination))
  end.

(** Calculate humidity score (lower is better for astro) *)
Definition _calculateHumidityScore (humidity : value) : num :=
  match humidity with
  | undefined => Fin 70
  | _ =>
      let h := ToNumber humidity in
      if le h (Fin 50) then Fin 100
      else if le h (Fin 60) then Fin 90
      else if le h (Fin 70) then Fin 75
      else if le h (Fin 80) then Fin 50
      else if le h (Fin 90) then Fin 25
      else Fin 10
  end.

(** Calculate score uncertainty based on ensemble spread *)
Definition _calculateUncertainty (conditions : Conditions.t) : num :=
  let cloudSpread :=
    or_else (sub (ToNumber (Conditions.cloudCoverMax conditions))
                 (ToNumber (Conditions.cloudCoverMin conditions)))
            (Fin 0) in
  if gt cloudSpread (Fin 40) then Fin 20
  else if gt cloudSpread (Fin 25) then Fin 15
  else if gt cloudSpread (Fin 15) then Fin 10
  else if gt cloudSpread (Fin 5) then Fin 5
  else Fin 0.

(** Get score rating label, against [RATING_THRESHOLDS] *)
Definition _getScoreRating (score : num) : string :=
  if ge score (Fin 90) then "perfect"
  else if ge score (Fin 70) then "very-good"
  else if ge score (Fin 50) then "good"
  else if ge score (Fin 30) then "moderate"
  else "poor".

(** [Math.round(conditions.windSpeed)] inside a template literal *)
Definition show_rounded (v : value) : string :=
  match Math.round (ToNumber v) with
  | NaN => "NaN"
  | Fin q => show_int (Qfloor q)
  end.

(** Generate warnings based on conditions *)
Definition _generateWarnings (conditions : Conditions.t) : list Warning.t :=
  let fog :=
    if ge (ToNumber (Conditions.humidity conditions)) (Fin 85)
       && le (ToNumber (Conditions.temperature conditions)) (Fin 5)
    then [ {| Warning.type := "fog-risk"; Warning.severity := "high";
              Warning.message := "Hohes Beschlag-Risiko: Taukappe empfohlen";
              Warning.icon := "💧" |} ]
    else if ge (ToNumber (Conditions.humidity conditions)) (Fin 75)
    then [ {| Warning.type := "fog-risk"; Warning.severity := "medium";
              Warning.message := "Erhöhte Luftfeuchtigkeit: Beschlag möglich";
              Warning.icon := "💧" |} ]
    else [] in
  let wind :=
    if ge (ToNumber (Conditions.windSpeed conditions)) (Fin 30)
    then [ {| Warning.type := "high-wind"; Warning.severity := "high";
              Warning.message :=
                "Starker Wind (" +:+ show_rounded (Conditions.windSpeed conditions)
                +:+ " km/h): Stativstabilität gefährdet";
              Warning.icon := "💨" |} ]
    else if ge (ToNumber (Conditions.windSpeed conditions)) (Fin 20)
    then [ {| Warning.type := "high-wind"; Warning.severity := "medium";
              Warning.message :=
                "Wind (" +:+ show_rounded (Conditions.windSpeed conditions)
                +:+ " km/h): Gewichte empfohlen";
              Warning.icon := "💨" |} ]
    else [] in
  let clouds :=
    if ge (ToNumber (Conditions.cloudCover conditions)) (Fin 70)
    then [ {| Warning.type := "clouds"; Warning.severity := "high";
              Warning.message := "Starke Bewölkung: Beobachtung kaum möglich";
              Warning.icon := "☁️" |} ]
    else if ge (ToNumber (Conditions.cloudCover conditions)) (Fin 40)
    then [ {| Warning.type := "clouds"; Warning.severity := "medium";
              Warning.message := "Teilweise bewölkt: Wolkenlücken nutzen";
              Warning.icon := "⛅" |} ]
    else [] in
  let moonw :=
    if Conditions.isMoonUp conditions
       && ge (ToNumber (Conditions.moonIllumination conditions)) (Fin 70)
    then [ {| Warning.type := "moon-bright"; Warning.severity := "medium";
              Warning.message := "Heller Mond: Deep-Sky erschwert";
              Warning.icon := "🌕" |} ]
    else [] in
  let conf :=
    match Conditions.cloudCoverConfidence conditions with
    | Some c =>
        if String.eqb c "low"
        then [ {| Warning.type := "low-confidence"; Warning.severity := "low";
                  Warning.message := "Vorhersage unsicher: Wettermodelle nicht einig";
                  Warning.icon := "⚠️" |} ]
        else []
    | None => []
    end in
  fog ++ wind ++ clouds ++ moonw ++ conf.

(** Get best time note *)
Definition _getBestTimeNote (score : num) (conditions : Conditions.t) : string :=
  if ge score (Fin 80) then "Ideale Bedingungen erwartet"
  else if ge score (Fin 60) then "Gute Bedingungen mit kleinen Einschränkungen"
  else if ge score (Fin 40) then "Beobachtung möglich, aber erschwert"
  else "Bedingungen nicht optimal".

(** Calculate the overall astro score.  [mode = None] is the omitted
    argument, which the default parameter turns into ['general']. *)
Definition calculateScore (conditions : Conditions.t) (mode : option string) : Result.t :=
  let mode := default "general"%string mode in
  let weights := lookup_weights mode in
  let cloudScore := _calculateCloudScore (Conditions.cloudCover conditions) in
  let seeingScore := _calculateSeeingScore (Conditions.seeing conditions) in
  let transparencyScore := _calculateTransparencyScore (Conditions.transparency conditions) in
  let moonScore :=
    _calculateMoonScore (Conditions.moonIllumination conditions) (Conditions.isMoonUp conditions) in
  let humidityScore := _calculateHumidityScore (Conditions.humidity conditions) in
  let overallScore :=
    Math.round
      (add (add (add (add (mul cloudScore (ToNumber (Weights.cloudCover weights)))
                          (mul seeingScore (ToNumber (Weights.seeing weights))))
                     (mul transparencyScore (ToNumber (Weights.transparency weights))))
                (mul moonScore (ToNumber (Weights.moonPhase weights))))
           (mul humidityScore (ToNumber (Weights.humidity weights)))) in
  let scoreUncertainty := _calculateUncertainty conditions in
  let scoreRating := _getScoreRating overallScore in
  let warnings := _generateWarnings conditions in
  {| Result.overallScore := overallScore;
     Result.scoreRating := scoreRating;
     Result.scoreUncertainty := scoreUncertainty;
     Result.breakdown :=
       {| Breakdown.cloud :=
            {| Factor.score := cloudScore; Factor.weight := Weights.cloudCover weights |};
          Breakdown.seeing :=
            {| Factor.score := seeingScore; Factor.weight := Weights.seeing weights |};
          Breakdown.transparency :=
            {| Factor.score := transparencyScore; Factor.weight := Weights.transparency weights |};
          Breakdown.moon :=
            {| Factor.score := moonScore; Factor.weight := Weights.moonPhase weights |};
          Breakdown.humidity :=
            {| Factor.score := humidityScore; Factor.weight := Weights.humidity weights |} |};
     Result.warnings := warnings;
     Result.bestObservingTimeNote := _getBestTimeNote overallScore conditions |}.

(** Get star rating (1-5) *)
Definition getStars (score : num) : Z :=
  if ge score (Fin 90) then 5
  else if ge score (Fin 70) then 4
  else if ge score (Fin 50) then 3
  else if ge score (Fin 30) then 2
  else 1.

End Score.

(* ===================================================================== *)
(** * The Date object: calendar and local time *)
(* ===================================================================== *)

Module Date.

Definition msPerHour : Z := 3600000.
Definition msPerDay : Z := 86400000.

(** Day(t) and HourFromTime(t) of the language specification. *)
Definition Day (t : Z) : Z := t / msPerDay.
Definition HourFromTime (t : Z) : Z := (t / msPerHour) mod 24.

(** A calendar date of the proleptic Gregorian calendar, month 1 to 12. *)
Record civil : Type := { year : Z; month : Z; day : Z }.

(** The date of a day number (day 0 is 1970-01-01), first in the calendar
    whose years start on 1 March: the year, the month counted from March
    (0 to 11) and the day of the month, through the cycles of 400, 100 and
    4 years. *)
Definition march_based (n : Z) : Z * Z * Z :=
  let z := n + 719468 in
  let era := z / 146097 in
  let d0 := z mod 146097 in
  let c := Z.min (d0 / 36524) 3 in
  let d1 := d0 - c * 36524 in
  let q := d1 / 1461 in
  let d2 := d1 mod 1461 in
  let yq := Z.min (d2 / 365) 3 in
  let doy := d2 - yq * 365 in
  let y := era * 400 + c * 100 + q * 4 + yq in
  let mp := (5 * doy + 2) / 153 in
  let d := doy - (153 * mp + 2) / 5 + 1 in
  (y, mp, d).

(** January and February belong to the next civil year. *)
Definition civil_from_days (n : Z) : civil :=
  let '(y, mp, d) := march_based n in
  let m := if mp <? 10 then mp + 3 else mp - 9 in
  {| year := (if m <=? 2 then y + 1 else y); month := m; day := d |}.

(** The day number of a date; months outside 1..12 are not expected here. *)
Definition days_from_civil (y m d : Z) : Z :=
  let y := if m <=? 2 then y - 1 else y in
  let era := y / 400 in
  let yoe := y mod 400 in
  let mp := if m <=? 2 then m + 9 else m - 3 in
  let doy := (153 * mp + 2) / 5 + d - 1 in
  let doe := yoe * 365 + yoe / 4 - yoe / 100 + doy in
  era * 146097 + doe - 719468.

(** [Date.UTC(year, monthIndex, day, hours)] on integers: months overflow
    into years, days and hours are added linearly, and a year from 0 to 99
    means 1900 + year. *)
Definition UTC (y monthIndex d h : Z) : Z :=
  let y := if (0 <=? y) && (y <=? 99) then 1900 + y else y in
  let ym := y + monthIndex / 12 in
  let mn := monthIndex mod 12 in
  (days_from_civil ym (mn + 1) 1 + (d - 1)) * msPerDay + h * msPerHour.

(** A time value is valid when within 8.64e15 ms of the epoch. *)
Definition valid (t : Z) : bool := Z.abs t <=? 8640000000000000.

(** The time zone of the device: the offset of local time at an instant. *)
Class TimeZone : Type := { LocalTZA : Z -> Z }.

Section Local.
Context `{TimeZone}.
Definition LocalTime (t : Z) : Z := t + LocalTZA t.
Definition getFullYear (t : Z) : Z := year (civil_from_days (Day (LocalTime t))).
Definition getMonth (t : Z) : Z := month (civil_from_days (Day (LocalTime t))) - 1.
Definition getDate (t : Z) : Z := day (civil_from_days (Day (LocalTime t))).
Definition getHours (t : Z) : Z := HourFromTime (LocalTime t).
End Local.

(** A zone that keeps one offset, given in minutes east of Greenwich. *)
Definition fixedOffset (minutes : Z) : TimeZone := {| LocalTZA := fun _ => minutes * 60000 |}.

(** Lexicographic order of calendar dates. *)
Definition civil_lt (a b : civil) : Prop :=
  year a < year b \/
  (year a = year b /\ (month a < month b \/ (month a = month b /\ day a < day b))).
Definition civil_le (a b : civil) : Prop := civil_lt a b \/ a = b.

(** A month and a day of the month that exist in some year. *)
Definition well_formed (a : civil) : Prop := 1 <= month a <= 12 /\ 1 <= day a <= 31.

End Date.

(* ===================================================================== *)
(** * The objects the services hand to the application *)
(* ===================================================================== *)

Module Data.

(** One processed entry of the seeing feed (astro.js, [_processAstroData]). *)
Module AstroHour.
Record t : Type := {
  timestamp : Z;
  timepoint : Z;
  seeingRaw : value;
  seeing : value;
  seeingLabel : string;
  transparencyRaw : value;
  transparency : value;
  transparencyLabel : string;
  cloudCoverRaw : value;
  cloudCover : value;
  liftedIndex : value;
  atmosphereStability : string;
  humidity : value;
  windSpeed : value;
  windDirection : value
}.
End AstroHour.

Module AstroData.
Record t : Type := {
  init : option string;
  fetchedAt : Z;
  hourly : list AstroHour.t;
  isDefault : bool
}.
End AstroData.

(** One processed hour of the weather feed (weather.js, [_processWeatherData]). *)
Module WeatherHour.
Record t : Type := {
  timestamp : Z;
  cloudCover : value;
  cloudCoverMin : value;
  cloudCoverMax : value;
  cloudCoverSpread : value;
  cloudCoverConfidence : string;
  temperature : value;
  humidity : value;
  windSpeed : value;
  windDirection : value;
  windDirectionLabel : option string;
  precipitationProbability : value
}.
End WeatherHour.

Module WeatherData.
Record t : Type := {
  hourly : list WeatherHour.t;
  timezone : option string;
  fetchedAt : Z
}.
End WeatherData.

Module MoonPhase.
Record t : Type := {
  phase : value;
  illumination : value;
  phaseName : option string
}.
(** The empty object [{}] that stands in for a missing day. *)
Definition empty : t := {| phase := undefined; illumination := undefined; phaseName := None |}.
End MoonPhase.

(** What [fetchAstronomicalData] resolves to: daily sun times and moon phases. *)
Module AstronomicalData.
Record t : Type := {
  sunrise : option (list string);
  sunset : option (list string);
  moonPhases : option (list MoonPhase.t)
}.
End AstronomicalData.

(** The values the cache holds. *)
Inductive payload : Type :=
| OfAstro (d : AstroData.t)
| OfWeather (d : WeatherData.t)
| OfAstronomical (d : AstronomicalData.t).

End Data.

(* ===================================================================== *)
(** * src/services/cache.js *)
(* ===================================================================== *)

Module Cache.

Definition CACHE_PREFIX : string := "astroweather_cache_".
Definition DEFAULT_TTL : Z := 3 * 60 * 60 * 1000.

(** Generate a cache key *)
Definition _generateKey (key : string) : string := CACHE_PREFIX +:+ key.

(** [k.startsWith(prefix)] *)
Definition startsWith (prefix k : string) : bool := String.prefix prefix k.

(** What [getMeta] returns.  A date made of a missing field is the
    Invalid Date, an age computed from one is NaN: both are [None]. *)
Module Meta.
Record t : Type := {
  timestamp : option Z;
  expiry : option Z;
  isExpired : bool;
  age : option Z
}.
End Meta.

Section Service.
(** The payloads are opaque to the cache; [JSON.parse (JSON.stringify v)]
    is taken to give [v] back. *)
Context {V : Type}.

(** The object kept for a key: [{ data, expiry, timestamp }].  After a
    round trip through the durable tier a field may be missing. *)
Record cached : Type := {
  data : V;
  expiry : option Z;
  timestamp : option Z
}.

(** The text stored under a key in [localStorage]: the JSON of a cached
    object, or text that [JSON.parse] or the reads after it reject. *)
Inductive item : Type :=
| Unparsable
| Json (c : cached).

Definition JSON_stringify (c : cached) : item := Json c.
Definition JSON_parse (i : item) : completion cached :=
  match i with
  | Unparsable => Throw (SyntaxError "Unexpected token")
  | Json c => Normal c
  end.

(** The two tiers. *)
Record state : Type := {
  memoryCache : gmap string cached;
  localStorage : gmap string item
}.

(** Whether the browser refuses a write for lack of space, given what the
    storage holds. *)
Variable quotaExceeded : gmap string item -> string -> item -> bool.

Definition setItem (k : string) (v : item) (store : gmap string item)
  : completion (gmap string item) :=
  if quotaExceeded store k v then Throw QuotaExceededError
  else Normal (<[k := v]> store).

(** [Object.keys(localStorage)], in the order the user agent lists them. *)
Definition Object_keys (store : gmap string item) : list string :=
  (map_to_list store).*1.

(** [Date.now() < cached.expiry] *)
Definition unexpired (now : Z) (c : cached) : bool :=
  match expiry c with
  | Some e => now <? e
  | None => false
  end.

(** The part of [get] that tries localStorage, inside its [try]. *)
Definition get_stored (cacheKey : string) (now : Z) (st : state) : option V * state :=
  match localStorage st !! cacheKey with
  | Some stored =>
      match JSON_parse stored with
      | Normal c =>
          if unexpired now c then
            (Some (data c),
             {| memoryCache := <[cacheKey := c]> (memoryCache st);
                localStorage := localStorage st |})
          else
            (None,
             {| memoryCache := memoryCache st;
                localStorage := delete cacheKey (localStorage st) |})
      | Throw _ => (None, st)
      end
  | None => (None, st)
  end.

(** Get cached data: the data, or [None] for the [null] of a miss. *)
Definition get (key : string) (now : Z) (st : state) : option V * state :=
  let cacheKey := _generateKey key in
  match memoryCache st !! cacheKey with
  | Some c =>
      if unexpired now c then (Some (data c), st)
      else get_stored cacheKey now
             {| memoryCache := delete cacheKey (memoryCache st);
                localStorage := localStorage st |}
  | None => get_stored cacheKey now st
  end.

(** The creation time [_cleanupStorage] reads off a stored text:
    [data.timestamp || 0], and 0 when reading it throws. *)
Definition entry_timestamp (i : option item) : Z :=
  match i with
  | Some stored =>
      match JSON_parse stored with
      | Normal c => default 0 (timestamp c)
      | Throw _ => 0
      end
  | None => 0
  end.

(** [entries.sort((a, b) => a.timestamp - b.timestamp)]: a stable sort. *)
Fixpoint insert_by_timestamp (e : string * Z) (l : list (string * Z)) : list (string * Z) :=
  match l with
  | [] => [e]
  | x :: r => if e.2 <=? x.2 then e :: x :: r else x :: insert_by_timestamp e r
  end.
Definition sort_by_timestamp (l : list (string * Z)) : list (string * Z) :=
  foldr insert_by_timestamp [] l.

(** [Math.ceil(n / 2)] *)
Definition half_up (n : nat) : nat :=
  Z.to_nat (Math.ceilQ (inject_Z (Z.of_nat n) / 2)).

(** Cleanup old cache entries when storage is full *)
Definition _cleanupStorage (store : gmap string item) : gmap string item :=
  let keys := filter (fun k => startsWith CACHE_PREFIX k = true) (Object_keys store) in
  let entries := map (fun k => (k, entry_timestamp (store !! k))) keys in
  let entries := sort_by_timestamp entries in
  let toRemove := half_up (length entries) in
  foldl (fun st e => delete e.1 st) store (take toRemove entries).

(** Set cached data; [ttl = None] is the omitted argument, for which the
    default stands.  Both reads of the clock give [now].  The write to
    localStorage may throw; the handler only cleans up. *)
Definition set (key : string) (d : V) (ttl : option Z) (now : Z) (st : state)
  : completion unit * state :=
  let ttl := default DEFAULT_TTL ttl in
  let cacheKey := _generateKey key in
  let c := {| data := d; expiry := Some (now + ttl); timestamp := Some now |} in
  let memory := <[cacheKey := c]> (memoryCache st) in
  match setItem cacheKey (JSON_stringify c) (localStorage st) with
  | Normal store =>
      (Normal tt, {| memoryCache := memory; localStorage := store |})
  | Throw _ =>
      (Normal tt,
       {| memoryCache := memory; localStorage := _cleanupStorage (localStorage st) |})
  end.

(** Remove cached data *)
Definition remove (key : string) (st : state) : state :=
  let cacheKey := _generateKey key in
  {| memoryCache := delete cacheKey (memoryCache st);
     localStorage := delete cacheKey (localStorage st) |}.

(** Clear all cache *)
Definition clear (st : state) : state :=
  let keys := filter (fun k => startsWith CACHE_PREFIX k = true) (Object_keys (localStorage st)) in
  {| memoryCache := ∅;
     localStorage := foldl (fun s k => delete k s) (localStorage st) keys |}.

(** Get cache metadata (for debugging/display): read off the durable tier
    alone.  [Date.now() >= cached.expiry] is false for a missing expiry. *)
Definition getMeta (key : string) (now : Z) (st : state) : option Meta.t :=
  let cacheKey := _generateKey key in
  match localStorage st !! cacheKey with
  | Some stored =>
      match JSON_parse stored with
      | Normal c =>
          Some {| Meta.timestamp := timestamp c;
                  Meta.expiry := expiry c;
                  Meta.isExpired := match expiry c with
                                    | Some e => e <=? now
                                    | None => false
                                    end;
                  Meta.age := (fun t => now - t) <$> timestamp c |}
      | Throw _ => None
      end
  | None => None
  end.

End Service.

Arguments cached : clear implicits.
Arguments item : clear implicits.
Arguments state : clear implicits.

End Cache.

(* ===================================================================== *)
(** * The network *)
(* ===================================================================== *)

Module Net.

(** What [await fetch(url)] comes to: the promise is rejected (no network),
    or a response arrives, with a status and a body that [response.json()]
    reads or rejects. *)
Inductive fetched (Body : Type) : Type :=
| Rejected (e : error)
| Responded (status : Z) (json : completion Body).
Arguments Rejected {Body} e.
Arguments Responded {Body} status json.

(** [response.ok]: the status is in the range 200-299. *)
Definition ok (status : Z) : bool := (200 <=? status) && (status <=? 299).

End Net.

(* ===================================================================== *)
(** * src/services/astro.js *)
(* ===================================================================== *)

Module Astro.
Import Data.

Definition CACHE_TTL : Z := 3 * 60 * 60 * 1000.

(** The JSON of the 7Timer! feed.  A [timepoint] is a whole number of
    hours; one that is missing or not a number is [None].  The codes are
    numbers, as the feed documents them, [null] or missing; text in the
    place of a code is not represented. *)
Module Wind10m.
Record t : Type := { speed : value; direction : value }.
End Wind10m.

Module RawEntry.
Record t : Type := {
  timepoint : option Z;
  seeing : value;
  transparency : value;
  cloudcover : value;
  lifted_index : value;
  rh2m : value;
  wind10m : option Wind10m.t
}.
End RawEntry.

Module RawData.
Record t : Type := {
  init : option string;
  dataseries : option (list RawEntry.t)
}.
End RawData.

(** Get default astro data when API fails *)
Definition _getDefaultAstroData (now : Z) : AstroData.t :=
  {| AstroData.init := None;
     AstroData.fetchedAt := now;
     AstroData.hourly := [];
     AstroData.isDefault := true |}.

(** Parse 7Timer init time format (e.g., "2026012400"); [None] is the
    Invalid Date. *)
Definition _parseInitTime (initTime : option string) (now : Z) : option Z :=
  match initTime with
  | None | Some EmptyString => Some now
  | Some str =>
      year ← parseInt (String.substring 0 4 str);
      month ← (fun m => m - 1) <$> parseInt (String.substring 4 2 str);
      day ← parseInt (String.substring 6 2 str);
      hour ← parseInt (String.substring 8 2 str);
      let t := Date.UTC year month day hour in
      if Date.valid t then Some t else None
  end.

(** Convert 7Timer seeing (1-8) to 1-5 scale *)
Definition _convertSeeing (v : value) : Q :=
  if negb (truthy v) then 3
  else if le (ToNumber v) (Fin 2) then 5
  else if le (ToNumber v) (Fin 4) then 4
  else if cmp Qeq_bool (ToNumber v) (Fin 5) then 3
  else if cmp Qeq_bool (ToNumber v) (Fin 6) then 2
  else 1.

(** The label table shared by seeing and transparency, read with a
    converted rating. *)
Definition rating_label (converted : Q) : string :=
  if Qeq_bool converted 5 then "Ausgezeichnet"
  else if Qeq_bool converted 4 then "Gut"
  else if Qeq_bool converted 3 then "Durchschnittlich"
  else if Qeq_bool converted 2 then "Unterdurchschnittlich"
  else if Qeq_bool converted 1 then "Schlecht"
  else "Unbekannt".

Definition _getSeeingLabel (v : value) : string := rating_label (_convertSeeing v).

(** Convert 7Timer transparency (1-8) to 1-5 scale *)
Definition _convertTransparency (v : value) : Q :=
  if negb (truthy v) then 3
  else if ge (ToNumber v) (Fin 7) then 5
  else if ge (ToNumber v) (Fin 5) then 4
  else if cmp Qeq_bool (ToNumber v) (Fin 4) then 3
  else if ge (ToNumber v) (Fin 2) then 2
  else 1.

Definition _getTransparencyLabel (v : value) : string :=
  rating_label (_convertTransparency v).

(** Convert 7Timer cloud cover (1-9) to percentage *)
Definition midpoints : list Q := [3; 12.5; 25; 37.5; 50; 62.5; 75; 87.5; 97]%Q.
Definition _convertCloudCover (v : value) : Q :=
  if negb (truthy v) then 50
  else match ToNumber v with
       | Fin q =>
           match as_integer (q - 1) with
           | Some i => if 0 <=? i then default 50%Q (midpoints !! Z.to_nat i) else 50
           | None => 50
           end
       | NaN => 50
       end.

(** Get atmospheric stability label from lifted index *)
Definition _getStabilityLabel (li : value) : string :=
  match li with
  | undefined => "Unbekannt"
  | _ =>
      if ge (ToNumber li) (Fin 6) then "Sehr stabil"
      else if ge (ToNumber li) (Fin 1) then "Stabil"
      else if ge (ToNumber li) (Fin (-3)) then "Leicht instabil"
      else "Instabil"
  end.

(** Convert humidity code to approximate percentage: [humidityMap], read
    with [String(rh2m)].  The table is an object literal: for a code that
    is a number, [null] or missing the read finds one of its own entries or
    nothing.  (Text that names a member of [Object.prototype], which the
    read would return instead, is outside the codes modelled here.) *)
Definition humidityMap (code : Z) : option Q :=
  nth_error [5; 10; 15; 20; 30; 40; 50; 60; 70; 80; 85; 90; 92; 95; 97; 99;
             100; 100; 100; 100; 100]%Q
            (Z.to_nat (code + 4)).
Definition _convertHumidity (rh2m : value) : Q :=
  match rh2m with
  | number q =>
      match as_integer q with
      | Some code => if -4 <=? code then default 50%Q (humidityMap code) else 50
      | None => 50
      end
  | _ => 50
  end.

(** Convert wind speed code to km/h: [speedMap], an object literal read
    with the code as the key, on the same codes as [humidityMap]. *)
Definition speedMap (code : Z) : option Q :=
  if code <=? 0 then None
  else nth_error [0.5; 3; 9; 16; 25; 36; 47; 59]%Q (Z.to_nat (code - 1)).
Definition _convertWindSpeed (speedCode : value) : Q :=
  match speedCode with
  | number q => default 0%Q (as_integer q ≫= speedMap)
  | _ => 0
  end.

(** Process 7Timer! data into usable format.  [toISOString] throws on an
    invalid date. *)
Definition process_entry (baseTime : option Z) (entry : RawEntry.t) : completion AstroHour.t :=
  match baseTime, RawEntry.timepoint entry with
  | Some base, Some timepoint =>
      let t := base + timepoint * 60 * 60 * 1000 in
      if Date.valid t then
        Normal
          {| AstroHour.timestamp := t;
             AstroHour.timepoint := timepoint;
             AstroHour.seeingRaw := RawEntry.seeing entry;
             AstroHour.seeing := number (_convertSeeing (RawEntry.seeing entry));
             AstroHour.seeingLabel := _getSeeingLabel (RawEntry.seeing entry);
             AstroHour.transparencyRaw := RawEntry.transparency entry;
             AstroHour.transparency := number (_convertTransparency (RawEntry.transparency entry));
             AstroHour.transparencyLabel := _getTransparencyLabel (RawEntry.transparency entry);
             AstroHour.cloudCoverRaw := RawEntry.cloudcover entry;
             AstroHour.cloudCover := number (_convertCloudCover (RawEntry.cloudcover entry));
             AstroHour.liftedIndex := RawEntry.lifted_index entry;
             AstroHour.atmosphereStability := _getStabilityLabel (RawEntry.lifted_index entry);
             AstroHour.humidity := number (_convertHumidity (RawEntry.rh2m entry));
             AstroHour.windSpeed :=
               number (_convertWindSpeed
                         (from_option Wind10m.speed undefined (RawEntry.wind10m entry)));
             AstroHour.windDirection :=
               from_option Wind10m.direction undefined (RawEntry.wind10m entry) |}
      else Throw (RangeError "Invalid time value")
  | _, _ => Throw (RangeError "Invalid time value")
  end.

Definition _processAstroData (data : option RawData.t) (now : Z) : completion AstroData.t :=
  match data with
  | None => Normal (_getDefaultAstroData now)
  | Some data =>
      match RawData.dataseries data with
      | None => Normal (_getDefaultAstroData now)
      | Some dataseries =>
          let baseTime := _parseInitTime (RawData.init data) now in
          bind (map_throwing (process_entry baseTime) dataseries) (fun hourlyData =>
          Normal {| AstroData.init := RawData.init data;
                    AstroData.fetchedAt := now;
                    AstroData.hourly := hourlyData;
                    AstroData.isDefault := false |})
      end
  end.

Section Service.
Variable quotaExceeded : gmap string (Cache.item payload) -> string -> Cache.item payload -> bool.

(** The [try] block of [fetchAstroData]. *)
Definition fetch_and_process (cacheKey : string) (now : Z)
    (net : Net.fetched (option RawData.t)) (st : Cache.state payload)
  : completion (payload * Cache.state payload) :=
  match net with
  | Net.Rejected e => Throw e
  | Net.Responded status json =>
      if negb (Net.ok status) then Throw (Error ("7Timer API error: " +:+ show_int status))
      else
        bind json (fun data =>
        bind (_processAstroData data now) (fun processed =>
        let '(done, st') :=
          Cache.set quotaExceeded cacheKey (OfAstro processed) (Some CACHE_TTL) now st in
        bind done (fun _ => Normal (OfAstro processed, st'))))
  end.

(** Fetch astro-specific data from 7Timer! API.  [net] is what the
    request comes to if it is made. *)
Definition fetchAstroData (latitude longitude : Q) (now : Z)
    (net : Net.fetched (option RawData.t)) (st : Cache.state payload)
  : completion payload * Cache.state payload :=
  let cacheKey := "astro_" +:+ toFixed latitude 3 +:+ "_" +:+ toFixed longitude 3 in
  match Cache.get cacheKey now st with
  | (Some cached, st) => (Normal cached, st)
  | (None, st) =>
      match fetch_and_process cacheKey now net st with
      | Normal (processed, st') => (Normal processed, st')
      | Throw _ => (Normal (OfAstro (_getDefaultAstroData now)), st)
      end
  end.
End Service.

End Astro.

(* ===================================================================== *)
(** * src/services/weather.js *)
(* ===================================================================== *)

Module Weather.
Import Data.

Definition CACHE_TTL : Z := 3 * 60 * 60 * 1000.

(** The JSON of the Open-Meteo forecast: parallel arrays under [hourly].
    A time that [new Date] cannot read is [None]. *)
Module RawHourly.
Record t : Type := {
  time : option (list (option Z));
  cloud_cover : option (list value);
  cloud_cover_low : option (list value);
  cloud_cover_mid : option (list value);
  cloud_cover_high : option (list value);
  temperature_2m : option (list value);
  relative_humidity_2m : option (list value);
  wind_speed_10m : option (list value);
  wind_direction_10m : option (list value);
  precipitation_probability : option (list value)
}.
End RawHourly.

Module RawData.
Record t : Type := {
  hourly : option RawHourly.t;
  timezone : option string
}.
End RawData.

(** [array[i]], which throws when [array] is undefined. *)
Definition index (array : option (list value)) (i : nat) : completion value :=
  match array with
  | Some a => Normal (default undefined (a !! i))
  | None => Throw (TypeError "Cannot read properties of undefined")
  end.

(** [array?.[i]] *)
Definition index_opt (array : option (list value)) (i : nat) : value :=
  default undefined (array ≫= (fun a => a !! i)).

(** Convert wind direction degrees to label *)
Definition directions : list string := ["N"; "NE"; "E"; "SE"; "S"; "SW"; "W"; "NW"]%string.
Definition _getWindDirectionLabel (degrees : value) : option string :=
  match ToNumber degrees with
  | Fin d =>
      let i := Z.rem (Math.roundQ (Qrem d 360 / 45)) 8 in
      if 0 <=? i then directions !! Z.to_nat i else None
  | NaN => None
  end.

(** A finite number: the value of [x || 0]. *)
Definition or0 (v : value) : Q :=
  match or v (number 0) with
  | number q => q
  | _ => 0
  end.

Definition Qmax (a b : Q) : Q := if Qle_bool a b then b else a.
Definition Qmin (a b : Q) : Q := if Qle_bool a b then a else b.

(** The body of [times.map((time, i) => ...)].  Fields that repeat
    another ([time], the Min and Max of temperature, humidity, wind) are
    left out of the record. *)
Definition process_hour (hourly : RawHourly.t) (it : nat * option Z) : completion WeatherHour.t :=
  let '(i, time) := it in
  bind (index (RawHourly.cloud_cover hourly) i) (fun cc =>
  let totalCloud := or0 cc in
  let lowCloud := or0 (index_opt (RawHourly.cloud_cover_low hourly) i) in
  let midCloud := or0 (index_opt (RawHourly.cloud_cover_mid hourly) i) in
  let highCloud := or0 (index_opt (RawHourly.cloud_cover_high hourly) i) in
  let cloudSpread :=
    (Qmax (Qmax lowCloud midCloud) highCloud - Qmin (Qmin lowCloud midCloud) highCloud)%Q in
  match time with
  | None => Throw (RangeError "Invalid time value")
  | Some t =>
      bind (index (RawHourly.temperature_2m hourly) i) (fun temp =>
      bind (index (RawHourly.relative_humidity_2m hourly) i) (fun hum =>
      bind (index (RawHourly.wind_speed_10m hourly) i) (fun wind =>
      bind (index (RawHourly.wind_direction_10m hourly) i) (fun dir =>
      Normal
        {| WeatherHour.timestamp := t;
           WeatherHour.cloudCover := number totalCloud;
           WeatherHour.cloudCoverMin := number (Qmax 0 (totalCloud - cloudSpread * 0.3));
           WeatherHour.cloudCoverMax := number (Qmin 100 (totalCloud + cloudSpread * 0.3));
           WeatherHour.cloudCoverSpread := number cloudSpread;
           WeatherHour.cloudCoverConfidence :=
             if Qltb cloudSpread 20 then "high"
             else if Qltb cloudSpread 40 then "medium" else "low";
           WeatherHour.temperature := temp;
           WeatherHour.humidity := hum;
           WeatherHour.windSpeed := wind;
           WeatherHour.windDirection := dir;
           WeatherHour.windDirectionLabel := _getWindDirectionLabel dir;
           WeatherHour.precipitationProbability :=
             number (or0 (index_opt (RawHourly.precipitation_probability hourly) i)) |}))))
  end).

(** Process standard weather data (non-ensemble) *)
Definition _processWeatherData (data : RawData.t) (now : Z) : completion WeatherData.t :=
  match RawData.hourly data with
  | None => Throw (TypeError "Cannot read properties of undefined")
  | Some hourly =>
      match RawHourly.time hourly with
      | None => Throw (TypeError "Cannot read properties of undefined")
      | Some times =>
          bind (map_throwing (process_hour hourly) (imap pair times)) (fun processedHours =>
          Normal {| WeatherData.hourly := processedHours;
                    WeatherData.timezone := RawData.timezone data;
                    WeatherData.fetchedAt := now |})
      end
  end.

(** The hourly data of one variable: one array for a single model, or one
    array per member of an ensemble (the first element is an array). *)
Inductive series : Type :=
| Single (values : list value)
| Members (first : list value) (rest : list (list value)).

Definition defined (v : value) : bool :=
  match v with
  | undefined | null => false
  | number _ => true
  end.

(** Get ensemble values for a specific hour index *)
Definition _getEnsembleValues (data : option series) (index : nat) : list value :=
  match data with
  | None => [number 0]
  | Some (Single values) => [default undefined (values !! index)]
  | Some (Members first rest) =>
      List.filter defined (map (fun member => default undefined (member !! index)) (first :: rest))
  end.

(** [Math.min(...values)] and [Math.max(...values)] of a non-empty array *)
Definition _calculateMin (values : list value) : num :=
  match values with
  | [] => Fin 0
  | v :: rest => foldl (fun a b => Math.min a (ToNumber b)) (ToNumber v) rest
  end.
Definition _calculateMax (values : list value) : num :=
  match values with
  | [] => Fin 0
  | v :: rest => foldl (fun a b => Math.max a (ToNumber b)) (ToNumber v) rest
  end.

(** The sums, the quotient and the difference of the ensemble statistics
    are those of doubles: each exact result is rounded to a double by
    [rnd].  Minimum, maximum and the comparisons round nothing. *)
Section Rounding.
Variable rnd : Q -> Q.

Definition rounded (n : num) : num :=
  match n with
  | NaN => NaN
  | Fin q => Fin (rnd q)
  end.

(** [values.reduce((a, b) => a + b, 0) / values.length] *)
Definition _calculateMean (values : list value) : num :=
  match values with
  | [] => Fin 0
  | _ :: _ =>
      rounded (div (foldl (fun a b => rounded (add a (ToNumber b))) (Fin 0) values)
                   (Fin (inject_Z (Z.of_nat (length values)))))
  end.

(** Determine confidence level based on ensemble spread *)
Definition _getConfidence (values : list value) : string :=
  if (length values <=? 1)%nat then "high"
  else
    let spread := rounded (sub (_calculateMax values) (_calculateMin values)) in
    if gt spread (Fin 30) then "low"
    else if gt spread (Fin 15) then "medium"
    else "high".

End Rounding.

Section Service.
Variable quotaExceeded : gmap string (Cache.item payload) -> string -> Cache.item payload -> bool.

(** The [try] block of [fetchWeatherData]. *)
Definition fetch_and_process (cacheKey : string) (now : Z)
    (net : Net.fetched RawData.t) (st : Cache.state payload)
  : completion (payload * Cache.state payload) :=
  match net with
  | Net.Rejected e => Throw e
  | Net.Responded status json =>
      if negb (Net.ok status) then Throw (Error ("Weather API error: " +:+ show_int status))
      else
        bind json (fun data =>
        bind (_processWeatherData data now) (fun processed =>
        let '(done, st') :=
          Cache.set quotaExceeded cacheKey (OfWeather processed) (Some CACHE_TTL) now st in
        bind done (fun _ => Normal (OfWeather processed, st'))))
  end.

(** Fetch weather data from Open-Meteo Forecast API.  The handler logs
    and throws the error again. *)
Definition fetchWeatherData (latitude longitude : Q) (now : Z)
    (net : Net.fetched RawData.t) (st : Cache.state payload)
  : completion payload * Cache.state payload :=
  let cacheKey := "weather_" +:+ toFixed latitude 3 +:+ "_" +:+ toFixed longitude 3 in
  match Cache.get cacheKey now st with
  | (Some cached, st) => (Normal cached, st)
  | (None, st) =>
      match fetch_and_process cacheKey now net st with
      | Normal (processed, st') => (Normal processed, st')
      | Throw error => (Throw error, st)
      end
  end.
End Service.

End Weather.

(* ===================================================================== *)
(** * src/services/storage.js *)
(* ===================================================================== *)

Module Storage.

Definition SETTINGS : string := "skyready_settings".
Definition FAVORITES : string := "skyready_favorites".
Definition LAST_LOCATION : string := "skyready_last_location".
Definition STORAGE_KEYS : list string := [SETTINGS; FAVORITES; LAST_LOCATION].

Module Settings.
Record t : Type := {
  photographyMode : string;
  temperatureUnit : string;
  theme : string;
  showDetailedParams : bool
}.
End Settings.

Definition DEFAULT_SETTINGS : Settings.t :=
  {| Settings.photographyMode := "general";
     Settings.temperatureUnit := "celsius";
     Settings.theme := "auto";
     Settings.showDetailedParams := false |}.

(** An object with some of the settings: the updates of a call, or what
    the stored text parses to. *)
Module Updates.
Record t : Type := {
  photographyMode : option string;
  temperatureUnit : option string;
  theme : option string;
  showDetailedParams : option bool
}.
End Updates.

(** [{ ...settings, ...updates }] *)
Definition spread (settings : Settings.t) (updates : Updates.t) : Settings.t :=
  {| Settings.photographyMode :=
       default (Settings.photographyMode settings) (Updates.photographyMode updates);
     Settings.temperatureUnit :=
       default (Settings.temperatureUnit settings) (Updates.temperatureUnit updates);
     Settings.theme := default (Settings.theme settings) (Updates.theme updates);
     Settings.showDetailedParams :=
       default (Settings.showDetailedParams settings) (Updates.showDetailedParams updates) |}.

(** The location a favorite is made of, and the favorite as it is stored. *)
Module Location.
Record t : Type := { name : string; latitude : Q; longitude : Q }.
End Location.

Module Favorite.
Record t : Type := {
  id : string;
  name : string;
  latitude : Q;
  longitude : Q;
  isFavorite : bool
}.
End Favorite.

(** The text under a key: JSON of the expected shape, or text that
    [JSON.parse] rejects. *)
Inductive text (A : Type) : Type :=
| Unparsable
| Json (a : A).
Arguments Unparsable {A}.
Arguments Json {A} a.

(** The three items of [localStorage] the service keeps; [None] is a key
    that is not there. *)
Record state : Type := {
  settings : option (text Updates.t);
  favorites : option (text (list Favorite.t));
  lastLocation : option (text Location.t)
}.

Definition JSON_stringify (s : Settings.t) : Updates.t :=
  {| Updates.photographyMode := Some (Settings.photographyMode s);
     Updates.temperatureUnit := Some (Settings.temperatureUnit s);
     Updates.theme := Some (Settings.theme s);
     Updates.showDetailedParams := Some (Settings.showDetailedParams s) |}.

(** [Math.abs] on a rational *)
Definition abs (q : Q) : Q := if Qle_bool 0 q then q else (- q)%Q.

(** The test of [addFavorite] and [isFavorite]: both coordinates within
    0.001 of the given ones. *)
Definition near (lat lon : Q) (f : Favorite.t) : bool :=
  Qltb (abs (Favorite.latitude f - lat)) 0.001
  && Qltb (abs (Favorite.longitude f - lon)) 0.001.

(** Get user settings *)
Definition getSettings (st : state) : Settings.t :=
  match settings st with
  | Some (Json parsed) => spread DEFAULT_SETTINGS parsed
  | _ => DEFAULT_SETTINGS
  end.

(** Get favorite locations (max 5) *)
Definition getFavorites (st : state) : list Favorite.t :=
  match favorites st with
  | Some (Json stored) => stored
  | _ => []
  end.

(** Get the last used location *)
Definition getLastLocation (st : state) : option Location.t :=
  match lastLocation st with
  | Some (Json stored) => Some stored
  | _ => None
  end.

(** Check if a location is a favorite *)
Definition isFavorite (lat lon : Q) (st : state) : option Favorite.t :=
  List.find (near lat lon) (getFavorites st).

(** Clear all data *)
Definition clearAll (st : state) : state :=
  {| settings := None; favorites := None; lastLocation := None |}.

Section Service.
(** Whether the browser refuses, for lack of space, the write that turns
    the first storage into the second. *)
Variable quotaExceeded : state -> state -> bool.

(** Update user settings *)
Definition updateSettings (updates : Updates.t) (st : state) : Settings.t * state :=
  let current := getSettings st in
  let newSettings := spread current updates in
  let st' := {| settings := Some (Json (JSON_stringify newSettings));
                favorites := favorites st;
                lastLocation := lastLocation st |} in
  if quotaExceeded st st' then (getSettings st, st) else (newSettings, st').

(** Add a favorite location.  [now] and [random] make the unique id. *)
Definition addFavorite (location : Location.t) (now : Z) (random : string) (st : state)
  : bool * state :=
  let favorites := getFavorites st in
  if (5 <=? length favorites)%nat then (false, st)
  else if existsb (near (Location.latitude location) (Location.longitude location)) favorites
  then (false, st)
  else
    let newLocation :=
      {| Favorite.id := "fav_" +:+ show_int now +:+ "_" +:+ random;
         Favorite.name := Location.name location;
         Favorite.latitude := Location.latitude location;
         Favorite.longitude := Location.longitude location;
         Favorite.isFavorite := true |} in
    let st' := {| settings := settings st;
                  favorites := Some (Json (favorites ++ [newLocation]));
                  lastLocation := lastLocation st |} in
    if quotaExceeded st st' then (false, st) else (true, st').

(** Remove a favorite location *)
Definition removeFavorite (id : string) (st : state) : bool * state :=
  let favorites := getFavorites st in
  let filtered := List.filter (fun f => negb (String.eqb (Favorite.id f) id)) favorites in
  let st' := {| settings := settings st;
                favorites := Some (Json filtered);
                lastLocation := lastLocation st |} in
  if quotaExceeded st st' then (false, st) else (true, st').

(** Save the last used location *)
Definition setLastLocation (location : Location.t) (st : state) : state :=
  let st' := {| settings := settings st;
                favorites := favorites st;
                lastLocation := Some (Json location) |} in
  if quotaExceeded st st' then st else st'.

End Service.

End Storage.

(* ===================================================================== *)
(** * src/app.js: fusing the feeds, the daily forecast *)
(* ===================================================================== *)

Module App.
Import Data.
Import Score.

Module HourlyScore.
Record t : Type := {
  timestamp : Z;
  score : num;
  scoreMin : num;
  scoreMax : num
}.
End HourlyScore.

Module DayForecast.
Record t : Type := {
  date : string;
  overallScore : num;
  scoreRating : string;
  scoreUncertainty : num;
  hourlyScores : list HourlyScore.t;
  bestHour : option Z
}.
End DayForecast.

(** The part of [this.state] that the data processing reads and writes. *)
Module State.
Record t : Type := {
  conditions : option Conditions.t;
  score : option Result.t;
  forecast : list DayForecast.t;
  photographyMode : option string
}.
End State.

(** The rating [buildForecastData] falls back on when the score service
    has none. *)
Definition getScoreRating (score : num) : string :=
  if ge score (Fin 90) then "perfect"
  else if ge score (Fin 70) then "very-good"
  else if ge score (Fin 50) then "good"
  else if ge score (Fin 30) then "moderate"
  else "poor".

(** [object?.field?.[i]] *)
Definition optional_at {O A} (field : O -> option (list A)) (object : option O) (i : nat)
  : option A :=
  match object with
  | Some o =>
      match field o with
      | Some array => array !! i
      | None => None
      end
  | None => None
  end.

(** [minDiff], which starts at [Infinity]. *)
Definition below (diff : Z) (minDiff : option Z) : bool :=
  match minDiff with
  | None => true
  | Some m => diff <? m
  end.

(** One turn of the loop of [findMatchingAstroData]. *)
Definition closer (targetTime : Z) (acc : AstroHour.t * option Z) (entry : AstroHour.t)
  : AstroHour.t * option Z :=
  let '(closest, minDiff) := acc in
  let entryTime := AstroHour.timestamp entry in
  let diff := Math.abs (entryTime - targetTime) in
  if below diff minDiff then (entry, Some diff) else (closest, minDiff).

Definition findMatchingAstroData (astroData : option AstroData.t) (targetTime : Z)
  : option AstroHour.t :=
  match astroData with
  | None => None
  | Some astroData =>
      match AstroData.hourly astroData with
      | [] => None
      | first :: _ =>
          Some (foldl (closer targetTime) (first, None) (AstroData.hourly astroData)).1
      end
  end.

(** The loop of [findCurrentHourIndex], at index [i]. *)
Fixpoint findCurrentHourIndex_from (i : nat) (hourlyData : list WeatherHour.t) (now : Z) : nat :=
  match hourlyData with
  | [] => 0%nat
  | h :: rest =>
      if now <=? WeatherHour.timestamp h then Nat.max 0 (i - 1)
      else findCurrentHourIndex_from (S i) rest now
  end.
Definition findCurrentHourIndex (hourlyData : list WeatherHour.t) (now : Z) : nat :=
  findCurrentHourIndex_from 0 hourlyData now.

(** [dailyGroups]: an object used as a map from date keys to arrays, its
    keys listed in the order they were first written (a date key has
    dashes in it, so it is never an array index, which would be listed
    first, nor a name [Object.prototype] defines). *)
Fixpoint push_group (dateKey : string) (hour : WeatherHour.t)
    (dailyGroups : list (string * list WeatherHour.t)) : list (string * list WeatherHour.t) :=
  match dailyGroups with
  | [] => [(dateKey, [hour])]
  | (k, hours) :: rest =>
      if String.eqb k dateKey then (k, hours ++ [hour]) :: rest
      else (k, hours) :: push_group dateKey hour rest
  end.

(** [dailyGroups[dateKey]], for a key the object has. *)
Fixpoint lookup_group (dateKey : string) (dailyGroups : list (string * list WeatherHour.t))
  : list WeatherHour.t :=
  match dailyGroups with
  | [] => []
  | (k, hours) :: rest => if String.eqb k dateKey then hours else lookup_group dateKey rest
  end.

Definition findBestHour (hourlyScores : list HourlyScore.t) : option Z :=
  match hourlyScores with
  | [] => None
  | first :: _ =>
      let best :=
        foldl (fun best h => if gt (HourlyScore.score h) (HourlyScore.score best) then h else best)
              first hourlyScores in
      Some (HourlyScore.timestamp best)
  end.

Section Zone.
Context `{Date.TimeZone}.

(** Simplified moon visibility check *)
Definition isMoonUp (time : Z) : bool :=
  let hour := Date.getHours time in
  (20 <=? hour) || (hour <=? 5).

(** The key of the local calendar day of an instant: year, month and
    day, the last two padded to two digits. *)
Definition dateKey (t : Z) : string :=
  show_int (Date.getFullYear t) +:+ "-"
  +:+ padStart 2 "0" (show_int (Date.getMonth t + 1)) +:+ "-"
  +:+ padStart 2 "0" (show_int (Date.getDate t)).

(** Group hourly data by day *)
Definition group_by_day (hourly : list WeatherHour.t) : list (string * list WeatherHour.t) :=
  foldl (fun dailyGroups hour => push_group (dateKey (WeatherHour.timestamp hour)) hour dailyGroups)
        [] hourly.

Definition isNightHour (h : WeatherHour.t) : bool :=
  let hour := Date.getHours (WeatherHour.timestamp h) in
  (18 <=? hour) || (hour <=? 6).

(** The score of one night hour of a day, with the moon of that day. *)
Definition score_hour (astroData : option AstroData.t) (moonData : MoonPhase.t)
    (mode : option string) (h : WeatherHour.t) : Result.t :=
  let matchingAstro := findMatchingAstroData astroData (WeatherHour.timestamp h) in
  let conditions :=
    {| Conditions.timestamp := None;
       Conditions.cloudCover := WeatherHour.cloudCover h;
       Conditions.cloudCoverMin := WeatherHour.cloudCoverMin h;
       Conditions.cloudCoverMax := WeatherHour.cloudCoverMax h;
       Conditions.cloudCoverConfidence := None;
       Conditions.seeing := or (from_option AstroHour.seeing undefined matchingAstro) (number 3);
       Conditions.seeingLabel := None;
       Conditions.transparency :=
         or (from_option AstroHour.transparency undefined matchingAstro) (number 3);
       Conditions.transparencyLabel := None;
       Conditions.temperature := undefined;
       Conditions.humidity := WeatherHour.humidity h;
       Conditions.windSpeed := undefined;
       Conditions.windDirectionLabel := None;
       Conditions.moonPhase := undefined;
       Conditions.moonIllumination := or (MoonPhase.illumination moonData) (number 50);
       Conditions.moonPhaseName := None;
       Conditions.isMoonUp := true;
       Conditions.sunrise := None;
       Conditions.sunset := None |} in
  calculateScore conditions mode.

Definition hourly_score (h : WeatherHour.t) (result : Result.t) : HourlyScore.t :=
  {| HourlyScore.timestamp := WeatherHour.timestamp h;
     HourlyScore.score := Result.overallScore result;
     HourlyScore.scoreMin :=
       Math.max (Fin 0) (sub (Result.overallScore result) (Result.scoreUncertainty result));
     HourlyScore.scoreMax :=
       Math.min (Fin 100) (add (Result.overallScore result) (Result.scoreUncertainty result)) |}.

(** The body of [dates.forEach((dateKey, index) => ...)]. *)
Definition forecast_day (dailyGroups : list (string * list WeatherHour.t))
    (astroData : option AstroData.t) (astronomicalData : option AstronomicalData.t)
    (mode : option string) (index : nat) (dateKey : string) : DayForecast.t :=
  let hours := lookup_group dateKey dailyGroups in
  let moonData :=
    default MoonPhase.empty
            (optional_at AstronomicalData.moonPhases astronomicalData index) in
  let nightHours := List.filter isNightHour hours in
  (* [scoreService._getScoreRating] exists, so it is the one called. *)
  let '(dayScore, dayScoreRating, hourlyScores) :=
    match nightHours with
    | [] => (Fin 50, "good"%string, [])
    | _ :: _ =>
        let results := map (fun h => (h, score_hour astroData moonData mode h)) nightHours in
        let hourlyScores := map (fun hr => hourly_score hr.1 hr.2) results in
        let scores := map (fun hr => Result.overallScore hr.2) results in
        let dayScore :=
          Math.round (div (foldl add (Fin 0) scores)
                          (Fin (inject_Z (Z.of_nat (length scores))))) in
        (dayScore, _getScoreRating dayScore, hourlyScores)
    end in
  {| DayForecast.date := dateKey;
     DayForecast.overallScore := dayScore;
     DayForecast.scoreRating := dayScoreRating;
     DayForecast.scoreUncertainty := Fin 10;
     DayForecast.hourlyScores := hourlyScores;
     DayForecast.bestHour := findBestHour hourlyScores |}.

Definition buildForecastData (weatherData : WeatherData.t) (astroData : option AstroData.t)
    (astronomicalData : option AstronomicalData.t) (mode : option string)
  : list DayForecast.t :=
  let dailyGroups := group_by_day (WeatherData.hourly weatherData) in
  let dates := take 4 (map fst dailyGroups) in
  imap (forecast_day dailyGroups astroData astronomicalData mode) dates.

(** Combine the feeds into the conditions of the current hour, score
    them and build the forecast.  Reading a field of the missing
    current hour throws. *)
Definition processWeatherData (weatherData : option WeatherData.t)
    (astroData : option AstroData.t) (astronomicalData : option AstronomicalData.t)
    (now : Z) (state : State.t) : completion State.t :=
  match weatherData with
  | None => Normal state
  | Some weatherData =>
      let hourly := WeatherData.hourly weatherData in
      let currentHourIndex := findCurrentHourIndex hourly now in
      match hourly !! currentHourIndex ∪ hourly !! 0%nat with
      | None => Throw (TypeError "Cannot read properties of undefined")
      | Some currentHour =>
          let currentAstro := findMatchingAstroData astroData now in
          let moonData :=
            default MoonPhase.empty
                    (optional_at AstronomicalData.moonPhases astronomicalData 0) in
          let sunriseTime := optional_at AstronomicalData.sunrise astronomicalData 0 in
          let sunsetTime := optional_at AstronomicalData.sunset astronomicalData 0 in
          let conditions :=
            {| Conditions.timestamp := Some (WeatherHour.timestamp currentHour);
               Conditions.cloudCover := WeatherHour.cloudCover currentHour;
               Conditions.cloudCoverMin := WeatherHour.cloudCoverMin currentHour;
               Conditions.cloudCoverMax := WeatherHour.cloudCoverMax currentHour;
               Conditions.cloudCoverConfidence :=
                 Some (WeatherHour.cloudCoverConfidence currentHour);
               Conditions.seeing :=
                 or (from_option AstroHour.seeing undefined currentAstro) (number 3);
               Conditions.seeingLabel :=
                 Some (or_string (AstroHour.seeingLabel <$> currentAstro) "Durchschnittlich");
               Conditions.transparency :=
                 or (from_option AstroHour.transparency undefined currentAstro) (number 3);
               Conditions.transparencyLabel :=
                 Some (or_string (AstroHour.transparencyLabel <$> currentAstro)
                                 "Durchschnittlich");
               Conditions.temperature := WeatherHour.temperature currentHour;
               Conditions.humidity := WeatherHour.humidity currentHour;
               Conditions.windSpeed := WeatherHour.windSpeed currentHour;
               Conditions.windDirectionLabel := WeatherHour.windDirectionLabel currentHour;
               Conditions.moonPhase := MoonPhase.phase moonData;
               Conditions.moonIllumination := MoonPhase.illumination moonData;
               Conditions.moonPhaseName := MoonPhase.phaseName moonData;
               Conditions.isMoonUp := isMoonUp now;
               Conditions.sunrise := sunriseTime;
               Conditions.sunset := sunsetTime |} in
          let score := calculateScore conditions (State.photographyMode state) in
          Normal
            {| State.conditions := Some conditions;
               State.score := Some score;
               State.forecast :=
                 buildForecastData weatherData astroData astronomicalData
                                   (State.photographyMode state);
               State.photographyMode := State.photographyMode state |}
      end
  end.
End Zone.

(** The settings were changed.  [this.buildForecastData;] names the
    method and does not call it: the forecast stays as it is. *)
Definition updateSettings (quotaExceeded : Storage.state -> Storage.state -> bool)
    (updates : Storage.Updates.t) (storage : Storage.state) (state : State.t)
  : State.t * Storage.state :=
  let '(settings, storage') := Storage.updateSettings quotaExceeded updates storage in
  let mode := Storage.Settings.photographyMode settings in
  match Storage.Updates.photographyMode updates, State.conditions state with
  | Some (String _ _), Some conditions =>
      ({| State.conditions := State.conditions state;
          State.score := Some (calculateScore conditions (Some mode));
          State.forecast := State.forecast state;
          State.photographyMode := Some mode |},
       storage')
  | _, _ =>
      ({| State.conditions := State.conditions state;
          State.score := State.score state;
          State.forecast := State.forecast state;
          State.photographyMode := Some mode |},
       storage')
  end.

End App.

(* ===================================================================== *)
(** * src/components/HourlyChart.js: the hours the chart draws *)
(* ===================================================================== *)

Module HourlyChart.
Section Zone.
Context `{Date.TimeZone}.

(** Night hours: 18:00-06:00 *)
Definition filterNightHours (hourlyData : list App.HourlyScore.t) : list App.HourlyScore.t :=
  List.filter
    (fun h =>
       let hour := Date.getHours (App.HourlyScore.timestamp h) in
       (18 <=? hour) || (hour <=? 6))
    hourlyData.

End Zone.
End HourlyChart.

(* ===================================================================== *)
(** * Vocabulary of the statements, sample inputs *)
(* ===================================================================== *)

Module Spec.
Import Data Score.

(** The result carries a warning of that type and severity. *)
Definition has_warning (r : Result.t) (type severity : string) : Prop :=
  exists w, In w (Result.warnings r) /\ Warning.type w = type /\ Warning.severity w = severity.

(** A number strictly below a bound (false for NaN). *)
Definition below (n : num) (bound : Q) : Prop :=
  match n with
  | NaN => False
  | Fin q => (q < bound)%Q
  end.

(** The conditions of the bad-night scenario; what it leaves open is
    [undefined]. *)
Definition bad_night (temperature : value) : Conditions.t :=
  {| Conditions.timestamp := None;
     Conditions.cloudCover := number 80;
     Conditions.cloudCoverMin := undefined;
     Conditions.cloudCoverMax := undefined;
     Conditions.cloudCoverConfidence := None;
     Conditions.seeing := number 2;
     Conditions.seeingLabel := None;
     Conditions.transparency := number 2;
     Conditions.transparencyLabel := None;
     Conditions.temperature := temperature;
     Conditions.humidity := number 90;
     Conditions.windSpeed := number 35;
     Conditions.windDirectionLabel := None;
     Conditions.moonPhase := undefined;
     Conditions.moonIllumination := number 90;
     Conditions.moonPhaseName := None;
     Conditions.isMoonUp := true;
     Conditions.sunrise := None;
     Conditions.sunset := None |}.

(** What the end-to-end scenario expects of a result. *)
Definition bad_night_expectation (r : Result.t) : Prop :=
  has_warning r "clouds" "high" /\ has_warning r "high-wind" "high" /\
  has_warning r "fog-risk" "high" /\ has_warning r "moon-bright" "medium" /\
  below (Result.overallScore r) 30 /\ Result.scoreRating r = "poor"%string.

(** The distance in time between an entry of the seeing series and a target. *)
Definition distance (targetTime : Z) (e : AstroHour.t) : Z :=
  Z.abs (AstroHour.timestamp e - targetTime).

(** [r] is the entry of [series] nearest to the target, the first of them
    if several are as near; none if the series is empty. *)
Definition nearest_first (targetTime : Z) (series : list AstroHour.t) (r : option AstroHour.t)
  : Prop :=
  match series with
  | [] => r = None
  | _ :: _ =>
      exists e before after,
        r = Some e /\ series = before ++ e :: after /\
        Forall (fun x => distance targetTime e < distance targetTime x) before /\
        Forall (fun x => distance targetTime e <= distance targetTime x) after
  end.

(** The local calendar date of an instant, and the key a date is written as. *)
Definition localDate `{Date.TimeZone} (t : Z) : Date.civil :=
  Date.civil_from_days (Date.Day (Date.LocalTime t)).

Definition key_of (d : Date.civil) : string :=
  show_int (Date.year d) +:+ "-"
  +:+ padStart 2 "0" (show_int (Date.month d)) +:+ "-"
  +:+ padStart 2 "0" (show_int (Date.day d)).

(** One date key names an earlier calendar date than another. *)
Definition date_before (k1 k2 : string) : Prop :=
  exists d1 d2, Date.well_formed d1 /\ Date.well_formed d2 /\
                k1 = key_of d1 /\ k2 = key_of d2 /\ Date.civil_lt d1 d2.

(** The keys of the cache entries in the durable tier. *)
Definition cache_keys {V} (store : gmap string (Cache.item V)) : list string :=
  filter (fun k => Cache.startsWith Cache.CACHE_PREFIX k = true) (Cache.Object_keys store).

(** The order the cleanup sorts by. *)
Definition older (a b : string * Z) : Prop := a.2 <= b.2.

(** What the cleanup removes: the keys of the first half, rounded up, of
    the cache entries sorted by creation time. *)
Definition evicted {V} (store : gmap string (Cache.item V)) : list string :=
  let entries :=
    Cache.sort_by_timestamp
      (map (fun k => (k, Cache.entry_timestamp (store !! k))) (cache_keys store)) in
  (take (Cache.half_up (length entries)) entries).*1.

(** The object [set] keeps for a key. *)
Definition entry {V} (d : V) (ttl now : Z) : Cache.cached V :=
  {| Cache.data := d; Cache.expiry := Some (now + ttl); Cache.timestamp := Some now |}.

(** The contract of expiry as the specification states it: after a [set]
    at [t], a [get] at [t'] gives the value back before [t + ttl], and from
    then on gives nothing and leaves neither tier with the key. *)
Definition ttl_contract {V}
    (quotaExceeded : gmap string (Cache.item V) -> string -> Cache.item V -> bool)
    (st : Cache.state V) (key : string) (d : V) (ttl t t' : Z) : Prop :=
  let st1 := (Cache.set quotaExceeded key d (Some ttl) t st).2 in
  (t' < t + ttl -> (Cache.get key t' st1).1 = Some d) /\
  (t + ttl <= t' ->
   (Cache.get key t' st1).1 = None /\
   Cache.memoryCache (Cache.get key t' st1).2 !! Cache._generateKey key = None /\
   Cache.localStorage (Cache.get key t' st1).2 !! Cache._generateKey key = None).

(** The creation time stored with an entry of the durable tier: the
    [timestamp] field of the object stored under the key.  An entry
    without one, or a text that is no object, counts as created at 0. *)
Definition created {V} (store : gmap string (Cache.item V)) (k : string) : Z :=
  match store !! k with
  | Some (Cache.Json c) =>
      match Cache.timestamp c with
      | Some stamp => stamp
      | None => 0
      end
  | Some Cache.Unparsable => 0
  | None => 0
  end.

(** An older text of the key outlives the [set] in the durable tier: the
    durable write of the [set] was refused, and the cleanup left under the
    key a text that cannot be read or an entry that has not expired at
    [t']. *)
Definition outlives {V}
    (quotaExceeded : gmap string (Cache.item V) -> string -> Cache.item V -> bool)
    (st : Cache.state V) (key : string) (d : V) (ttl t t' : Z) : bool :=
  quotaExceeded (Cache.localStorage st) (Cache._generateKey key)
                (Cache.JSON_stringify (entry d ttl t))
  && match Cache._cleanupStorage (Cache.localStorage st) !! Cache._generateKey key with
     | Some Cache.Unparsable => true
     | Some (Cache.Json stale) => Cache.unexpired t' stale
     | None => false
     end.

(** What a [set] whose durable write failed leaves behind: it returned
    normally; the fast tier has the new entry, readable until it expires;
    the durable tier lost a set [removed] of cache keys, half of them
    rounded up and none created later than a cache entry that stays, and
    gained nothing. *)
Definition eviction_outcome {V}
    (quotaExceeded : gmap string (Cache.item V) -> string -> Cache.item V -> bool)
    (st : Cache.state V) (key : string) (d : V) (ttl now : Z) : Prop :=
  let r := Cache.set quotaExceeded key d (Some ttl) now st in
  let store := Cache.localStorage st in
  let store' := Cache.localStorage r.2 in
  r.1 = Normal tt /\
  Cache.memoryCache r.2 !! Cache._generateKey key = Some (entry d ttl now) /\
  (forall t', t' < now + ttl -> Cache.get key t' r.2 = (Some d, r.2)) /\
  (forall k v, store' !! k = Some v -> store !! k = Some v) /\
  exists removed : list string,
    NoDup removed /\
    (forall k, k ∈ removed -> k ∈ cache_keys store) /\
    length removed = Cache.half_up (length (cache_keys store)) /\
    (2 * length removed = length (cache_keys store)
     \/ 2 * length removed = length (cache_keys store) + 1)%nat /\
    (forall k k', k ∈ removed -> k' ∈ cache_keys store -> k' ∉ removed ->
                  created store k <= created store k') /\
    (forall k, k ∈ removed -> store' !! k = None) /\
    (forall k, k ∉ removed -> store' !! k = store !! k).

(** A storage that takes no write once it holds two items. *)
Definition two_items_quota (store : gmap string (Cache.item string)) (k : string)
    (v : Cache.item string) : bool :=
  (2 <=? size store)%nat.

(** A cache that starts empty and receives, at times 0 and 1, a forecast
    for Bern and one for Chur, each to live 1000 ms. *)
Definition empty_cache : Cache.state string :=
  {| Cache.memoryCache := ∅; Cache.localStorage := ∅ |}.
Definition two_entries : Cache.state string :=
  (Cache.set two_items_quota "chur" "cloudy" (Some 1000) 1
     (Cache.set two_items_quota "bern" "clear" (Some 1000) 0 empty_cache).2).2.

(** A durable tier with the forecast for Chur, written at 0, and under the
    key of Bern a text that is no JSON; nothing in the fast tier. *)
Definition garbled_entry : Cache.state string :=
  {| Cache.memoryCache := ∅;
     Cache.localStorage :=
       <[Cache._generateKey "bern" := Cache.Unparsable]>
         (Cache.localStorage
            (Cache.set two_items_quota "chur" "cloudy" (Some 1000) 0 empty_cache).2) |}.

(** A fetch that fails: the network rejects it, or the response is not 2xx. *)
Definition failed {Body} (net : Net.fetched Body) : Prop :=
  match net with
  | Net.Rejected _ => True
  | Net.Responded status _ => Net.ok status = false
  end.

(** The error a failed fetch raises inside a service. *)
Definition failure_of {Body} (label : string) (net : Net.fetched Body) : error :=
  match net with
  | Net.Rejected e => e
  | Net.Responded status _ => Error (label +:+ show_int status)
  end.

(** The keys the two services cache under. *)
Definition astro_key (latitude longitude : Q) : string :=
  "astro_" +:+ toFixed latitude 3 +:+ "_" +:+ toFixed longitude 3.
Definition weather_key (latitude longitude : Q) : string :=
  "weather_" +:+ toFixed latitude 3 +:+ "_" +:+ toFixed longitude 3.

(** Conditions with the average seeing and transparency. *)
Definition average_astro (c : Conditions.t) : Prop :=
  Conditions.seeing c = number 3 /\
  Conditions.seeingLabel c = Some "Durchschnittlich"%string /\
  Conditions.transparency c = number 3 /\
  Conditions.transparencyLabel c = Some "Durchschnittlich"%string.

(** A device that is offline, with an empty cache and nothing on display. *)
Definition no_quota (store : gmap string (Cache.item payload)) (k : string)
    (v : Cache.item payload) : bool := false.
Definition empty_payload_cache : Cache.state payload :=
  {| Cache.memoryCache := ∅; Cache.localStorage := ∅ |}.
Definition blank_state : App.State.t :=
  {| App.State.conditions := None;
     App.State.score := None;
     App.State.forecast := [];
     App.State.photographyMode := Some "general"%string |}.

(** Sample weather hours: a clear, dry hour at a given instant. *)
Definition clear_hour (t : Z) : WeatherHour.t :=
  {| WeatherHour.timestamp := t;
     WeatherHour.cloudCover := number 10;
     WeatherHour.cloudCoverMin := number 10;
     WeatherHour.cloudCoverMax := number 10;
     WeatherHour.cloudCoverSpread := number 0;
     WeatherHour.cloudCoverConfidence := "high";
     WeatherHour.temperature := number 3;
     WeatherHour.humidity := number 40;
     WeatherHour.windSpeed := number 5;
     WeatherHour.windDirection := number 90;
     WeatherHour.windDirectionLabel := Some "E"%string;
     WeatherHour.precipitationProbability := number 0 |}.

Definition weather_at (instants : list Z) : WeatherData.t :=
  {| WeatherData.hourly := map clear_hour instants;
     WeatherData.timezone := None;
     WeatherData.fetchedAt := 0 |}.

(** A cache that holds the weather of Zurich, stored a minute before noon
    of 24 January 2026, and nothing of the seeing feed. *)
Definition weather_in_cache : Cache.state payload :=
  (Cache.set no_quota (weather_key 47.3769 8.5417)
             (OfWeather (weather_at [1769252400000; 1769256000000; 1769295600000]))
             (Some Weather.CACHE_TTL) 1769252340000 empty_payload_cache).2.

(** A sample entry of the seeing series. *)
Definition astro_hour (t : Z) (seeing : Q) : AstroHour.t :=
  {| AstroHour.timestamp := t;
     AstroHour.timepoint := 0;
     AstroHour.seeingRaw := undefined;
     AstroHour.seeing := number seeing;
     AstroHour.seeingLabel := "Gut";
     AstroHour.transparencyRaw := undefined;
     AstroHour.transparency := number 4;
     AstroHour.transparencyLabel := "Gut";
     AstroHour.cloudCoverRaw := undefined;
     AstroHour.cloudCover := number 25;
     AstroHour.liftedIndex := undefined;
     AstroHour.atmosphereStability := "Stabil";
     AstroHour.humidity := number 50;
     AstroHour.windSpeed := number 3;
     AstroHour.windDirection := undefined |}.

(** Hours around local noon of 24 January 2026 in a zone one hour east of
    Greenwich, and the midnight that follows. *)
Definition noon_weather : WeatherData.t :=
  weather_at [1769252400000; 1769256000000; 1769295600000].

(** The day the forecast makes of the two noon hours. *)
Definition quiet_day : App.DayForecast.t :=
  {| App.DayForecast.date := "2026-01-24";
     App.DayForecast.overallScore := Fin 50;
     App.DayForecast.scoreRating := "good";
     App.DayForecast.scoreUncertainty := Fin 10;
     App.DayForecast.hourlyScores := [];
     App.DayForecast.bestHour := None |}.

(** Six days of hours, two a day, from 23 January 2026 23:00 UTC. *)
Definition week_weather : WeatherData.t :=
  weather_at [1769209200000; 1769252400000; 1769295600000; 1769338800000;
              1769382000000; 1769425200000; 1769468400000; 1769511600000;
              1769554800000; 1769598000000; 1769641200000; 1769684400000].

Definition astro_series (entries : list AstroHour.t) : AstroData.t :=
  {| AstroData.init := None;
     AstroData.fetchedAt := 0;
     AstroData.hourly := entries;
     AstroData.isDefault := false |}.

(** A mode that names no member of [Object.prototype]: its weights are
    one of the four profiles. *)
Definition proper_mode (mode : option string) : Prop :=
  inherited_name (default "general"%string mode) = false.

(** A reading that, if it is a number, is not negative, or is a percentage. *)
Definition nonnegative (v : value) : Prop :=
  match v with
  | number q => (0 <= q)%Q
  | _ => True
  end.
Definition percentage (v : value) : Prop :=
  match v with
  | number q => (0 <= q <= 100)%Q
  | _ => True
  end.

(** Conditions whose ratings and illumination are in the ranges the
    sub-scores are written for. *)
Definition in_domain (c : Conditions.t) : Prop :=
  nonnegative (Conditions.seeing c) /\ nonnegative (Conditions.transparency c) /\
  percentage (Conditions.moonIllumination c).

(** An integer score from 0 to 100. *)
Definition whole_score (n : num) : Prop :=
  exists z : Z, n = Fin (inject_Z z) /\ 0 <= z <= 100.

(** The order of two numbers, one of which may be NaN. *)
Definition num_le (a b : num) : Prop :=
  match a, b with
  | Fin x, Fin y => (x <= y)%Q
  | _, _ => False
  end.

Definition num_lt (a b : num) : Prop :=
  match a, b with
  | Fin x, Fin y => (x < y)%Q
  | _, _ => False
  end.

(** Two readings that are numbers, the first at most the second. *)
Definition reading_le (a b : value) : Prop :=
  match a, b with
  | number x, number y => (x <= y)%Q
  | _, _ => False
  end.

(** The second conditions are no better than the first in any input of
    the score: no less cloud, humidity or moonlight, the moon as risen as
    before, and ratings that are positive and no higher. *)
Definition no_better (c c' : Conditions.t) : Prop :=
  reading_le (Conditions.cloudCover c) (Conditions.cloudCover c') /\
  reading_le (Conditions.humidity c) (Conditions.humidity c') /\
  reading_le (Conditions.moonIllumination c) (Conditions.moonIllumination c') /\
  Conditions.isMoonUp c = Conditions.isMoonUp c' /\
  reading_le (number 1) (Conditions.seeing c') /\
  reading_le (Conditions.seeing c') (Conditions.seeing c) /\
  reading_le (number 1) (Conditions.transparency c') /\
  reading_le (Conditions.transparency c') (Conditions.transparency c).

(** The types of warning, in the order the rules are written. *)
Definition warning_types : list string :=
  ["fog-risk"; "high-wind"; "clouds"; "moon-bright"; "low-confidence"]%string.

(** The rules of the warnings: each type with the test that lets in a
    warning of that type, of whatever severity. *)
Definition warning_rules (c : Conditions.t) : list (string * bool) :=
  [ ("fog-risk"%string, ge (ToNumber (Conditions.humidity c)) (Fin 75));
    ("high-wind"%string, ge (ToNumber (Conditions.windSpeed c)) (Fin 20));
    ("clouds"%string, ge (ToNumber (Conditions.cloudCover c)) (Fin 40));
    ("moon-bright"%string,
     Conditions.isMoonUp c && ge (ToNumber (Conditions.moonIllumination c)) (Fin 70));
    ("low-confidence"%string,
     bool_decide (Conditions.cloudCoverConfidence c = Some "low"%string)) ].

(** The ratings, best first. *)
Definition ratings : list string := ["perfect"; "very-good"; "good"; "moderate"; "poor"]%string.

(** Conditions like the bad night with less of everything bad. *)
Definition fair_night : Conditions.t :=
  {| Conditions.timestamp := None;
     Conditions.cloudCover := number 20;
     Conditions.cloudCoverMin := number 10;
     Conditions.cloudCoverMax := number 40;
     Conditions.cloudCoverConfidence := Some "medium"%string;
     Conditions.seeing := number 4;
     Conditions.seeingLabel := None;
     Conditions.transparency := number 3;
     Conditions.transparencyLabel := None;
     Conditions.temperature := number 8;
     Conditions.humidity := number 55;
     Conditions.windSpeed := number 10;
     Conditions.windDirectionLabel := None;
     Conditions.moonPhase := undefined;
     Conditions.moonIllumination := number 30;
     Conditions.moonPhaseName := None;
     Conditions.isMoonUp := true;
     Conditions.sunrise := None;
     Conditions.sunset := None |}.

(** The cache after the first of the two forecasts. *)
Definition one_entry : Cache.state string :=
  (Cache.set two_items_quota "bern" "clear" (Some 1000) 0 empty_cache).2.

(** The cache after the page was loaded again: the fast tier starts
    empty, the durable tier is what it was. *)
Definition reloaded {V} (st : Cache.state V) : Cache.state V :=
  {| Cache.memoryCache := ∅; Cache.localStorage := Cache.localStorage st |}.

(** A rating from 1 to 5, and the labels that go with the ratings. *)
Definition rating (v : value) : Prop :=
  exists r : Z, v = number (inject_Z r) /\ 1 <= r <= 5.
Definition rating_labels : list string :=
  ["Schlecht"; "Unterdurchschnittlich"; "Durchschnittlich"; "Gut"; "Ausgezeichnet"]%string.

(** A reading that is a number between two bounds. *)
Definition reading_within (lo hi : Q) (v : value) : Prop :=
  match v with
  | number q => (lo <= q <= hi)%Q
  | _ => False
  end.

(** A processed entry of the seeing feed whose converted fields are in
    the ranges of their scales. *)
Definition converted (h : AstroHour.t) : Prop :=
  rating (AstroHour.seeing h) /\ rating (AstroHour.transparency h) /\
  In (AstroHour.seeingLabel h) rating_labels /\
  In (AstroHour.transparencyLabel h) rating_labels /\
  reading_within 3 97 (AstroHour.cloudCover h) /\
  reading_within 5 100 (AstroHour.humidity h) /\
  reading_within 0 59 (AstroHour.windSpeed h).

(** The band of one processed weather hour: bounds within 0 and 100, a
    spread that is not negative, the cloud cover inside the band when it
    is a percentage, and the confidence that goes with the spread. *)
Definition cloud_band (h : WeatherHour.t) : Prop :=
  exists cover lo hi spread : Q,
    WeatherHour.cloudCover h = number cover /\
    WeatherHour.cloudCoverMin h = number lo /\
    WeatherHour.cloudCoverMax h = number hi /\
    WeatherHour.cloudCoverSpread h = number spread /\
    (0 <= lo)%Q /\ (hi <= 100)%Q /\ (0 <= spread)%Q /\
    ((0 <= cover <= 100)%Q -> (lo <= cover <= hi)%Q) /\
    (WeatherHour.cloudCoverConfidence h = "high"%string <-> (spread < 20)%Q) /\
    (WeatherHour.cloudCoverConfidence h = "medium"%string <-> (20 <= spread < 40)%Q) /\
    (WeatherHour.cloudCoverConfidence h = "low"%string <-> (40 <= spread)%Q).

(** A response of the seeing feed with two entries. *)
Definition raw_entry (timepoint : Z) (seeing transparency : Q) : Astro.RawEntry.t :=
  {| Astro.RawEntry.timepoint := Some timepoint;
     Astro.RawEntry.seeing := number seeing;
     Astro.RawEntry.transparency := number transparency;
     Astro.RawEntry.cloudcover := number 2;
     Astro.RawEntry.lifted_index := number 2;
     Astro.RawEntry.rh2m := number 3;
     Astro.RawEntry.wind10m := None |}.
Definition raw_feed : Astro.RawData.t :=
  {| Astro.RawData.init := Some "2026012400"%string;
     Astro.RawData.dataseries := Some [raw_entry 3 2 7; raw_entry 6 5 4] |}.

(** A response of the weather feed with two hours. *)
Definition raw_weather : Weather.RawData.t :=
  {| Weather.RawData.hourly :=
       Some {| Weather.RawHourly.time := Some [Some 1769209200000; Some 1769212800000];
               Weather.RawHourly.cloud_cover := Some [number 40; number 90];
               Weather.RawHourly.cloud_cover_low := Some [number 10; number 80];
               Weather.RawHourly.cloud_cover_mid := Some [number 30; number 20];
               Weather.RawHourly.cloud_cover_high := Some [number 0; null];
               Weather.RawHourly.temperature_2m := Some [number 2; number 1];
               Weather.RawHourly.relative_humidity_2m := Some [number 80; number 85];
               Weather.RawHourly.wind_speed_10m := Some [number 12; number 14];
               Weather.RawHourly.wind_direction_10m := Some [number 270; number 280];
               Weather.RawHourly.precipitation_probability := None |};
     Weather.RawData.timezone := Some "Europe/Zurich"%string |}.

(** The arrays of a weather response that every hour reads without [?.]. *)
Definition required_arrays (hourly : Weather.RawHourly.t) : Prop :=
  Weather.RawHourly.cloud_cover hourly <> None /\
  Weather.RawHourly.temperature_2m hourly <> None /\
  Weather.RawHourly.relative_humidity_2m hourly <> None /\
  Weather.RawHourly.wind_speed_10m hourly <> None /\
  Weather.RawHourly.wind_direction_10m hourly <> None.

(** An hourly series split at the first hour that is not before [now]. *)
Definition first_upcoming (now : Z) (hourly past : list WeatherHour.t) (next : WeatherHour.t)
    (later : list WeatherHour.t) : Prop :=
  hourly = past ++ next :: later /\
  Forall (fun h => WeatherHour.timestamp h < now) past /\
  now <= WeatherHour.timestamp next.

(** [r] is the time stamp of the first record with the highest score. *)
Definition first_best (hourlyScores : list App.HourlyScore.t) (r : option Z) : Prop :=
  match hourlyScores with
  | [] => r = None
  | _ :: _ =>
      exists best before after,
        r = Some (App.HourlyScore.timestamp best) /\
        hourlyScores = before ++ best :: after /\
        Forall (fun h => num_lt (App.HourlyScore.score h) (App.HourlyScore.score best)) before /\
        Forall (fun h => num_le (App.HourlyScore.score h) (App.HourlyScore.score best)) after
  end.

(** Records whose scores are all numbers. *)
Definition scored (hourlyScores : list App.HourlyScore.t) : Prop :=
  Forall (fun h => exists q, App.HourlyScore.score h = Fin q) hourlyScores.

(** Three sample hourly scores, the best of which comes twice. *)
Definition hourly_sample : list App.HourlyScore.t :=
  [ {| App.HourlyScore.timestamp := 100; App.HourlyScore.score := Fin 40;
       App.HourlyScore.scoreMin := Fin 35; App.HourlyScore.scoreMax := Fin 45 |};
    {| App.HourlyScore.timestamp := 200; App.HourlyScore.score := Fin 70;
       App.HourlyScore.scoreMin := Fin 70; App.HourlyScore.scoreMax := Fin 70 |};
    {| App.HourlyScore.timestamp := 300; App.HourlyScore.score := Fin 70;
       App.HourlyScore.scoreMin := Fin 60; App.HourlyScore.scoreMax := Fin 80 |} ].

(** The favorites kept are at most five, and no two of them are near
    each other. *)
Definition apart (favorites : list Storage.Favorite.t) : Prop :=
  ForallOrdPairs
    (fun f g => Storage.near (Storage.Favorite.latitude g) (Storage.Favorite.longitude g) f = false)
    favorites.
Definition tidy (st : Storage.state) : Prop :=
  (length (Storage.getFavorites st) <= 5)%nat /\ apart (Storage.getFavorites st).

(** A storage that holds nothing, one that never refuses a write, one
    that refuses every write, and two places. *)
Definition empty_storage : Storage.state :=
  {| Storage.settings := None; Storage.favorites := None; Storage.lastLocation := None |}.
Definition roomy (before after : Storage.state) : bool := false.
Definition full (before after : Storage.state) : bool := true.
Definition bern : Storage.Location.t :=
  {| Storage.Location.name := "Bern";
     Storage.Location.latitude := 46.948; Storage.Location.longitude := 7.4474 |}.
Definition chur : Storage.Location.t :=
  {| Storage.Location.name := "Chur";
     Storage.Location.latitude := 46.8508; Storage.Location.longitude := 9.532 |}.

(** The updates that change the photography mode alone. *)
Definition mode_update (mode : string) : Storage.Updates.t :=
  {| Storage.Updates.photographyMode := Some mode;
     Storage.Updates.temperatureUnit := None;
     Storage.Updates.theme := None;
     Storage.Updates.showDetailedParams := None |}.

(** A seeing feed, if there is one, whose entries are all in range, and
    moon data whose illuminations are percentages. *)
Definition converted_feed (astroData : option AstroData.t) : Prop :=
  match astroData with
  | Some a => Forall converted (AstroData.hourly a)
  | None => True
  end.
Definition moon_percentages (astronomicalData : option AstronomicalData.t) : Prop :=
  forall i m, App.optional_at AstronomicalData.moonPhases astronomicalData i = Some m ->
              percentage (MoonPhase.illumination m).

(** An hourly score with its band: whole, and
    0 <= scoreMin <= score <= scoreMax <= 100. *)
Definition banded (s : App.HourlyScore.t) : Prop :=
  whole_score (App.HourlyScore.score s) /\
  exists lo x hi : Q,
    App.HourlyScore.scoreMin s = Fin lo /\ App.HourlyScore.score s = Fin x /\
    App.HourlyScore.scoreMax s = Fin hi /\
    (0 <= lo /\ lo <= x /\ x <= hi /\ hi <= 100)%Q.

(** What a call of [fetchAstroData] can return: a payload the cache held,
    the response processed, or the default data. *)
Definition astro_outcome (latitude longitude : Q) (now : Z)
    (net : Net.fetched (option Astro.RawData.t)) (st : Cache.state payload)
    (p : payload) : Prop :=
  (Cache.get (astro_key latitude longitude) now st).1 = Some p \/
  (exists status data processed,
     net = Net.Responded status (Normal data) /\ Net.ok status = true /\
     Astro._processAstroData data now = Normal processed /\ p = OfAstro processed) \/
  p = OfAstro (Astro._getDefaultAstroData now).

(** The result of a computation that returned, a fallback otherwise. *)
Definition returned {A} (fallback : A) (c : completion A) : A :=
  match c with
  | Normal a => a
  | Throw _ => fallback
  end.

(** The two sample responses, processed at the init time of the feed. *)
Definition processed_feed : AstroData.t :=
  returned (Astro._getDefaultAstroData 0) (Astro._processAstroData (Some raw_feed) 1769212800000).
Definition processed_weather : WeatherData.t :=
  returned {| WeatherData.hourly := []; WeatherData.timezone := None; WeatherData.fetchedAt := 0 |}
           (Weather._processWeatherData raw_weather 1769212800000).

(** Where [findCurrentHourIndex] points: at the hour before the first
    hour that is not before [now], at that hour itself if it is the first
    of the series, and at the first hour of the series when every hour is
    before [now]. *)
Definition current_index (now : Z) (hourly : list WeatherHour.t) (index : nat) : Prop :=
  (exists past next later,
     first_upcoming now hourly past next later /\ index = Nat.pred (length past)) \/
  (Forall (fun h => WeatherHour.timestamp h < now) hourly /\ index = 0%nat).

(** The groups of a series: every bucket holds, in their order, exactly
    the hours of the series whose local date has the key of the bucket,
    and at least one. *)
Definition bucket_of `{Date.TimeZone} (hourly : list WeatherHour.t)
    (group : string * list WeatherHour.t) : Prop :=
  group.2 <> [] /\
  group.2 = List.filter (fun h => String.eqb (App.dateKey (WeatherHour.timestamp h)) group.1)
                        hourly.

(** The night hours of a local date, as the forecast selects them. *)
Definition night_hours_of `{Date.TimeZone} (hourly : list WeatherHour.t) (date : string)
  : list WeatherHour.t :=
  List.filter App.isNightHour
    (List.filter (fun h => String.eqb (App.dateKey (WeatherHour.timestamp h)) date) hourly).

(** A state of the application as [processWeatherData] leaves it. *)
Definition processed_state `{Date.TimeZone} (weatherData : WeatherData.t)
    (astroData : option AstroData.t) (astronomicalData : option AstronomicalData.t)
    (now : Z) (state : App.State.t) : App.State.t :=
  returned state (App.processWeatherData (Some weatherData) astroData astronomicalData now state).

(** The first day of the forecast of the sample week, one hour east of
    Greenwich, without seeing feed or moon data. *)
Definition week_first_day : App.DayForecast.t :=
  App.forecast_day (H := Date.fixedOffset 60)
    (App.group_by_day (H := Date.fixedOffset 60) (WeatherData.hourly week_weather))
    None None None 0 "2026-01-24".

(** A day of the forecast all of whose scores are whole numbers from 0
    to 100, whose rating is the rating of its score by the ladder of the
    score service and by the fallback of the application alike, and whose
    best hour is the first hour with the highest score. *)
Definition sound_day (day : App.DayForecast.t) : Prop :=
  whole_score (App.DayForecast.overallScore day) /\
  Forall banded (App.DayForecast.hourlyScores day) /\
  App.DayForecast.scoreRating day = _getScoreRating (App.DayForecast.overallScore day) /\
  App.DayForecast.scoreRating day = App.getScoreRating (App.DayForecast.overallScore day) /\
  first_best (App.DayForecast.hourlyScores day) (App.DayForecast.bestHour day).

(** A state of the application with another photography mode. *)
Definition with_mode (state : App.State.t) (mode : string) : App.State.t :=
  {| App.State.conditions := App.State.conditions state;
     App.State.score := App.State.score state;
     App.State.forecast := App.State.forecast state;
     App.State.photographyMode := Some mode |}.

(** The storage once the settings with the updates are written. *)
Definition settings_written (updates : Storage.Updates.t) (st : Storage.state) : Storage.state :=
  {| Storage.settings :=
       Some (Storage.Json
               (Storage.JSON_stringify (Storage.spread (Storage.getSettings st) updates)));
     Storage.favorites := Storage.favorites st;
     Storage.lastLocation := Storage.lastLocation st |}.

(** The favorite [addFavorite] makes of a location. *)
Definition favorite_of (location : Storage.Location.t) (now : Z) (random : string)
  : Storage.Favorite.t :=
  {| Storage.Favorite.id := "fav_" +:+ show_int now +:+ "_" +:+ random;
     Storage.Favorite.name := Storage.Location.name location;
     Storage.Favorite.latitude := Storage.Location.latitude location;
     Storage.Favorite.longitude := Storage.Location.longitude location;
     Storage.Favorite.isFavorite := true |}.

(** The storage once a list of favorites is written. *)
Definition favorites_written (favorites : list Storage.Favorite.t) (st : Storage.state)
  : Storage.state :=
  {| Storage.settings := Storage.settings st;
     Storage.favorites := Some (Storage.Json favorites);
     Storage.lastLocation := Storage.lastLocation st |}.

(** The storage after Bern was added at time 7. *)
Definition bern_kept : Storage.state :=
  (Storage.addFavorite roomy bern 7 "k3x9" empty_storage).2.

(** A rounding like that of doubles to the nearest: it keeps the order,
    and it leaves a whole number of at most 2^53 in absolute value as it
    is. *)
Definition rounds_like_doubles (rnd : Q -> Q) : Prop :=
  (forall x y : Q, (x <= y)%Q -> (rnd x <= rnd y)%Q) /\
  (forall z : Z, Z.abs z <= 2 ^ 53 -> (rnd (inject_Z z) == inject_Z z)%Q).

(** A value that is a whole number of at most [bound] in absolute value. *)
Definition whole_within (bound : Z) (v : value) : Prop :=
  exists z : Z, v = number (inject_Z z) /\ Z.abs z <= bound.

(** A rounding with ten binary places, halves upwards. *)
Definition to_1024ths (q : Q) : Q :=
  (inject_Z (Qfloor (q * 1024 + (1 # 2))) / 1024)%Q.

(** The cloud cover that three members give for two hours; the second
    member has no value for the second hour. *)
Definition cloud_first : list value := [number 20; number 80].
Definition cloud_rest : list (list value) := [[number 35; null]; [number 25; number 40]].

End Spec.

(* ===================================================================== *)
(** * Numbers *)
(* ===================================================================== *)

Lemma Qle_bool_false (x y : Q) : Qle_bool x y = false -> (y < x)%Q.
Proof.
  intros E. apply Qnot_le_lt. intros L. apply Qle_bool_iff in L. congruence.
Qed.

(** Turn every boolean comparison of rationals in the context and the goal
    into the order it decides. *)
Ltac qorder :=
  repeat match goal with
         | H : Qle_bool _ _ = true |- _ => apply Qle_bool_iff in H
         | H : Qle_bool _ _ = false |- _ => apply Qle_bool_false in H
         | H : Qeq_bool _ _ = true |- _ => apply Qeq_bool_iff in H
         | H : Qeq_bool _ _ = false |- _ => apply Qeq_bool_neq in H
         end.

Ltac qsplit :=
  repeat match goal with
         | |- context [Qle_bool ?a ?b] => destruct (Qle_bool a b) eqn:?
         | |- context [Qeq_bool ?a ?b] => destruct (Qeq_bool a b) eqn:?
         end.

(* ===================================================================== *)
(** * The sub-scores and the score *)
(* ===================================================================== *)

Section SubScores.
Import Score.

Lemma cloud_score_within (v : value) : within 0 100 (_calculateCloudScore v).
Proof.
  destruct v as [| |q]; simpl; try lra.
  unfold Math.max, Math.min, sub, lift2. simpl.
  qsplit; qorder; lra.
Qed.

Lemma humidity_score_within (v : value) : within 0 100 (_calculateHumidityScore v).
Proof.
  destruct v as [| |q]; simpl; try lra.
  unfold le, cmp. qsplit; simpl; lra.
Qed.

(** The rating scores are capped above; below they follow the rating. *)
Lemma seeing_score_upper (v : value) :
  exists q, _calculateSeeingScore v = Fin q /\ (q <= 100)%Q.
Proof.
  unfold _calculateSeeingScore.
  destruct v as [| |q]; simpl; try (exists 60%Q; split; [reflexivity | lra]).
  destruct (Qeq_bool q 0); simpl.
  - exists 60%Q. split; [reflexivity | lra].
  - unfold Math.min, mul, lift2. qsplit; qorder.
    + exists 100%Q. split; [reflexivity | lra].
    + exists (q * 20)%Q. split; [reflexivity | lra].
Qed.

Lemma seeing_score_within (v : value) :
  match v with number q => (0 <= q)%Q | _ => True end ->
  within 0 100 (_calculateSeeingScore v).
Proof.
  unfold _calculateSeeingScore.
  destruct v as [| |q]; simpl; try lra. intros Hq.
  destruct (Qeq_bool q 0); simpl; try lra.
  unfold Math.min, mul, lift2. qsplit; qorder; simpl; lra.
Qed.

Lemma transparency_score_eq (v : value) :
  _calculateTransparencyScore v = _calculateSeeingScore v.
Proof. reflexivity. Qed.

Lemma moon_score_within (v : value) (isMoonUp : bool) :
  match v with number q => (0 <= q <= 100)%Q | _ => True end ->
  within 0 100 (_calculateMoonScore v isMoonUp).
Proof.
  destruct v as [| |q]; simpl.
  - lra.
  - destruct isMoonUp; simpl; unfold Qle_bool; simpl; lra.
  - intros Hq. destruct isMoonUp; simpl.
    + unfold Math.max, sub, lift2. qsplit; qorder; simpl; lra.
    + lra.
Qed.

(** A risen moon never scores below 0, whatever the illumination. *)
Lemma moon_score_risen_lower (v : value) :
  exists q, _calculateMoonScore v true = Fin q /\ (0 <= q)%Q.
Proof.
  destruct v as [| |q]; simpl.
  - exists 80%Q. split; [reflexivity | lra].
  - exists (100 - 0)%Q. split; [reflexivity | lra].
  - unfold Math.max, sub, lift2. qsplit; qorder.
    + exists (100 - q)%Q. split; [reflexivity | lra].
    + exists 0%Q. split; [reflexivity | lra].
Qed.

End SubScores.

(** C1 (the code breaks it): each sub-score is meant to stay within 0 and
    100 for every input.  The cloud and humidity scores do, and so do the
    two inputs the specification names (illumination 150, cloud cover -10);
    but a negative illumination with the moon risen scores 110, an
    illumination of 400 with the moon down scores -20, and a negative
    seeing or transparency rating scores below 0. *)
Theorem C1_subscores_leave_range :
  (forall v, within 0 100 (Score._calculateCloudScore v)) /\
  (forall v, within 0 100 (Score._calculateHumidityScore v)) /\
  within 0 100 (Score._calculateMoonScore (number 150) true) /\
  within 0 100 (Score._calculateMoonScore (number 150) false) /\
  within 0 100 (Score._calculateCloudScore (number (-10))) /\
  Score._calculateMoonScore (number (-10)) true = Fin 110 /\
  ~ within 0 100 (Score._calculateMoonScore (number (-10)) true) /\
  ~ within 0 100 (Score._calculateMoonScore (number (-10)) false) /\
  ~ within 0 100 (Score._calculateMoonScore (number 400) false) /\
  Score._calculateSeeingScore (number (-1)) = Fin (-20) /\
  ~ within 0 100 (Score._calculateSeeingScore (number (-1))) /\
  ~ within 0 100 (Score._calculateTransparencyScore (number (-1))).
Proof.
  split; [exact cloud_score_within |].
  split; [exact humidity_score_within |].
  repeat split; try reflexivity; vm_compute; try discriminate;
    intros [H1 H2]; first [apply H1; reflexivity | apply H2; reflexivity].
Qed.

Section ScoreFacts.
Import Score Spec.

Lemma moon_score_finite (v : value) (isMoonUp : bool) :
  exists q, _calculateMoonScore v isMoonUp = Fin q.
Proof. destruct v, isMoonUp; simpl; eexists; reflexivity. Qed.

Lemma within_finite (lo hi : Q) (n : num) : within lo hi n -> exists q, n = Fin q.
Proof. destruct n; simpl; [tauto | eauto]. Qed.

(** With the general weights the overall score is a number. *)
Lemma general_score_finite (c : Conditions.t) :
  exists q, Result.overallScore (calculateScore c (Some "general"%string)) = Fin q.
Proof.
  unfold calculateScore. simpl.
  destruct (within_finite _ _ _ (cloud_score_within (Conditions.cloudCover c))) as [a ->].
  destruct (seeing_score_upper (Conditions.seeing c)) as [b [-> _]].
  destruct (seeing_score_upper (Conditions.transparency c)) as [b' [Hb' _]].
  rewrite <- transparency_score_eq in Hb'. rewrite Hb'.
  destruct (moon_score_finite (Conditions.moonIllumination c) (Conditions.isMoonUp c)) as [m ->].
  destruct (within_finite _ _ _ (humidity_score_within (Conditions.humidity c))) as [h ->].
  simpl. eexists; reflexivity.
Qed.

(** A mode that [MODE_WEIGHTS] neither has nor inherits falls back to
    the general profile. *)
Lemma unknown_mode_falls_back (c : Conditions.t) (mode : string) :
  MODE_WEIGHTS_own mode = None -> inherited_name mode = false ->
  calculateScore c (Some mode) = calculateScore c (Some "general"%string).
Proof.
  intros Hown Hinh. unfold calculateScore, lookup_weights. simpl.
  rewrite Hown, Hinh. reflexivity.
Qed.

Lemma omitted_mode_is_general (c : Conditions.t) :
  calculateScore c None = calculateScore c (Some "general"%string).
Proof. reflexivity. Qed.

(** With weights read off an inherited member every product is NaN. *)
Lemma inherited_mode_score (c : Conditions.t) (mode : string) :
  MODE_WEIGHTS_own mode = None -> inherited_name mode = true ->
  Result.overallScore (calculateScore c (Some mode)) = NaN.
Proof.
  intros Hown Hinh. unfold calculateScore, lookup_weights. simpl.
  rewrite Hown, Hinh. simpl.
  destruct (_calculateCloudScore _); reflexivity.
Qed.

(** The rules of [_generateWarnings], one at a time. *)
Lemma warning_in_fog (c : Conditions.t) (w : Warning.t) :
  In w (_generateWarnings c) -> Warning.type w = "fog-risk"%string ->
  Warning.severity w =
    (if ge (ToNumber (Conditions.humidity c)) (Fin 85)
        && le (ToNumber (Conditions.temperature c)) (Fin 5)
     then "high" else "medium")%string
  /\ (ge (ToNumber (Conditions.humidity c)) (Fin 85)
        && le (ToNumber (Conditions.temperature c)) (Fin 5)
      || ge (ToNumber (Conditions.humidity c)) (Fin 75)) = true.
Proof.
  unfold _generateWarnings. intros Hin Hty.
  repeat (apply in_app_or in Hin; destruct Hin as [Hin | Hin]).
  - destruct (_ && _).
    + destruct Hin as [<- | []]. split; reflexivity.
    + destruct (ge _ (Fin 75)).
      * destruct Hin as [<- | []]. split; reflexivity.
      * destruct Hin.
  - destruct (ge _ (Fin 30)); [| destruct (ge _ (Fin 20))];
      try destruct Hin as [<- | []]; try discriminate Hty; destruct Hin.
  - destruct (ge _ (Fin 70)); [| destruct (ge _ (Fin 40))];
      try destruct Hin as [<- | []]; try discriminate Hty; destruct Hin.
  - destruct (_ && _); try destruct Hin as [<- | []]; try discriminate Hty; destruct Hin.
  - destruct (Conditions.cloudCoverConfidence c) as [conf |]; [destruct (String.eqb conf "low") |];
      try destruct Hin as [<- | []]; try discriminate Hty; destruct Hin.
Qed.

End ScoreFacts.

(** C2, as amended: under the conditions of the scenario (cloud cover 80,
    humidity 90, wind 35, seeing 2, transparency 2, the moon risen at 90
    percent) and the general mode, the warnings include clouds (high), wind
    (high) and bright moon (medium); the fog warning is there with severity
    high exactly when the conditions also carry a temperature of at most 5,
    and with severity medium otherwise; the overall score is 27, below 30,
    and the rating is poor. *)
Theorem C2_bad_night_warnings_and_score (c : Score.Conditions.t) :
  Score.Conditions.cloudCover c = number 80 ->
  Score.Conditions.humidity c = number 90 ->
  Score.Conditions.windSpeed c = number 35 ->
  Score.Conditions.seeing c = number 2 ->
  Score.Conditions.transparency c = number 2 ->
  Score.Conditions.isMoonUp c = true ->
  Score.Conditions.moonIllumination c = number 90 ->
  let r := Score.calculateScore c (Some "general"%string) in
  Spec.has_warning r "clouds" "high" /\
  Spec.has_warning r "high-wind" "high" /\
  Spec.has_warning r "moon-bright" "medium" /\
  (Spec.has_warning r "fog-risk" "high" <->
     le (ToNumber (Score.Conditions.temperature c)) (Fin 5) = true) /\
  (Spec.has_warning r "fog-risk" "medium" <->
     le (ToNumber (Score.Conditions.temperature c)) (Fin 5) = false) /\
  Score.Result.overallScore r = Fin 27 /\
  Spec.below (Score.Result.overallScore r) 30 /\
  Score.Result.scoreRating r = "poor"%string.
Proof.
  intros Hcloud Hhum Hwind Hsee Htra Hup Hmoon r.
  assert (Hscore : Score.Result.overallScore r = Fin 27).
  { subst r. unfold Score.calculateScore. simpl.
    rewrite Hcloud, Hhum, Hsee, Htra, Hup, Hmoon. reflexivity. }
  assert (Hw : Score.Result.warnings r = Score._generateWarnings c) by reflexivity.
  assert (Hfog : forall sev,
             Spec.has_warning r "fog-risk" sev <->
             sev = (if le (ToNumber (Score.Conditions.temperature c)) (Fin 5)
                    then "high" else "medium")%string).
  { intros sev. split.
    - intros (w & Hin & Hty & Hsev). rewrite Hw in Hin.
      destruct (warning_in_fog c w Hin Hty) as [Hs _].
      rewrite Hhum in Hs. simpl in Hs. congruence.
    - intros ->. unfold Spec.has_warning. rewrite Hw. unfold Score._generateWarnings.
      rewrite Hhum. simpl.
      destruct (le (ToNumber (Score.Conditions.temperature c)) (Fin 5));
        eexists; (split; [left; reflexivity | split; reflexivity]). }
  split_and!.
  - unfold Spec.has_warning. rewrite Hw. unfold Score._generateWarnings. rewrite Hcloud.
    eexists. split.
    + do 2 (apply in_or_app; right). apply in_or_app; left. left; reflexivity.
    + split; reflexivity.
  - unfold Spec.has_warning. rewrite Hw. unfold Score._generateWarnings. rewrite Hwind.
    eexists. split.
    + apply in_or_app; right. apply in_or_app; left. left; reflexivity.
    + split; reflexivity.
  - unfold Spec.has_warning. rewrite Hw. unfold Score._generateWarnings. rewrite Hup, Hmoon.
    eexists. split.
    + do 3 (apply in_or_app; right). apply in_or_app; left. left; reflexivity.
    + split; reflexivity.
  - rewrite Hfog. destruct (le _ (Fin 5)); split; congruence.
  - rewrite Hfog. destruct (le _ (Fin 5)); split; congruence.
  - exact Hscore.
  - rewrite Hscore. reflexivity.
  - subst r. unfold Score.calculateScore in *. simpl in *. rewrite Hscore. reflexivity.
Qed.

(** The scenario with the temperature left out, as the specification words it. *)
Lemma C2_bad_night_witness :
  Score.Conditions.cloudCover (Spec.bad_night undefined) = number 80 /\
  Score.Conditions.humidity (Spec.bad_night undefined) = number 90 /\
  Score.Conditions.windSpeed (Spec.bad_night undefined) = number 35 /\
  Score.Conditions.seeing (Spec.bad_night undefined) = number 2 /\
  Score.Conditions.transparency (Spec.bad_night undefined) = number 2 /\
  Score.Conditions.isMoonUp (Spec.bad_night undefined) = true /\
  Score.Conditions.moonIllumination (Spec.bad_night undefined) = number 90 /\
  let r := Score.calculateScore (Spec.bad_night undefined) (Some "general"%string) in
  Spec.has_warning r "clouds" "high" /\
  Spec.has_warning r "high-wind" "high" /\
  Spec.has_warning r "moon-bright" "medium" /\
  (Spec.has_warning r "fog-risk" "high" <-> false = true) /\
  (Spec.has_warning r "fog-risk" "medium" <-> false = false) /\
  Score.Result.overallScore r = Fin 27 /\
  Spec.below (Score.Result.overallScore r) 30 /\
  Score.Result.scoreRating r = "poor"%string.
Proof.
  do 7 (split; [reflexivity |]).
  exact (C2_bad_night_warnings_and_score (Spec.bad_night undefined)
           eq_refl eq_refl eq_refl eq_refl eq_refl eq_refl eq_refl).
Defined.

(** C2 as the specification states it fails: with no temperature among the
    conditions, [temperature <= 5] is false and the fog warning is medium. *)
Lemma C2_counterexample :
  ~ Spec.bad_night_expectation
      (Score.calculateScore (Spec.bad_night undefined) (Some "general"%string)).
Proof.
  intros (_ & _ & (w & Hin & Hty & Hsev) & _).
  vm_compute in Hin.
  repeat (destruct Hin as [<- | Hin]; [discriminate Hsev || discriminate Hty |]).
  exact Hin.
Qed.

(** C10 (the code breaks it): a mode string outside the four profiles is
    meant to score like the general mode.  An omitted mode does, and so
    does every string [MODE_WEIGHTS] neither has nor inherits; but for a
    name inherited from [Object.prototype], such as constructor, the read
    finds a member, no fallback happens, and the overall score is NaN, where
    the general mode gives a number. *)
Theorem C10_inherited_mode_scores_NaN :
  (forall c, Score.calculateScore c None = Score.calculateScore c (Some "general"%string)) /\
  (forall c, Score.calculateScore c (Some "portrait"%string)
             = Score.calculateScore c (Some "general"%string)) /\
  Forall (fun mode =>
            forall c, Score.Result.overallScore (Score.calculateScore c (Some mode)) = NaN)
         Score.Object_prototype_names /\
  (forall c, Score.Result.overallScore (Score.calculateScore c (Some "general"%string)) <> NaN) /\
  (forall c, Score.calculateScore c (Some "constructor"%string)
             <> Score.calculateScore c (Some "general"%string)) /\
  Score.Result.overallScore
    (Score.calculateScore (Spec.bad_night undefined) (Some "constructor"%string)) = NaN /\
  Score.Result.overallScore
    (Score.calculateScore (Spec.bad_night undefined) (Some "general"%string)) = Fin 27.
Proof.
  assert (Hgen : forall c,
             Score.Result.overallScore (Score.calculateScore c (Some "general"%string)) <> NaN).
  { intros c. destruct (general_score_finite c) as [q ->]. discriminate. }
  assert (Hinh : Forall (fun mode => forall c,
                           Score.Result.overallScore (Score.calculateScore c (Some mode)) = NaN)
                        Score.Object_prototype_names).
  { unfold Score.Object_prototype_names.
    repeat (apply List.Forall_cons; [intros c; apply inherited_mode_score; reflexivity |]).
    apply List.Forall_nil. }
  split; [exact omitted_mode_is_general |].
  split; [intros c; apply unknown_mode_falls_back; reflexivity |].
  split; [exact Hinh |].
  split; [exact Hgen |].
  split; [| split; reflexivity].
  intros c Heq. apply (Hgen c). rewrite <- Heq.
  apply inherited_mode_score; reflexivity.
Qed.

(** C7: the seeing conversion from the 1-8 scale of the feed to the 1-5
    scale maps 1 and 2 to 5, 3 and 4 to 4, 5 to 3, 6 to 2, 7 and 8 to 1. *)
Theorem C7_seeing_conversion_table :
  Astro._convertSeeing (number 1) = 5%Q /\
  Astro._convertSeeing (number 2) = 5%Q /\
  Astro._convertSeeing (number 3) = 4%Q /\
  Astro._convertSeeing (number 4) = 4%Q /\
  Astro._convertSeeing (number 5) = 3%Q /\
  Astro._convertSeeing (number 6) = 2%Q /\
  Astro._convertSeeing (number 7) = 1%Q /\
  Astro._convertSeeing (number 8) = 1%Q.
Proof. repeat split; reflexivity. Qed.

(* ===================================================================== *)
(** * The calendar *)
(* ===================================================================== *)

Section Calendar.
Import Date.

Lemma civil_lt_trans (a b c : civil) : civil_lt a b -> civil_lt b c -> civil_lt a c.
Proof. unfold civil_lt. lia. Qed.

Lemma civil_lt_irrefl (a : civil) : ~ civil_lt a a.
Proof. unfold civil_lt. lia. Qed.

Lemma civil_le_lt (a b : civil) : civil_le a b -> a <> b -> civil_lt a b.
Proof. intros [Hlt | ->]; [trivial | congruence]. Qed.

Lemma civil_ext (a b : civil) :
  year a = year b -> month a = month b -> day a = day b -> a = b.
Proof. destruct a, b; simpl; congruence. Qed.

(** Later days have later dates, already in the March-based calendar;
    months and days stay within their ranges. *)
Lemma march_based_mono (n1 n2 : Z) :
  n1 <= n2 ->
  let '(y1, m1, d1) := march_based n1 in
  let '(y2, m2, d2) := march_based n2 in
  0 <= m1 <= 11 /\ 0 <= m2 <= 11 /\ 1 <= d1 <= 31 /\ 1 <= d2 <= 31 /\
  (y1 < y2 \/ (y1 = y2 /\ (m1 < m2 \/ (m1 = m2 /\ d1 <= d2)))).
Proof.
  intros Hle. unfold march_based. cbv zeta.
  Z.div_mod_to_equations. lia.
Qed.

Lemma civil_from_days_well_formed (n : Z) : well_formed (civil_from_days n).
Proof.
  pose proof (march_based_mono n n (Z.le_refl n)) as H.
  unfold civil_from_days, well_formed.
  destruct (march_based n) as [[y m] d]. simpl.
  destruct (Z.ltb_spec m 10); lia.
Qed.

Lemma civil_from_days_mono (n1 n2 : Z) :
  n1 <= n2 -> civil_le (civil_from_days n1) (civil_from_days n2).
Proof.
  intros Hle. pose proof (march_based_mono n1 n2 Hle) as H.
  unfold civil_from_days.
  destruct (march_based n1) as [[y1 m1] d1], (march_based n2) as [[y2 m2] d2].
  assert (Hcases :
    civil_lt {| year := if (if m1 <? 10 then m1 + 3 else m1 - 9) <=? 2 then y1 + 1 else y1;
                month := if m1 <? 10 then m1 + 3 else m1 - 9; day := d1 |}
             {| year := if (if m2 <? 10 then m2 + 3 else m2 - 9) <=? 2 then y2 + 1 else y2;
                month := if m2 <? 10 then m2 + 3 else m2 - 9; day := d2 |}
    \/ (y1 = y2 /\ m1 = m2 /\ d1 = d2)).
  { unfold civil_lt. simpl.
    destruct (Z.ltb_spec m1 10), (Z.ltb_spec m2 10);
      repeat match goal with
             | |- context [?a <=? 2] => destruct (Z.leb_spec a 2)
             end; lia. }
  destruct Hcases as [Hlt | (-> & -> & ->)]; [left; exact Hlt | right; reflexivity].
Qed.

End Calendar.

(* ===================================================================== *)
(** * Date keys *)
(* ===================================================================== *)

Section DateKeys.
Import Date Spec.

Lemma append_nil (t : string) : "" +:+ t = t.
Proof. reflexivity. Qed.

Lemma append_cons (a : ascii) (s t : string) : String a s +:+ t = String a (s +:+ t).
Proof. reflexivity. Qed.

Lemma length_append (s t : string) :
  String.length (s +:+ t) = (String.length s + String.length t)%nat.
Proof.
  induction s as [| a s IH]; [reflexivity |].
  rewrite append_cons. simpl. rewrite IH. reflexivity.
Qed.

(** Two texts that end in parts of one length agree part by part. *)
Lemma append_inj_suffix (s1 s2 t1 t2 : string) :
  String.length t1 = String.length t2 -> s1 +:+ t1 = s2 +:+ t2 -> s1 = s2 /\ t1 = t2.
Proof.
  revert s2. induction s1 as [| a s1 IH]; intros [| b s2] Hlen Heq;
    rewrite ?append_nil, ?append_cons in Heq.
  - auto.
  - exfalso. subst t1. simpl in Hlen. rewrite length_append in Hlen. lia.
  - exfalso. subst t2. simpl in Hlen. rewrite length_append in Hlen. lia.
  - injection Heq as -> Heq. destruct (IH _ Hlen Heq) as [-> ->]. auto.
Qed.

(** Months and days are written with two characters, different ones for
    different numbers: checked over 1 to 31. *)
Lemma two_digits_checked :
  forallb (fun a =>
             (String.length (padStart 2 "0" (show_int a)) =? 2)%nat
             && forallb (fun b =>
                           implb (String.eqb (padStart 2 "0" (show_int a))
                                             (padStart 2 "0" (show_int b)))
                                 (a =? b))
                        (map Z.of_nat (seq 1 31)))
          (map Z.of_nat (seq 1 31))
  = true.
Proof. vm_compute. reflexivity. Qed.

Lemma in_days (n : Z) : 1 <= n <= 31 -> In n (map Z.of_nat (seq 1 31)).
Proof.
  intros Hn. apply in_map_iff. exists (Z.to_nat n).
  split; [lia | apply in_seq; lia].
Qed.

Lemma two_digits_length (n : Z) :
  1 <= n <= 31 -> String.length (padStart 2 "0" (show_int n)) = 2%nat.
Proof.
  intros Hn. pose proof two_digits_checked as Hc.
  rewrite forallb_forall in Hc. specialize (Hc n (in_days n Hn)).
  apply andb_prop in Hc. destruct Hc as [Hlen _]. apply Nat.eqb_eq. exact Hlen.
Qed.

Lemma two_digits_inj (n m : Z) :
  1 <= n <= 31 -> 1 <= m <= 31 ->
  padStart 2 "0" (show_int n) = padStart 2 "0" (show_int m) -> n = m.
Proof.
  intros Hn Hm Heq. pose proof two_digits_checked as Hc.
  rewrite forallb_forall in Hc. specialize (Hc n (in_days n Hn)).
  apply andb_prop in Hc. destruct Hc as [_ Hall].
  rewrite forallb_forall in Hall. specialize (Hall m (in_days m Hm)).
  rewrite Heq, String.eqb_refl in Hall. simpl in Hall. apply Z.eqb_eq. exact Hall.
Qed.

(** Different dates have different keys. *)
Lemma key_of_inj (a b : civil) :
  well_formed a -> well_formed b -> key_of a = key_of b -> a = b.
Proof.
  intros [Hma Hda] [Hmb Hdb]. unfold key_of. intros Heq.
  apply append_inj_suffix in Heq.
  - destruct Heq as [Hy Heq]. rewrite !(append_cons "-"), !append_nil in Heq.
    injection Heq as Heq. apply append_inj_suffix in Heq.
    + destruct Heq as [Hm Hd]. injection Hd as Hd.
      apply civil_ext.
      * apply (inj pretty). exact Hy.
      * apply two_digits_inj; [lia | lia | exact Hm].
      * apply two_digits_inj; [lia | lia | exact Hd].
    + simpl. rewrite !two_digits_length by lia. reflexivity.
  - rewrite !length_append, !two_digits_length by lia. reflexivity.
Qed.

(** So the order of date keys is a strict order. *)
Lemma date_before_irrefl (k : string) : ~ date_before k k.
Proof.
  intros (a & b & Ha & Hb & -> & Heq & Hlt).
  apply key_of_inj in Heq; [| assumption | assumption].
  subst b. exact (civil_lt_irrefl a Hlt).
Qed.

Lemma date_before_trans (k1 k2 k3 : string) :
  date_before k1 k2 -> date_before k2 k3 -> date_before k1 k3.
Proof.
  intros (a & b & Ha & Hb & -> & -> & Hab) (b' & c & Hb' & Hc & Heq & -> & Hbc).
  apply key_of_inj in Heq; [| assumption | assumption]. subst b'.
  exists a, c. repeat (split; [assumption || reflexivity |]).
  exact (civil_lt_trans a b c Hab Hbc).
Qed.

End DateKeys.

(* ===================================================================== *)
(** * The temporal aligner *)
(* ===================================================================== *)

Section Aligner.
Import Data App Spec.

(** The loop from a candidate [c] at distance [m]: either the candidate
    stands, nothing later being nearer, or a later entry replaces it that
    is nearer than [m], nearer than all before it and as near as all after. *)
Lemma closest_from (targetTime : Z) (l : list AstroHour.t) (c : AstroHour.t) (m : Z) :
  let r := (foldl (closer targetTime) (c, Some m) l).1 in
  (r = c /\ Forall (fun x => m <= distance targetTime x) l) \/
  (exists before after,
     l = before ++ r :: after /\ distance targetTime r < m /\
     Forall (fun x => distance targetTime r < distance targetTime x) before /\
     Forall (fun x => distance targetTime r <= distance targetTime x) after).
Proof.
  revert c m. induction l as [| x l IH]; intros c m; simpl.
  - left. split; [reflexivity | constructor].
  - unfold Math.abs. fold (distance targetTime x).
    destruct (Z.ltb_spec (distance targetTime x) m) as [Hlt | Hge].
    + destruct (IH x (distance targetTime x)) as [[Hr Hall] | (b & a & Hl & Hd & Hb & Ha)].
      * right. exists [], l. simpl in *. rewrite Hr.
        split; [reflexivity |]. split; [exact Hlt |]. split; [constructor | exact Hall].
      * right. exists (x :: b), a. simpl in *.
        split; [rewrite Hl at 1; reflexivity |]. split; [lia |].
        split; [constructor; [lia | exact Hb] | exact Ha].
    + destruct (IH c m) as [[Hr Hall] | (b & a & Hl & Hd & Hb & Ha)].
      * left. simpl in *. split; [exact Hr | constructor; [lia | exact Hall]].
      * right. exists (x :: b), a. simpl in *.
        split; [rewrite Hl at 1; reflexivity |]. split; [exact Hd |].
        split; [constructor; [lia | exact Hb] | exact Ha].
Qed.

End Aligner.

(** C5: for a non-empty seeing series the aligner returns the entry whose
    time is nearest to the target, and among several at the least distance
    the first in the order of the series; for an empty series it returns
    none. *)
Theorem C5_nearest_entry_first_on_ties (astroData : Data.AstroData.t) (targetTime : Z) :
  Spec.nearest_first targetTime (Data.AstroData.hourly astroData)
    (App.findMatchingAstroData (Some astroData) targetTime).
Proof.
  unfold Spec.nearest_first, App.findMatchingAstroData.
  destruct (Data.AstroData.hourly astroData) as [| first rest]; [reflexivity |].
  simpl. unfold Math.abs. fold (Spec.distance targetTime first).
  destruct (closest_from targetTime rest first (Spec.distance targetTime first))
    as [[Hr Hall] | (b & a & Hl & Hd & Hb & Ha)]; simpl in *.
  - exists first, [], rest. rewrite Hr.
    split; [reflexivity |]. split; [reflexivity |]. split; [constructor | exact Hall].
  - eexists _, (first :: b), a.
    split; [reflexivity |]. split; [simpl; rewrite Hl at 1; reflexivity |].
    split; [constructor; [exact Hd | exact Hb] | exact Ha].
Qed.

(** The aligner on a sample series: of the two entries one hour from the
    target the first is returned. *)
Example aligner_tie :
  App.findMatchingAstroData
    (Some (Spec.astro_series [Spec.astro_hour 0 1; Spec.astro_hour 7200000 2;
                              Spec.astro_hour 14400000 3; Spec.astro_hour 21600000 4]))
    10800000
  = Some (Spec.astro_hour 7200000 2).
Proof. reflexivity. Qed.

(* ===================================================================== *)
(** * The forecast aggregator *)
(* ===================================================================== *)

Section Grouping.
Import Data App Spec.

Implicit Types (g : list (string * list WeatherHour.t)) (h : WeatherHour.t) (k : string).

(** Writing under a key appends to its array and leaves the others alone. *)
Lemma lookup_push_group k k' h g :
  lookup_group k (push_group k' h g)
  = if String.eqb k' k then lookup_group k g ++ [h] else lookup_group k g.
Proof.
  induction g as [| [k0 hs] g IH]; simpl.
  - destruct (String.eqb k' k); reflexivity.
  - destruct (String.eqb_spec k0 k') as [-> | Hne]; simpl.
    + destruct (String.eqb k' k); reflexivity.
    + rewrite IH. destruct (String.eqb_spec k0 k) as [-> | Hne']; [| reflexivity].
      destruct (String.eqb_spec k' k) as [-> | _]; [congruence | reflexivity].
Qed.

(** A new key goes to the end of the keys, a known key changes nothing. *)
Lemma keys_push_group k h g :
  (In k (map fst g) /\ map fst (push_group k h g) = map fst g) \/
  (~ In k (map fst g) /\ map fst (push_group k h g) = map fst g ++ [k]).
Proof.
  induction g as [| [k0 hs] g IH]; simpl.
  - right. split; [tauto | reflexivity].
  - destruct (String.eqb_spec k0 k) as [-> | Hne]; simpl.
    + left. split; [left; reflexivity | reflexivity].
    + destruct IH as [[Hin Heq] | [Hnin Heq]].
      * left. split; [right; exact Hin | rewrite Heq; reflexivity].
      * right. split; [intros [He | Hin]; [congruence | tauto] | rewrite Heq; reflexivity].
Qed.

Lemma filter_none {A} (f : A -> bool) (l : list A) :
  (forall x, In x l -> f x = false) -> List.filter f l = [].
Proof.
  induction l as [| x l IH]; intros Hall; simpl; [reflexivity |].
  rewrite (Hall x (or_introl eq_refl)). apply IH. intros y Hy. apply Hall. right; exact Hy.
Qed.

Lemma map_date_imap (f : nat -> string -> DayForecast.t) (dates : list string) :
  (forall i k, DayForecast.date (f i k) = k) ->
  map DayForecast.date (imap f dates) = dates.
Proof.
  revert f. induction dates as [| k dates IH]; intros f Hf; simpl; [reflexivity |].
  rewrite Hf. f_equal. apply IH. intros i k'. apply Hf.
Qed.

Context `{Date.TimeZone}.

Lemma dateKey_key_of (t : Z) : dateKey t = key_of (localDate t).
Proof.
  unfold dateKey, key_of, localDate, Date.getFullYear, Date.getMonth, Date.getDate.
  rewrite Z.sub_add. reflexivity.
Qed.

(** The bucket of a key holds the hours of that local date, in their order. *)
Lemma lookup_group_by_day k (hourly : list WeatherHour.t) :
  lookup_group k (group_by_day hourly)
  = List.filter (fun h => String.eqb (dateKey (WeatherHour.timestamp h)) k) hourly.
Proof.
  unfold group_by_day.
  enough (Hgen : forall g,
             lookup_group k
               (foldl (fun dailyGroups hour =>
                         push_group (dateKey (WeatherHour.timestamp hour)) hour dailyGroups)
                      g hourly)
             = lookup_group k g
               ++ List.filter (fun h => String.eqb (dateKey (WeatherHour.timestamp h)) k) hourly)
    by (rewrite Hgen; reflexivity).
  induction hourly as [| h hourly IH]; intros g; simpl.
  - rewrite app_nil_r. reflexivity.
  - rewrite IH, lookup_push_group.
    destruct (String.eqb (dateKey (WeatherHour.timestamp h)) k); [| reflexivity].
    rewrite <- app_assoc. reflexivity.
Qed.

Lemma forecast_day_date dailyGroups astroData astronomicalData mode (i : nat) k :
  DayForecast.date (forecast_day dailyGroups astroData astronomicalData mode i k) = k.
Proof.
  unfold forecast_day. destruct (List.filter isNightHour _); reflexivity.
Qed.

(** A day whose bucket has no night hour gets the defaults. *)
Lemma forecast_day_no_night dailyGroups astroData astronomicalData mode (i : nat) k :
  List.filter isNightHour (lookup_group k dailyGroups) = [] ->
  let day := forecast_day dailyGroups astroData astronomicalData mode i k in
  DayForecast.overallScore day = Fin 50 /\ DayForecast.scoreRating day = "good"%string /\
  DayForecast.hourlyScores day = [] /\ DayForecast.bestHour day = None.
Proof.
  intros Hnone. unfold forecast_day. rewrite Hnone. simpl. tauto.
Qed.

(** The keys of the groups, taken along a series whose local dates never
    go back, are the keys of strictly increasing dates. *)
Lemma group_keys_increasing (hourly : list WeatherHour.t) g (ds : list Date.civil) :
  StronglySorted
    (fun a b => Date.civil_le (localDate (WeatherHour.timestamp a))
                              (localDate (WeatherHour.timestamp b))) hourly ->
  map fst g = map key_of ds ->
  StronglySorted Date.civil_lt ds ->
  Forall Date.well_formed ds ->
  (forall d h, In d ds -> In h hourly ->
               Date.civil_le d (localDate (WeatherHour.timestamp h))) ->
  exists ds',
    map fst (foldl (fun dailyGroups hour =>
                      push_group (dateKey (WeatherHour.timestamp hour)) hour dailyGroups)
                   g hourly)
    = map key_of ds'
    /\ StronglySorted Date.civil_lt ds' /\ Forall Date.well_formed ds'.
Proof.
  revert g ds. induction hourly as [| h hourly IH]; intros g ds Hsorted Hkeys Hds Hwf Hle; simpl.
  - exists ds. auto.
  - apply StronglySorted_inv in Hsorted. destruct Hsorted as [Hrest Hfirst].
    rewrite Forall_forall in Hfirst.
    destruct (keys_push_group (dateKey (WeatherHour.timestamp h)) h g) as [[Hin Heq] | [Hnin Heq]].
    + apply (IH _ ds); auto.
      * rewrite Heq. exact Hkeys.
      * intros d h' Hd Hh'. apply Hle; [exact Hd | right; exact Hh'].
    + apply (IH _ (ds ++ [localDate (WeatherHour.timestamp h)])); auto.
      * rewrite Heq, Hkeys, map_app, dateKey_key_of. reflexivity.
      * apply StronglySorted_app_2; [| exact Hds | repeat constructor].
        intros d d' Hd Hd'. apply list_elem_of_In in Hd, Hd'.
        destruct Hd' as [<- | []].
        apply civil_le_lt; [apply Hle; [exact Hd | left; reflexivity] |].
        intros ->. apply Hnin. rewrite Hkeys, dateKey_key_of. apply in_map. exact Hd.
      * apply Forall_app. split; [exact Hwf |].
        constructor; [apply civil_from_days_well_formed | constructor].
      * intros d h' Hd Hh'. apply in_app_or in Hd. destruct Hd as [Hd | [<- | []]].
        -- apply Hle; [exact Hd | right; exact Hh'].
        -- apply Hfirst. apply list_elem_of_In. exact Hh'.
Qed.

(** The dates of the forecast are the first four keys of the groups. *)
Lemma forecast_dates (weatherData : WeatherData.t) astroData astronomicalData mode :
  map DayForecast.date (buildForecastData weatherData astroData astronomicalData mode)
  = take 4 (map fst (group_by_day (WeatherData.hourly weatherData))).
Proof.
  unfold buildForecastData. apply map_date_imap. intros i k. apply forecast_day_date.
Qed.

(** The forecast of a series sorted by time, in a zone whose local day
    never goes back as time goes on. *)
Lemma forecast_dates_increasing (weatherData : WeatherData.t) astroData astronomicalData mode :
  (forall t1 t2, t1 <= t2 -> Date.Day (Date.LocalTime t1) <= Date.Day (Date.LocalTime t2)) ->
  Sorted Z.le (map WeatherHour.timestamp (WeatherData.hourly weatherData)) ->
  let forecast := buildForecastData weatherData astroData astronomicalData mode in
  (length forecast <= 4)%nat /\ StronglySorted date_before (map DayForecast.date forecast).
Proof.
  intros Hzone Hsorted forecast. split.
  - subst forecast. rewrite <- (length_map DayForecast.date), forecast_dates, length_take. lia.
  - subst forecast. rewrite forecast_dates.
    assert (Hss : StronglySorted
                    (fun a b => Date.civil_le (localDate (WeatherHour.timestamp a))
                                              (localDate (WeatherHour.timestamp b)))
                    (WeatherData.hourly weatherData)).
    { apply Sorted_StronglySorted in Hsorted; [| intros x y z; apply Z.le_trans].
      induction (WeatherData.hourly weatherData) as [| h l IH]; [constructor |].
      simpl in Hsorted. apply StronglySorted_inv in Hsorted. destruct Hsorted as [Hl Hh].
      constructor; [apply IH; exact Hl |].
      apply Forall_forall. intros h' Hh'.
      apply civil_from_days_mono, Hzone.
      eapply Forall_forall in Hh; [exact Hh |].
      apply list_elem_of_In, in_map, list_elem_of_In, Hh'. }
    destruct (group_keys_increasing (WeatherData.hourly weatherData) [] [] Hss eq_refl)
      as (ds & Hkeys & Hds & Hwf); [constructor | constructor | intros d h [] |].
    unfold group_by_day. rewrite Hkeys, <- (fmap_take key_of).
    assert (Hds4 : StronglySorted Date.civil_lt (take 4 ds)).
    { rewrite <- (take_drop 4 ds) in Hds. apply StronglySorted_app_1_l in Hds. exact Hds. }
    assert (Hwf4 : Forall Date.well_formed (take 4 ds)) by (apply Forall_take; exact Hwf).
    induction Hds4 as [| d l Hl IH Hd]; simpl; [constructor |].
    apply Forall_cons in Hwf4. destruct Hwf4 as [Hwd Hwl].
    constructor; [apply IH; exact Hwl |].
    apply Forall_forall. intros k Hk. apply list_elem_of_In, in_map_iff in Hk.
    destruct Hk as (d' & <- & Hd'). apply list_elem_of_In in Hd'.
    exists d, d'. split; [exact Hwd |].
    split; [eapply Forall_forall in Hwl; [exact Hwl | exact Hd'] |].
    split; [reflexivity |]. split; [reflexivity |].
    eapply Forall_forall in Hd; [exact Hd | exact Hd'].
Qed.

End Grouping.

(** C9: a day of the forecast whose bucket holds no night hour (no record
    of that local date with local hour at least 18 or at most 6) has overall
    score 50, rating good, no hourly scores and no best hour. *)
Theorem C9_day_without_night_hours (zone : Date.TimeZone)
    (weatherData : Data.WeatherData.t) (astroData : option Data.AstroData.t)
    (astronomicalData : option Data.AstronomicalData.t) (mode : option string)
    (day : App.DayForecast.t) :
  In day (App.buildForecastData weatherData astroData astronomicalData mode) ->
  (forall h, In h (Data.WeatherData.hourly weatherData) ->
             App.dateKey (Data.WeatherHour.timestamp h) = App.DayForecast.date day ->
             App.isNightHour h = false) ->
  App.DayForecast.overallScore day = Fin 50 /\
  App.DayForecast.scoreRating day = "good"%string /\
  App.DayForecast.hourlyScores day = [] /\
  App.DayForecast.bestHour day = None.
Proof.
  intros Hday Hquiet. unfold App.buildForecastData in Hday.
  apply list_elem_of_In, elem_of_lookup_imap in Hday.
  destruct Hday as (i & k & -> & _).
  rewrite forecast_day_date in Hquiet.
  apply forecast_day_no_night. rewrite lookup_group_by_day.
  apply filter_none. intros h Hh. apply filter_In in Hh. destruct Hh as [Hin Hkey].
  apply Hquiet; [exact Hin | apply String.eqb_eq; exact Hkey].
Qed.

(** Two hours around noon make a day with the defaults. *)
Lemma C9_quiet_day_witness :
  In Spec.quiet_day
     (@App.buildForecastData (Date.fixedOffset 60) Spec.noon_weather None None None) /\
  (forall h, In h (Data.WeatherData.hourly Spec.noon_weather) ->
             @App.dateKey (Date.fixedOffset 60) (Data.WeatherHour.timestamp h)
             = App.DayForecast.date Spec.quiet_day ->
             @App.isNightHour (Date.fixedOffset 60) h = false) /\
  App.DayForecast.overallScore Spec.quiet_day = Fin 50 /\
  App.DayForecast.scoreRating Spec.quiet_day = "good"%string /\
  App.DayForecast.hourlyScores Spec.quiet_day = [] /\
  App.DayForecast.bestHour Spec.quiet_day = None.
Proof.
  assert (Hin : In Spec.quiet_day
                   (@App.buildForecastData (Date.fixedOffset 60) Spec.noon_weather
                                           None None None))
    by (left; reflexivity).
  assert (Hquiet : forall h, In h (Data.WeatherData.hourly Spec.noon_weather) ->
             @App.dateKey (Date.fixedOffset 60) (Data.WeatherHour.timestamp h)
             = App.DayForecast.date Spec.quiet_day ->
             @App.isNightHour (Date.fixedOffset 60) h = false).
  { intros h [<- | [<- | [<- | []]]] Hkey; try reflexivity.
    vm_compute in Hkey. discriminate Hkey. }
  split; [exact Hin |]. split; [exact Hquiet |].
  exact (C9_day_without_night_hours (Date.fixedOffset 60) Spec.noon_weather None None None
           Spec.quiet_day Hin Hquiet).
Defined.



Example week_forecast_dates :
  map App.DayForecast.date
      (@App.buildForecastData (Date.fixedOffset 60) Spec.week_weather None None None)
  = ["2026-01-24"; "2026-01-25"; "2026-01-26"; "2026-01-27"]%string.
Proof. vm_compute. reflexivity. Qed.

(* ===================================================================== *)
(** * The cache *)
(* ===================================================================== *)

Section SortByTimestamp.
Import Cache Spec.

Lemma insert_by_timestamp_perm e l : insert_by_timestamp e l ≡ₚ e :: l.
Proof.
  induction l as [| x l IH]; simpl; [reflexivity |].
  destruct (e.2 <=? x.2); [reflexivity |].
  rewrite IH. apply perm_swap.
Qed.

Lemma sort_by_timestamp_perm l : sort_by_timestamp l ≡ₚ l.
Proof.
  induction l as [| x l IH]; simpl; [reflexivity |].
  rewrite insert_by_timestamp_perm, IH. reflexivity.
Qed.

Lemma insert_by_timestamp_sorted e l :
  Sorted older l -> Sorted older (insert_by_timestamp e l).
Proof.
  induction l as [| x l IH]; intros Hs; simpl.
  - repeat constructor.
  - destruct (Z.leb_spec e.2 x.2) as [Hle | Hgt].
    + constructor; [exact Hs | constructor; exact Hle].
    + apply Sorted_inv in Hs. destruct Hs as [Hs Hhd].
      constructor; [apply IH; exact Hs |].
      destruct l as [| y l]; simpl.
      * constructor. unfold older. lia.
      * destruct (Z.leb_spec e.2 y.2); constructor; unfold older; try lia.
        inversion Hhd; subst. assumption.
Qed.

Lemma sort_by_timestamp_sorted l : StronglySorted older (sort_by_timestamp l).
Proof.
  apply Sorted_StronglySorted; [intros x y z; unfold older; lia |].
  induction l as [| x l IH]; simpl; [constructor |].
  apply insert_by_timestamp_sorted, IH.
Qed.

Lemma half_up_spec (n : nat) : (2 * half_up n = n \/ 2 * half_up n = n + 1)%nat.
Proof.
  unfold half_up, Math.ceilQ, Qceiling, Qfloor. simpl.
  rewrite Z.mul_1_r. Z.div_mod_to_equations. lia.
Qed.

Lemma half_up_le (n : nat) : (half_up n <= n)%nat.
Proof. pose proof (half_up_spec n). lia. Qed.

End SortByTimestamp.

Section CacheFacts.
Import Cache Spec.
Context {V : Type}.
Implicit Types (store : gmap string (item V)) (st : state V) (k key : string).

Lemma lookup_foldl_delete store (l : list (string * Z)) k :
  foldl (fun s e => delete e.1 s) store l !! k
  = if bool_decide (k ∈ l.*1) then None else store !! k.
Proof.
  revert store. induction l as [| e l IH]; intros store; [reflexivity |].
  rewrite fmap_cons. cbn [foldl].
  rewrite IH. clear IH. destruct (decide (k = e.1)) as [-> | Hne].
  - rewrite lookup_delete_eq.
    rewrite (bool_decide_eq_true_2 (e.1 ∈ e.1 :: l.*1)) by apply list_elem_of_here.
    destruct (bool_decide _); reflexivity.
  - rewrite lookup_delete_ne by congruence.
    apply (f_equal (fun b : bool => if b then None else store !! k)).
    apply bool_decide_ext. rewrite elem_of_cons. tauto.
Qed.

Lemma cleanup_lookup store k :
  _cleanupStorage store !! k = if bool_decide (k ∈ evicted store) then None else store !! k.
Proof. unfold _cleanupStorage, evicted. apply lookup_foldl_delete. Qed.

Lemma sorted_entries_keys store :
  (sort_by_timestamp (map (fun k => (k, entry_timestamp (store !! k))) (cache_keys store))).*1
  ≡ₚ cache_keys store.
Proof.
  rewrite sort_by_timestamp_perm.
  induction (cache_keys store) as [| k l IH]; [reflexivity |].
  cbn [map]. rewrite fmap_cons. cbn [fst]. f_equiv. exact IH.
Qed.

Lemma cache_keys_NoDup store : NoDup (cache_keys store).
Proof. apply NoDup_filter, NoDup_fst_map_to_list. Qed.

Lemma evicted_NoDup store : NoDup (evicted store).
Proof.
  unfold evicted. rewrite fmap_take.
  eapply sublist_NoDup; [| apply sublist_take].
  rewrite sorted_entries_keys. apply cache_keys_NoDup.
Qed.

Lemma evicted_cache_key store k : k ∈ evicted store -> k ∈ cache_keys store.
Proof.
  unfold evicted. rewrite fmap_take. intros Hk.
  rewrite <- sorted_entries_keys.
  eapply elem_of_sublist; [exact Hk | apply sublist_take].
Qed.

Lemma evicted_length store : length (evicted store) = half_up (length (cache_keys store)).
Proof.
  unfold evicted. rewrite length_fmap, length_take.
  rewrite (Permutation_length (sort_by_timestamp_perm _)), length_map.
  pose proof (half_up_le (length (cache_keys store))). lia.
Qed.

(** Nothing evicted is younger than a cache entry that stays. *)
Lemma evicted_oldest store k k' :
  k ∈ evicted store -> k' ∈ cache_keys store -> k' ∉ evicted store ->
  entry_timestamp (store !! k) <= entry_timestamp (store !! k').
Proof.
  unfold evicted.
  set (entries := sort_by_timestamp _). set (n := half_up (length entries)).
  intros Hk Hk' Hnk'.
  assert (Hshape : Forall (fun e => e.2 = entry_timestamp (store !! e.1)) entries).
  { subst entries. rewrite sort_by_timestamp_perm. apply Forall_forall.
    intros e He. apply list_elem_of_fmap in He. destruct He as (k0 & -> & _). reflexivity. }
  apply list_elem_of_fmap in Hk. destruct Hk as (e & -> & He).
  assert (He' : (k', entry_timestamp (store !! k')) ∈ drop n entries).
  { assert (Hin : (k', entry_timestamp (store !! k')) ∈ entries).
    { subst entries. rewrite sort_by_timestamp_perm.
      apply list_elem_of_fmap. exists k'. split; [reflexivity | exact Hk']. }
    rewrite <- (take_drop n entries) in Hin. apply elem_of_app in Hin.
    destruct Hin as [Hin | Hin]; [| exact Hin].
    exfalso. apply Hnk'. apply list_elem_of_fmap.
    exists (k', entry_timestamp (store !! k')). split; [reflexivity | exact Hin]. }
  pose proof (sort_by_timestamp_sorted
                (map (fun k => (k, entry_timestamp (store !! k))) (cache_keys store))) as Hs.
  fold entries in Hs. rewrite <- (take_drop n entries) in Hs.
  pose proof (StronglySorted_app_1_elem_of _ _ _ _ _ Hs He He') as Hold.
  unfold older in Hold. simpl in Hold.
  assert (Hin : e ∈ entries).
  { eapply elem_of_sublist; [exact He | apply sublist_take]. }
  eapply Forall_forall in Hshape; [| exact Hin]. rewrite <- Hshape. exact Hold.
Qed.

(** The time the cleanup sorts an entry by is the creation time stored
    with it. *)
Lemma entry_timestamp_created store k : entry_timestamp (store !! k) = created store k.
Proof.
  unfold entry_timestamp, created.
  destruct (store !! k) as [[| c] |]; simpl; [reflexivity | | reflexivity].
  destruct (timestamp c); reflexivity.
Qed.

Variable quotaExceeded : gmap string (item V) -> string -> item V -> bool.

(** Before its expiry a value that was set is read from the fast tier. *)
Lemma get_after_set_fresh st key (d : V) (ttl now t' : Z) :
  t' < now + ttl ->
  get key t' (set quotaExceeded key d (Some ttl) now st).2
  = (Some d, (set quotaExceeded key d (Some ttl) now st).2).
Proof.
  intros Hfresh. unfold set, get.
  destruct (setItem _ _ _ _); simpl; rewrite lookup_insert_eq; unfold unexpired; simpl;
    (destruct (Z.ltb_spec t' (now + ttl)); [reflexivity | lia]).
Qed.

End CacheFacts.

(** C8: when the durable write of a [set] fails because the storage is
    full, [set] still returns normally; the eviction removes from the
    durable tier exactly the oldest half, rounded up, of the cache entries
    by the creation time stored in each entry (no removed entry has a later
    [timestamp] than one that stays); nothing is written there afterwards;
    and the new entry is readable from the fast tier until it expires. *)
Theorem C8_storage_full_eviction {V : Type}
    (quotaExceeded : gmap string (Cache.item V) -> string -> Cache.item V -> bool)
    (st : Cache.state V) (key : string) (d : V) (ttl now : Z) :
  quotaExceeded (Cache.localStorage st) (Cache._generateKey key)
                (Cache.JSON_stringify (Spec.entry d ttl now)) = true ->
  Spec.eviction_outcome quotaExceeded st key d ttl now.
Proof.
  intros Hfull. unfold Spec.eviction_outcome.
  assert (Hset : Cache.set quotaExceeded key d (Some ttl) now st
                 = (Normal tt,
                    {| Cache.memoryCache :=
                         <[Cache._generateKey key := Spec.entry d ttl now]> (Cache.memoryCache st);
                       Cache.localStorage := Cache._cleanupStorage (Cache.localStorage st) |})).
  { unfold Cache.set, Cache.setItem.
    change (default Cache.DEFAULT_TTL (Some ttl)) with ttl.
    fold (Spec.entry d ttl now). rewrite Hfull. reflexivity. }
  split_and!.
  - rewrite Hset. reflexivity.
  - rewrite Hset. simpl. apply lookup_insert_eq.
  - intros t' Ht'. apply get_after_set_fresh. exact Ht'.
  - rewrite Hset. simpl. intros k v. rewrite cleanup_lookup.
    case_bool_decide; [discriminate | trivial].
  - exists (Spec.evicted (Cache.localStorage st)). rewrite Hset. simpl. split_and!.
    + apply evicted_NoDup.
    + apply evicted_cache_key.
    + apply evicted_length.
    + rewrite evicted_length. apply half_up_spec.
    + intros k k' Hk Hk' Hkept. rewrite <- !entry_timestamp_created.
      apply evicted_oldest; assumption.
    + intros k Hk. rewrite cleanup_lookup, bool_decide_eq_true_2; [reflexivity | exact Hk].
    + intros k Hk. rewrite cleanup_lookup, bool_decide_eq_false_2; [reflexivity | exact Hk].
Qed.

(** A third forecast arrives while the storage holds two. *)
Lemma C8_full_storage_witness :
  Spec.two_items_quota (Cache.localStorage Spec.two_entries) (Cache._generateKey "davos")
                       (Cache.JSON_stringify (Spec.entry "rain"%string 1000 5)) = true /\
  Spec.eviction_outcome Spec.two_items_quota Spec.two_entries "davos" "rain"%string 1000 5.
Proof.
  split; [reflexivity |].
  exact (C8_storage_full_eviction Spec.two_items_quota Spec.two_entries
           "davos" "rain"%string 1000 5 eq_refl).
Defined.

(** The durable tier of the sample before and after: the older of the two
    entries is gone, the new one was not written. *)
Example full_storage_eviction :
  map fst (map_to_list (Cache.localStorage Spec.two_entries))
  = ["astroweather_cache_chur"; "astroweather_cache_bern"]%string /\
  map fst (map_to_list
             (Cache.localStorage
                (Cache.set Spec.two_items_quota "davos" "rain"%string (Some 1000) 5
                           Spec.two_entries).2))
  = ["astroweather_cache_chur"]%string.
Proof. split; vm_compute; reflexivity. Qed.

(** C4, as amended: after [set(key, value, ttl)] at time [t], a [get(key)]
    at [t' < t + ttl] returns the value unchanged; at [t' >= t + ttl] it
    returns nothing and leaves neither tier with the key, except when the
    durable write of the [set] was refused because the storage was full and
    the cleanup left an older text under the key in the durable tier: an
    older entry that has not expired at [t'] is returned instead, and a
    text that cannot be read stays where it is while the read returns
    nothing.  In every other case, a refused write included, the read at
    [t' >= t + ttl] returns nothing and purges the key. *)
Theorem C4_ttl_expiry {V : Type}
    (quotaExceeded : gmap string (Cache.item V) -> string -> Cache.item V -> bool)
    (st : Cache.state V) (key : string) (d : V) (ttl t t' : Z) :
  let full := quotaExceeded (Cache.localStorage st) (Cache._generateKey key)
                            (Cache.JSON_stringify (Spec.entry d ttl t)) in
  let st1 := (Cache.set quotaExceeded key d (Some ttl) t st).2 in
  let older := Cache._cleanupStorage (Cache.localStorage st) !! Cache._generateKey key in
  (t' < t + ttl -> Cache.get key t' st1 = (Some d, st1)) /\
  (t + ttl <= t' -> Spec.outlives quotaExceeded st key d ttl t t' = false ->
   (Cache.get key t' st1).1 = None /\
   Cache.memoryCache (Cache.get key t' st1).2 !! Cache._generateKey key = None /\
   Cache.localStorage (Cache.get key t' st1).2 !! Cache._generateKey key = None) /\
  (t + ttl <= t' -> full = true ->
   forall stale,
     older = Some (Cache.Json stale) ->
     Cache.unexpired t' stale = true ->
     (Cache.get key t' st1).1 = Some (Cache.data stale)) /\
  (t + ttl <= t' -> full = true ->
   older = Some Cache.Unparsable ->
   (Cache.get key t' st1).1 = None /\
   Cache.memoryCache (Cache.get key t' st1).2 !! Cache._generateKey key = None /\
   Cache.localStorage (Cache.get key t' st1).2 !! Cache._generateKey key
   = Some Cache.Unparsable).
Proof.
  intros full st1 older.
  assert (Hfull : quotaExceeded (Cache.localStorage st) (Cache._generateKey key)
                                (Cache.JSON_stringify (Spec.entry d ttl t)) = full)
    by reflexivity.
  assert (Holder : Cache._cleanupStorage (Cache.localStorage st) !! Cache._generateKey key
                   = older) by reflexivity.
  assert (Hst1 : st1
                 = {| Cache.memoryCache :=
                        <[Cache._generateKey key := Spec.entry d ttl t]> (Cache.memoryCache st);
                      Cache.localStorage :=
                        if full then Cache._cleanupStorage (Cache.localStorage st)
                        else <[Cache._generateKey key := Cache.Json (Spec.entry d ttl t)]>
                               (Cache.localStorage st) |}).
  { subst st1. unfold Cache.set, Cache.setItem.
    change (default Cache.DEFAULT_TTL (Some ttl)) with ttl. fold (Spec.entry d ttl t).
    rewrite Hfull. destruct full; reflexivity. }
  assert (Hfresh : t' < t + ttl -> Cache.get key t' st1 = (Some d, st1))
    by (apply get_after_set_fresh).
  clearbody full older st1. subst st1.
  assert (Hread : t + ttl <= t' ->
            forall store,
              Cache.get key t'
                {| Cache.memoryCache :=
                     <[Cache._generateKey key := Spec.entry d ttl t]> (Cache.memoryCache st);
                   Cache.localStorage := store |}
              = Cache.get_stored (Cache._generateKey key) t'
                  {| Cache.memoryCache :=
                       delete (Cache._generateKey key)
                              (<[Cache._generateKey key := Spec.entry d ttl t]>
                                 (Cache.memoryCache st));
                     Cache.localStorage := store |}).
  { intros Hexp store. unfold Cache.get. simpl. rewrite lookup_insert_eq.
    unfold Cache.unexpired. simpl.
    destruct (Z.ltb_spec t' (t + ttl)); [lia | reflexivity]. }
  split; [exact Hfresh |]. split; [| split].
  - intros Hexp Hnone. rewrite (Hread Hexp). unfold Cache.get_stored.
    cbn [Cache.localStorage Cache.memoryCache].
    unfold Spec.outlives in Hnone. rewrite Hfull, Holder in Hnone.
    destruct full; cbn [andb] in Hnone.
    + rewrite Holder. destruct older as [[| stale] |]; [discriminate | |].
      * cbn [Cache.JSON_parse]. rewrite Hnone.
        cbn [fst snd Cache.localStorage Cache.memoryCache].
        rewrite !lookup_delete_eq. auto.
      * cbn [fst snd Cache.localStorage Cache.memoryCache].
        rewrite lookup_delete_eq, Holder. auto.
    + rewrite lookup_insert_eq. cbn [Cache.JSON_parse]. unfold Cache.unexpired, Spec.entry.
      cbn [Cache.expiry].
      destruct (Z.ltb_spec t' (t + ttl)); [lia |].
      cbn [fst snd Cache.localStorage Cache.memoryCache].
      rewrite !lookup_delete_eq. auto.
  - intros Hexp -> stale -> Hlive. rewrite (Hread Hexp).
    unfold Cache.get_stored. cbn [Cache.localStorage Cache.memoryCache].
    rewrite Holder. cbn [Cache.JSON_parse]. rewrite Hlive. reflexivity.
  - intros Hexp -> ->. rewrite (Hread Hexp).
    unfold Cache.get_stored. cbn [Cache.localStorage Cache.memoryCache].
    rewrite Holder. cbn [Cache.JSON_parse fst snd Cache.localStorage Cache.memoryCache].
    rewrite lookup_delete_eq, Holder. auto.
Qed.

(** The cases on the sample caches.  While there is room for nothing: a
    forecast for Davos is read before and after its expiry, and so is one
    for Chur, of which an older forecast is left; a forecast for Bern is
    set over a text that cannot be read.  With room: a forecast for Bern is
    set on an empty cache. *)
Lemma C4_ttl_witness :
  Cache.get "davos" 7
    (Cache.set Spec.two_items_quota "davos" "rain"%string (Some 10) 5 Spec.two_entries).2
  = (Some "rain"%string,
     (Cache.set Spec.two_items_quota "davos" "rain"%string (Some 10) 5 Spec.two_entries).2) /\
  (Cache.get "bern" 2000
     (Cache.set Spec.two_items_quota "bern" "clear"%string (Some 1000) 0 Spec.empty_cache).2).1
  = None /\
  (Spec.two_items_quota (Cache.localStorage Spec.two_entries) (Cache._generateKey "davos")
                        (Cache.JSON_stringify (Spec.entry "rain"%string 10 5)) = true /\
   (Cache.get "davos" 20
      (Cache.set Spec.two_items_quota "davos" "rain"%string (Some 10) 5 Spec.two_entries).2).1
   = None) /\
  (Cache.get "chur" 20
     (Cache.set Spec.two_items_quota "chur" "storm"%string (Some 10) 5 Spec.two_entries).2).1
  = Some "cloudy"%string /\
  Cache.localStorage
    (Cache.get "bern" 20
       (Cache.set Spec.two_items_quota "bern" "clear"%string (Some 10) 5
                  Spec.garbled_entry).2).2
    !! Cache._generateKey "bern"
  = Some Cache.Unparsable.
Proof.
  split; [| split; [| split; [| split]]].
  - apply (C4_ttl_expiry Spec.two_items_quota Spec.two_entries "davos" "rain"%string 10 5 7).
    lia.
  - apply (proj1 (proj2 (C4_ttl_expiry Spec.two_items_quota Spec.empty_cache
                           "bern" "clear"%string 1000 0 2000)));
      [lia | reflexivity].
  - split; [reflexivity |].
    apply (proj1 (proj2 (C4_ttl_expiry Spec.two_items_quota Spec.two_entries
                           "davos" "rain"%string 10 5 20)));
      [lia | vm_compute; reflexivity].
  - apply (proj1 (proj2 (proj2 (C4_ttl_expiry Spec.two_items_quota Spec.two_entries
                                  "chur" "storm"%string 10 5 20)))
             ltac:(lia) eq_refl
             {| Cache.data := "cloudy"%string; Cache.expiry := Some 1001;
                Cache.timestamp := Some 1 |}); vm_compute; reflexivity.
  - apply (proj2 (proj2 (proj2 (C4_ttl_expiry Spec.two_items_quota Spec.garbled_entry
                                  "bern" "clear"%string 10 5 20)))
             ltac:(lia) eq_refl).
    vm_compute. reflexivity.
Defined.

(** C4 as the specification states it fails when the storage is full: the
    forecast for Chur is set again at 5 to live 10 ms, the write to the
    durable tier is refused, the cleanup evicts Bern, and at 20 the read
    falls through to the earlier forecast for Chur, which lives until 1001. *)
Lemma C4_counterexample :
  ~ Spec.ttl_contract Spec.two_items_quota Spec.two_entries "chur" "storm"%string 10 5 20.
Proof.
  intros [_ Hexpired].
  assert (Hlate : 5 + 10 <= 20) by lia.
  destruct (Hexpired Hlate) as [Hnone _].
  vm_compute in Hnone. discriminate Hnone.
Qed.

(* ===================================================================== *)
(** * The feeds *)
(* ===================================================================== *)

Section Feeds.
Import Data Score Spec.

Variable quotaExceeded : gmap string (Cache.item payload) -> string -> Cache.item payload -> bool.

(** A failed fetch makes the [try] block of the seeing service throw. *)
Lemma astro_fetch_throws cacheKey now (net : Net.fetched (option Astro.RawData.t)) st :
  failed net ->
  Astro.fetch_and_process quotaExceeded cacheKey now net st
  = Throw (failure_of "7Timer API error: " net).
Proof.
  destruct net as [e | status json]; simpl; intros Hfail; [reflexivity |].
  rewrite Hfail. reflexivity.
Qed.

Lemma weather_fetch_throws cacheKey now (net : Net.fetched Weather.RawData.t) st :
  failed net ->
  Weather.fetch_and_process quotaExceeded cacheKey now net st
  = Throw (failure_of "Weather API error: " net).
Proof.
  destruct net as [e | status json]; simpl; intros Hfail; [reflexivity |].
  rewrite Hfail. reflexivity.
Qed.

(** With no seeing series the aligner finds nothing. *)
Lemma no_match_in_default now targetTime :
  App.findMatchingAstroData (Some (Astro._getDefaultAstroData now)) targetTime = None.
Proof. reflexivity. Qed.

Context `{Date.TimeZone}.

(** With the default seeing data and some weather hour the processing
    completes, on average seeing and transparency. *)
Lemma process_with_default_astro (weatherData : WeatherData.t) astronomicalData now now' state :
  WeatherData.hourly weatherData <> [] ->
  exists state' c,
    App.processWeatherData (Some weatherData) (Some (Astro._getDefaultAstroData now'))
                           astronomicalData now state = Normal state' /\
    App.State.conditions state' = Some c /\
    average_astro c /\
    App.State.score state' = Some (calculateScore c (App.State.photographyMode state)).
Proof.
  intros Hsome. unfold App.processWeatherData.
  destruct (WeatherData.hourly weatherData) as [| h rest] eqn:Hhourly; [congruence |].
  assert (Hcur : exists currentHour,
             (h :: rest) !! App.findCurrentHourIndex (h :: rest) now ∪ (h :: rest) !! 0%nat
             = Some currentHour).
  { destruct ((h :: rest) !! App.findCurrentHourIndex (h :: rest) now); simpl; eauto. }
  destruct Hcur as [currentHour ->].
  eexists _, _. split; [reflexivity |]. split; [reflexivity |].
  split; [| reflexivity]. unfold average_astro. simpl. auto.
Qed.

End Feeds.

(** C3: if the fetch of the seeing feed fails (the network rejects it or
    the response is not 2xx), [fetchAstroData] returns its default data,
    whatever else the cache holds; with the default data and any weather
    data that has an hour the fused conditions carry seeing 3,
    transparency 3 and the average labels, and the processing completes
    with a score; if the fetch of the weather feed fails,
    [fetchWeatherData] throws the error of the fetch to its caller.  A
    fetch is made when the cache has nothing live for the feed and the
    location; the two feeds may find different caches. *)
Theorem C3_feed_failures (zone : Date.TimeZone)
    (quotaExceeded : gmap string (Cache.item Data.payload) -> string
                     -> Cache.item Data.payload -> bool)
    (latitude longitude : Q) (now later : Z)
    (seeingFetch : Net.fetched (option Astro.RawData.t))
    (weatherFetch : Net.fetched Weather.RawData.t)
    (st st' : Cache.state Data.payload)
    (weatherData : Data.WeatherData.t) (astronomicalData : option Data.AstronomicalData.t)
    (state : App.State.t) :
  (Spec.failed seeingFetch ->
   (Cache.get (Spec.astro_key latitude longitude) now st).1 = None ->
   Astro.fetchAstroData quotaExceeded latitude longitude now seeingFetch st
   = (Normal (Data.OfAstro (Astro._getDefaultAstroData now)),
      (Cache.get (Spec.astro_key latitude longitude) now st).2)) /\
  (Data.WeatherData.hourly weatherData <> [] ->
   exists state' c,
     App.processWeatherData (Some weatherData) (Some (Astro._getDefaultAstroData now))
                            astronomicalData later state = Normal state' /\
     App.State.conditions state' = Some c /\
     Spec.average_astro c /\
     App.State.score state'
     = Some (Score.calculateScore c (App.State.photographyMode state))) /\
  (Spec.failed weatherFetch ->
   (Cache.get (Spec.weather_key latitude longitude) now st').1 = None ->
   Weather.fetchWeatherData quotaExceeded latitude longitude now weatherFetch st'
   = (Throw (Spec.failure_of "Weather API error: " weatherFetch),
      (Cache.get (Spec.weather_key latitude longitude) now st').2)).
Proof.
  split_and!.
  - intros Hfail Hmiss.
    unfold Astro.fetchAstroData. fold (Spec.astro_key latitude longitude).
    destruct (Cache.get (Spec.astro_key latitude longitude) now st) as [r st1].
    simpl in Hmiss. subst r. rewrite astro_fetch_throws by exact Hfail. reflexivity.
  - intros Hhours. apply process_with_default_astro. exact Hhours.
  - intros Hfail Hmiss.
    unfold Weather.fetchWeatherData. fold (Spec.weather_key latitude longitude).
    destruct (Cache.get (Spec.weather_key latitude longitude) now st') as [r st1].
    simpl in Hmiss. subst r. rewrite weather_fetch_throws by exact Hfail. reflexivity.
Qed.

(** Zurich at noon: the seeing feed is offline while the cache holds the
    weather, and the default data is returned and processed with that
    weather; the weather feed answers 503 on an empty cache. *)
Lemma C3_offline_witness :
  (Spec.failed (Net.Rejected (TypeError "Failed to fetch")
                : Net.fetched (option Astro.RawData.t)) /\
   (Cache.get (Spec.astro_key 47.3769 8.5417) 1769252400000 Spec.weather_in_cache).1 = None /\
   Astro.fetchAstroData Spec.no_quota 47.3769 8.5417 1769252400000
     (Net.Rejected (TypeError "Failed to fetch")) Spec.weather_in_cache
   = (Normal (Data.OfAstro (Astro._getDefaultAstroData 1769252400000)),
      (Cache.get (Spec.astro_key 47.3769 8.5417) 1769252400000 Spec.weather_in_cache).2)) /\
  (Data.WeatherData.hourly Spec.noon_weather <> [] /\
   exists state' c,
     @App.processWeatherData (Date.fixedOffset 60) (Some Spec.noon_weather)
        (Some (Astro._getDefaultAstroData 1769252400000)) None 1769252401000 Spec.blank_state
     = Normal state' /\
     App.State.conditions state' = Some c /\
     Spec.average_astro c /\
     App.State.score state'
     = Some (Score.calculateScore c (App.State.photographyMode Spec.blank_state))) /\
  (Spec.failed (Net.Responded 503 (Throw (SyntaxError "Unexpected token"))
                : Net.fetched Weather.RawData.t) /\
   (Cache.get (Spec.weather_key 47.3769 8.5417) 1769252400000 Spec.empty_payload_cache).1
   = None /\
   Weather.fetchWeatherData Spec.no_quota 47.3769 8.5417 1769252400000
     (Net.Responded 503 (Throw (SyntaxError "Unexpected token"))) Spec.empty_payload_cache
   = (Throw (Spec.failure_of "Weather API error: "
               (Net.Responded 503 (Throw (SyntaxError "Unexpected token"))
                : Net.fetched Weather.RawData.t)),
      (Cache.get (Spec.weather_key 47.3769 8.5417) 1769252400000
                 Spec.empty_payload_cache).2)).
Proof.
  assert (Hhours : Data.WeatherData.hourly Spec.noon_weather <> []) by discriminate.
  assert (Hmiss : (Cache.get (Spec.astro_key 47.3769 8.5417) 1769252400000
                             Spec.weather_in_cache).1 = None)
    by (vm_compute; reflexivity).
  pose proof (C3_feed_failures (Date.fixedOffset 60) Spec.no_quota 47.3769 8.5417
                1769252400000 1769252401000
                (Net.Rejected (TypeError "Failed to fetch"))
                (Net.Responded 503 (Throw (SyntaxError "Unexpected token")))
                Spec.weather_in_cache Spec.empty_payload_cache
                Spec.noon_weather None Spec.blank_state) as [Hseeing [Hgoes Hweather]].
  split; [| split].
  - split; [exact I |]. split; [exact Hmiss |]. exact (Hseeing I Hmiss).
  - split; [exact Hhours |]. exact (Hgoes Hhours).
  - split; [reflexivity |]. split; [reflexivity |]. exact (Hweather eq_refl eq_refl).
Defined.

(** With the weather in the cache and both feeds offline, the weather is
    served from the cache and the seeing data is the default. *)
Example cached_weather_default_seeing :
  (Weather.fetchWeatherData Spec.no_quota 47.3769 8.5417 1769252400000
     (Net.Rejected (TypeError "Failed to fetch")) Spec.weather_in_cache).1
  = Normal (Data.OfWeather Spec.noon_weather) /\
  (Astro.fetchAstroData Spec.no_quota 47.3769 8.5417 1769252400000
     (Net.Rejected (TypeError "Failed to fetch")) Spec.weather_in_cache).1
  = Normal (Data.OfAstro (Astro._getDefaultAstroData 1769252400000)).
Proof. split; vm_compute; reflexivity. Qed.

Example offline_keys_and_error :
  Spec.astro_key 47.3769 8.5417 = "astro_47.377_8.542"%string /\
  Spec.failure_of "Weather API error: "
    (Net.Responded 503 (Throw (SyntaxError "Unexpected token")) : Net.fetched Weather.RawData.t)
  = Error "Weather API error: 503".
Proof. split; vm_compute; reflexivity. Qed.

(* ===================================================================== *)
(** * The code on sample inputs *)
(* ===================================================================== *)

(** The clear-night scenario: cloud cover 10, humidity 40, wind 5, seeing
    and transparency 5, a new moon below the horizon, deep-sky mode. *)
Example clear_night_scenario :
  let c := {| Score.Conditions.timestamp := None;
              Score.Conditions.cloudCover := number 10;
              Score.Conditions.cloudCoverMin := undefined;
              Score.Conditions.cloudCoverMax := undefined;
              Score.Conditions.cloudCoverConfidence := None;
              Score.Conditions.seeing := number 5;
              Score.Conditions.seeingLabel := None;
              Score.Conditions.transparency := number 5;
              Score.Conditions.transparencyLabel := None;
              Score.Conditions.temperature := undefined;
              Score.Conditions.humidity := number 40;
              Score.Conditions.windSpeed := number 5;
              Score.Conditions.windDirectionLabel := None;
              Score.Conditions.moonPhase := undefined;
              Score.Conditions.moonIllumination := number 0;
              Score.Conditions.moonPhaseName := None;
              Score.Conditions.isMoonUp := false;
              Score.Conditions.sunrise := None;
              Score.Conditions.sunset := None |} in
  let r := Score.calculateScore c (Some "deep-sky"%string) in
  Score.Result.overallScore r = Fin 96 /\
  Score.Result.scoreRating r = "perfect"%string /\
  Score.Result.warnings r = [].
Proof. vm_compute. auto. Qed.

(** The bad night with a temperature of 3 degrees: the fog warning is high,
    and the wind is written into its message. *)
Example bad_night_cold :
  map (fun w => (Score.Warning.type w, Score.Warning.severity w))
      (Score.Result.warnings
         (Score.calculateScore (Spec.bad_night (number 3)) (Some "general"%string)))
  = [("fog-risk", "high"); ("high-wind", "high"); ("clouds", "high");
     ("moon-bright", "medium")]%string /\
  In "Starker Wind (35 km/h): Stativstabilität gefährdet"%string
     (map Score.Warning.message
          (Score.Result.warnings
             (Score.calculateScore (Spec.bad_night (number 3)) (Some "general"%string)))).
Proof. split; vm_compute; auto. Qed.

(** The tables of the normalizer. *)
Example cloud_cover_midpoints :
  Astro._convertCloudCover (number 1) = 3%Q /\
  Astro._convertCloudCover (number 5) = 50%Q /\
  Astro._convertCloudCover (number 9) = 97%Q /\
  Astro._convertCloudCover (number 10) = 50%Q /\
  Astro._convertCloudCover undefined = 50%Q.
Proof. repeat split; reflexivity. Qed.

Example transparency_table :
  map (fun k => Astro._convertTransparency (number (inject_Z k))) [1; 2; 3; 4; 5; 6; 7; 8]
  = [1; 2; 2; 3; 4; 4; 5; 5]%Q.
Proof. reflexivity. Qed.

Example humidity_and_wind_codes :
  Astro._convertHumidity (number (-4)) = 5%Q /\
  Astro._convertHumidity (number 16) = 100%Q /\
  Astro._convertHumidity (number 17) = 50%Q /\
  Astro._convertWindSpeed (number 8) = 59%Q /\
  Astro._convertWindSpeed undefined = 0%Q.
Proof. repeat split; reflexivity. Qed.

Example wind_direction_labels :
  map (fun d => Weather._getWindDirectionLabel (number d)) [0; 44; 90; 200; 350; 360]%Q
  = [Some "N"; Some "NE"; Some "E"; Some "S"; Some "N"; Some "N"]%string.
Proof. vm_compute. reflexivity. Qed.

(** The init stamp of the seeing feed and the first entry after it. *)
Example init_time_parsed :
  Astro._parseInitTime (Some "2026012400"%string) 0 = Some 1769212800000 /\
  Date.civil_from_days (Date.Day 1769212800000)
  = {| Date.year := 2026; Date.month := 1; Date.day := 24 |}.
Proof. split; vm_compute; reflexivity. Qed.

(** A response of the seeing feed with one entry, on an empty cache: the
    entry is processed, and both tiers receive the data. *)
Example seeing_feed_processed :
  let raw := {| Astro.RawData.init := Some "2026012400"%string;
                Astro.RawData.dataseries :=
                  Some [ {| Astro.RawEntry.timepoint := Some 3;
                            Astro.RawEntry.seeing := number 2;
                            Astro.RawEntry.transparency := number 7;
                            Astro.RawEntry.cloudcover := number 1;
                            Astro.RawEntry.lifted_index := number 2;
                            Astro.RawEntry.rh2m := number 3;
                            Astro.RawEntry.wind10m := None |} ] |} in
  let r := Astro.fetchAstroData Spec.no_quota 47.3769 8.5417 1769212800000
             (Net.Responded 200 (Normal (Some raw))) Spec.empty_payload_cache in
  match r.1 with
  | Normal (Data.OfAstro d) =>
      map (fun h => (Data.AstroHour.timestamp h, Data.AstroHour.seeing h,
                     Data.AstroHour.transparencyLabel h))
          (Data.AstroData.hourly d)
      = [(1769223600000, number 5, "Ausgezeichnet"%string)]
  | _ => False
  end /\
  match (Cache.get "astro_47.377_8.542" 1769212800001 r.2).1, r.1 with
  | Some cached, Normal fetched => cached = fetched
  | _, _ => False
  end /\
  Cache.Object_keys (Cache.localStorage r.2) = ["astroweather_cache_astro_47.377_8.542"%string].
Proof. split; [| split]; vm_compute; reflexivity. Qed.

(* ===================================================================== *)
(** * More on the score *)
(* ===================================================================== *)

(** Case analysis on the comparisons of the goal, innermost first, so that
    each one is recorded as an order between terms without conditionals. *)
Ltac qcases :=
  repeat match goal with
         | |- context [Qle_bool ?a ?b] =>
             lazymatch a with
             | context [if _ then _ else _] => fail
             | _ => lazymatch b with
                    | context [if _ then _ else _] => fail
                    | _ => destruct (Qle_bool a b) eqn:?
                    end
             end
         | |- context [Qeq_bool ?a ?b] =>
             lazymatch a with
             | context [if _ then _ else _] => fail
             | _ => lazymatch b with
                    | context [if _ then _ else _] => fail
                    | _ => destruct (Qeq_bool a b) eqn:?
                    end
             end
         end.

Section MoreScore.
Import Score Spec.

Lemma roundQ_mono (x y : Q) : (x <= y)%Q -> Math.roundQ x <= Math.roundQ y.
Proof. intros Hxy. unfold Math.roundQ. apply Qfloor_resp_le. lra. Qed.

Lemma roundQ_range (x : Q) : (0 <= x <= 100)%Q -> 0 <= Math.roundQ x <= 100.
Proof.
  intros [Hlo Hhi]. split.
  - change 0 with (Math.roundQ 0). apply roundQ_mono. exact Hlo.
  - change 100 with (Math.roundQ 100). apply roundQ_mono. exact Hhi.
Qed.

(** The weights of a proper mode: one of the four profiles. *)
Lemma lookup_weights_proper (mode : string) :
  inherited_name mode = false ->
  In (lookup_weights mode) [weights_general; weights_deep_sky; weights_planetary; weights_milky_way].
Proof.
  intros Hinh. unfold lookup_weights, MODE_WEIGHTS_own. rewrite Hinh.
  repeat match goal with |- context [String.eqb ?a ?b] => destruct (String.eqb a b) end;
    simpl; tauto.
Qed.

(** The five sub-scores are numbers, whatever the conditions. *)
Lemma subscores_finite (c : Conditions.t) :
  exists a b t m h,
    _calculateCloudScore (Conditions.cloudCover c) = Fin a /\
    _calculateSeeingScore (Conditions.seeing c) = Fin b /\
    _calculateTransparencyScore (Conditions.transparency c) = Fin t /\
    _calculateMoonScore (Conditions.moonIllumination c) (Conditions.isMoonUp c) = Fin m /\
    _calculateHumidityScore (Conditions.humidity c) = Fin h.
Proof.
  destruct (within_finite _ _ _ (cloud_score_within (Conditions.cloudCover c))) as [a Ha].
  destruct (seeing_score_upper (Conditions.seeing c)) as [b [Hb _]].
  destruct (seeing_score_upper (Conditions.transparency c)) as [t [Ht _]].
  destruct (moon_score_finite (Conditions.moonIllumination c) (Conditions.isMoonUp c)) as [m Hm].
  destruct (within_finite _ _ _ (humidity_score_within (Conditions.humidity c))) as [h Hh].
  exists a, b, t, m, h. auto.
Qed.

(** The overall score of a proper mode: the rounded sum of the sub-scores
    under weights that are not negative and add up to 1. *)
Lemma overall_score_weighted (c : Conditions.t) (mode : option string) a b t m h :
  proper_mode mode ->
  _calculateCloudScore (Conditions.cloudCover c) = Fin a ->
  _calculateSeeingScore (Conditions.seeing c) = Fin b ->
  _calculateTransparencyScore (Conditions.transparency c) = Fin t ->
  _calculateMoonScore (Conditions.moonIllumination c) (Conditions.isMoonUp c) = Fin m ->
  _calculateHumidityScore (Conditions.humidity c) = Fin h ->
  exists wc ws wt wm wh : Q,
    (0 <= wc /\ 0 <= ws /\ 0 <= wt /\ 0 <= wm /\ 0 <= wh /\ wc + ws + wt + wm + wh == 1)%Q /\
    lookup_weights (default "general"%string mode)
    = {| Weights.cloudCover := number wc; Weights.seeing := number ws;
         Weights.transparency := number wt; Weights.moonPhase := number wm;
         Weights.humidity := number wh |} /\
    Result.overallScore (calculateScore c mode)
    = Fin (inject_Z (Math.roundQ (a * wc + b * ws + t * wt + m * wm + h * wh))).
Proof.
  intros Hmode Ha Hb Ht Hm Hh.
  pose proof (lookup_weights_proper _ Hmode) as Hw.
  unfold calculateScore. cbn [Result.overallScore].
  rewrite Ha, Hb, Ht, Hm, Hh.
  destruct Hw as [<- | [<- | [<- | [<- | []]]]]; cbn;
    do 5 eexists; (split; [| split; reflexivity]); lra.
Qed.

End MoreScore.

(** With a proper mode and inputs in their ranges the overall score is a
    whole number from 0 to 100. *)
Lemma overall_score_whole (c : Score.Conditions.t) (mode : option string) :
  Spec.proper_mode mode -> Spec.in_domain c ->
  Spec.whole_score (Score.Result.overallScore (Score.calculateScore c mode)).
Proof.
  intros Hmode (Hs & Ht & Hm).
  pose proof (cloud_score_within (Score.Conditions.cloudCover c)) as Ha.
  pose proof (seeing_score_within _ Hs) as Hb.
  pose proof (seeing_score_within _ Ht) as Hb'. rewrite <- transparency_score_eq in Hb'.
  pose proof (moon_score_within _ (Score.Conditions.isMoonUp c) Hm) as Hmo.
  pose proof (humidity_score_within (Score.Conditions.humidity c)) as Hh.
  destruct (within_finite _ _ _ Ha) as [a Ea]. destruct (within_finite _ _ _ Hb) as [b Eb].
  destruct (within_finite _ _ _ Hb') as [t Et]. destruct (within_finite _ _ _ Hmo) as [m Em].
  destruct (within_finite _ _ _ Hh) as [h Eh].
  rewrite Ea in Ha. rewrite Eb in Hb. rewrite Et in Hb'. rewrite Em in Hmo. rewrite Eh in Hh.
  simpl in Ha, Hb, Hb', Hmo, Hh.
  destruct (overall_score_weighted c mode a b t m h Hmode Ea Eb Et Em Eh)
    as (wc & ws & wt & wm & wh & Hw & _ & ->).
  eexists. split; [reflexivity |]. apply roundQ_range. nra.
Qed.

(** X1: for a mode that names one of the four profiles (or none, or any
    string that is not a member of [Object.prototype]) and conditions whose
    seeing and transparency ratings are not negative and whose moon
    illumination is a percentage, the overall score is a whole number from
    0 to 100. *)
Theorem X1_overall_score_in_range (c : Score.Conditions.t) (mode : option string) :
  Spec.proper_mode mode -> Spec.in_domain c ->
  Spec.whole_score (Score.Result.overallScore (Score.calculateScore c mode)).
Proof.
  intros Hmode (Hseeing & Htransparency & Hmoon).
  destruct (subscores_finite c) as (a & b & t & m & h & Ea & Eb & Et & Em & Eh).
  pose proof (cloud_score_within (Score.Conditions.cloudCover c)) as Ha.
  pose proof (seeing_score_within _ Hseeing) as Hb.
  pose proof (seeing_score_within _ Htransparency) as Ht.
  rewrite <- transparency_score_eq in Ht.
  pose proof (moon_score_within _ (Score.Conditions.isMoonUp c) Hmoon) as Hm.
  pose proof (humidity_score_within (Score.Conditions.humidity c)) as Hh.
  rewrite Ea in Ha. rewrite Eb in Hb. rewrite Et in Ht. rewrite Em in Hm. rewrite Eh in Hh.
  simpl in Ha, Hb, Ht, Hm, Hh.
  destruct (overall_score_weighted c mode a b t m h Hmode Ea Eb Et Em Eh)
    as (wc & ws & wt & wm & wh & Hweights & _ & ->).
  exists (Math.roundQ (a * wc + b * ws + t * wt + m * wm + h * wh)).
  split; [reflexivity |]. apply roundQ_range. nra.
Qed.


(** A closed instance: the fair night under the planetary profile. *)
Lemma X1_overall_score_in_range_witness :
  Spec.proper_mode (Some "planetary"%string) /\ Spec.in_domain Spec.fair_night /\
  Spec.whole_score
    (Score.Result.overallScore (Score.calculateScore Spec.fair_night (Some "planetary"%string))).
Proof.
  assert (Hmode : Spec.proper_mode (Some "planetary"%string)) by reflexivity.
  assert (Hdom : Spec.in_domain Spec.fair_night) by (cbv; intuition discriminate).
  split; [exact Hmode |]. split; [exact Hdom |].
  exact (X1_overall_score_in_range Spec.fair_night (Some "planetary"%string) Hmode Hdom).
Defined.

(** X2: the score uncertainty is one of 0, 5, 10, 15 and 20 for every
    conditions object, never NaN, and it is above 0 only when both bounds
    of the cloud cover are numbers more than 5 apart. *)
Theorem X2_uncertainty_steps (c : Score.Conditions.t) :
  exists u : Z,
    Score._calculateUncertainty c = Fin (inject_Z u) /\ In u [0; 5; 10; 15; 20] /\
    (u = 0 \/
     exists lo hi : Q,
       ToNumber (Score.Conditions.cloudCoverMin c) = Fin lo /\
       ToNumber (Score.Conditions.cloudCoverMax c) = Fin hi /\ (5 < hi - lo)%Q).
Proof.
  unfold Score._calculateUncertainty.
  destruct (ToNumber (Score.Conditions.cloudCoverMax c)) as [| hi];
    [exists 0; simpl; tauto |].
  destruct (ToNumber (Score.Conditions.cloudCoverMin c)) as [| lo];
    [exists 0; simpl; tauto |].
  unfold or_else, truthy_num, sub, lift2, gt, lt, cmp, Qltb.
  destruct (Qeq_bool (hi - lo) 0) eqn:Ez; simpl.
  - exists 0. simpl. tauto.
  - destruct (Qle_bool (hi - lo) 40) eqn:E40; simpl;
      [| exists 20; qorder; split; [reflexivity | split; [simpl; tauto |]];
         right; exists lo, hi; repeat split; lra].
    destruct (Qle_bool (hi - lo) 25) eqn:E25; simpl;
      [| exists 15; qorder; split; [reflexivity | split; [simpl; tauto |]];
         right; exists lo, hi; repeat split; lra].
    destruct (Qle_bool (hi - lo) 15) eqn:E15; simpl;
      [| exists 10; qorder; split; [reflexivity | split; [simpl; tauto |]];
         right; exists lo, hi; repeat split; lra].
    destruct (Qle_bool (hi - lo) 5) eqn:E5; simpl;
      [exists 0; simpl; tauto
      | exists 5; qorder; split; [reflexivity | split; [simpl; tauto |]];
        right; exists lo, hi; repeat split; lra].
Qed.


Section MoreWarnings.
Import Score Spec.

(** What each rule contributes: nothing, or one warning of its type. *)
Lemma warnings_shape (c : Conditions.t) :
  exists fog wind clouds moonw conf : bool,
    map Warning.type (_generateWarnings c)
    = (if fog then ["fog-risk"] else []) ++ (if wind then ["high-wind"] else [])
      ++ (if clouds then ["clouds"] else []) ++ (if moonw then ["moon-bright"] else [])
      ++ (if conf then ["low-confidence"] else [])
    /\ fog = ge (ToNumber (Conditions.humidity c)) (Fin 75)
    /\ wind = ge (ToNumber (Conditions.windSpeed c)) (Fin 20)
    /\ clouds = ge (ToNumber (Conditions.cloudCover c)) (Fin 40)
    /\ moonw = Conditions.isMoonUp c && ge (ToNumber (Conditions.moonIllumination c)) (Fin 70)
    /\ conf = bool_decide (Conditions.cloudCoverConfidence c = Some "low"%string).
Proof.
  exists (ge (ToNumber (Conditions.humidity c)) (Fin 75)),
         (ge (ToNumber (Conditions.windSpeed c)) (Fin 20)),
         (ge (ToNumber (Conditions.cloudCover c)) (Fin 40)),
         (Conditions.isMoonUp c && ge (ToNumber (Conditions.moonIllumination c)) (Fin 70)),
         (bool_decide (Conditions.cloudCoverConfidence c = Some "low"%string)).
  split; [| repeat split].
  unfold _generateWarnings. rewrite !map_app. f_equal; [| f_equal; [| f_equal; [| f_equal]]].
  - destruct (ToNumber (Conditions.humidity c)) as [| h]; [reflexivity |].
    unfold ge, le, cmp.
    destruct (Qle_bool 85 h) eqn:E85, (Qle_bool 75 h) eqn:E75; qorder; try lra;
      destruct (ToNumber (Conditions.temperature c)) as [| t]; simpl; try reflexivity;
      destruct (Qle_bool t 5); reflexivity.
  - destruct (ToNumber (Conditions.windSpeed c)) as [| w]; [reflexivity |].
    unfold ge, le, cmp.
    destruct (Qle_bool 30 w) eqn:E30, (Qle_bool 20 w) eqn:E20; qorder; try lra; reflexivity.
  - destruct (ToNumber (Conditions.cloudCover c)) as [| w]; [reflexivity |].
    unfold ge, le, cmp.
    destruct (Qle_bool 70 w) eqn:E70, (Qle_bool 40 w) eqn:E40; qorder; try lra; reflexivity.
  - destruct (_ && _); reflexivity.
  - destruct (Conditions.cloudCoverConfidence c) as [conf |]; [| reflexivity].
    destruct (String.eqb_spec conf "low") as [-> | Hne]; [reflexivity |].
    rewrite bool_decide_eq_false_2 by congruence. reflexivity.
Qed.

End MoreWarnings.

(** X3: the warnings follow the rules.  The types of the warnings of any
    conditions are, in the order fog-risk, high-wind, clouds, moon-bright,
    low-confidence, exactly those whose rule lets a warning in: humidity at
    least 75, wind at least 20, cloud cover at least 40, the moon risen
    with an illumination of at least 70, a confidence that is low; a
    reading that is missing lets none in.  So the types are pairwise
    different, there are at most five warnings, and there is none exactly
    when no rule fires. *)
Theorem X3_warnings_follow_the_rules (c : Score.Conditions.t) :
  map Score.Warning.type (Score._generateWarnings c)
  = map fst (List.filter snd (Spec.warning_rules c)) /\
  sublist (map Score.Warning.type (Score._generateWarnings c)) Spec.warning_types /\
  NoDup (map Score.Warning.type (Score._generateWarnings c)) /\
  (length (Score._generateWarnings c) <= 5)%nat /\
  (Score._generateWarnings c = [] <-> Forall (fun rule => rule.2 = false) (Spec.warning_rules c)).
Proof.
  destruct (warnings_shape c) as (fog & wind & clouds & moonw & conf & Hshape & Hf & Hw & Hc & Hm & Hl).
  assert (Hrules : Spec.warning_rules c
                   = [("fog-risk"%string, fog); ("high-wind"%string, wind);
                      ("clouds"%string, clouds); ("moon-bright"%string, moonw);
                      ("low-confidence"%string, conf)]).
  { unfold Spec.warning_rules. rewrite <- Hf, <- Hw, <- Hc, <- Hm, <- Hl. reflexivity. }
  assert (Hsub : sublist (map Score.Warning.type (Score._generateWarnings c)) Spec.warning_types).
  { rewrite Hshape. unfold Spec.warning_types.
    destruct fog, wind, clouds, moonw, conf; simpl;
      repeat first [apply sublist_nil | apply sublist_skip | apply sublist_cons]. }
  split; [rewrite Hshape, Hrules; destruct fog, wind, clouds, moonw, conf; reflexivity |].
  split; [exact Hsub |]. split; [| split].
  - eapply sublist_NoDup; [| exact Hsub].
    unfold Spec.warning_types. apply NoDup_ListNoDup.
    repeat (constructor; [simpl; intuition discriminate |]). constructor.
  - rewrite <- (length_map Score.Warning.type). apply sublist_length in Hsub. exact Hsub.
  - rewrite Hrules. split.
    + intros Hnil. rewrite Hnil in Hshape. simpl in Hshape.
      destruct fog, wind, clouds, moonw, conf; try discriminate Hshape.
      repeat constructor.
    + intros Hall. clear Hf Hw Hc Hm Hl Hrules Hsub.
      apply Forall_cons in Hall. destruct Hall as [H1 Hall].
      apply Forall_cons in Hall. destruct Hall as [H2 Hall].
      apply Forall_cons in Hall. destruct Hall as [H3 Hall].
      apply Forall_cons in Hall. destruct Hall as [H4 Hall].
      apply Forall_cons in Hall. destruct Hall as [H5 _].
      simpl in H1, H2, H3, H4, H5. rewrite H1, H2, H3, H4, H5 in Hshape. simpl in Hshape.
      destruct (Score._generateWarnings c); [reflexivity | discriminate Hshape].
Qed.


Section MoreScoreOrder.
Import Score Spec.

Lemma stars_monotone (a b : Q) : (a <= b)%Q -> getStars (Fin a) <= getStars (Fin b).
Proof.
  intros Hab. unfold getStars, ge, le, cmp.
  qsplit; qorder; try lia; lra.
Qed.

(** Each sub-score goes down, or stays, as its input gets worse. *)
Lemma cloud_score_antitone (x y : Q) :
  (x <= y)%Q -> num_le (_calculateCloudScore (number y)) (_calculateCloudScore (number x)).
Proof.
  intros Hxy. unfold _calculateCloudScore, Math.max, Math.min, sub, lift2. simpl.
  qcases; qorder; simpl; lra.
Qed.

Lemma humidity_score_antitone (x y : Q) :
  (x <= y)%Q -> num_le (_calculateHumidityScore (number y)) (_calculateHumidityScore (number x)).
Proof.
  intros Hxy. unfold _calculateHumidityScore, le, cmp. simpl.
  qcases; qorder; simpl; lra.
Qed.

Lemma moon_score_antitone (x y : Q) (isMoonUp : bool) :
  (x <= y)%Q ->
  num_le (_calculateMoonScore (number y) isMoonUp) (_calculateMoonScore (number x) isMoonUp).
Proof.
  intros Hxy. unfold _calculateMoonScore, Math.max, sub, mul, lift2.
  destruct isMoonUp; simpl; qcases; qorder; simpl; lra.
Qed.

Lemma seeing_score_monotone (x y : Q) :
  (1 <= x)%Q -> (x <= y)%Q ->
  num_le (_calculateSeeingScore (number x)) (_calculateSeeingScore (number y)).
Proof.
  intros Hx Hxy. unfold _calculateSeeingScore, Math.min, mul, lift2. simpl.
  destruct (Qeq_bool x 0) eqn:Ex; [qorder; lra |].
  destruct (Qeq_bool y 0) eqn:Ey; [qorder; lra |].
  simpl. qcases; qorder; simpl; lra.
Qed.

(** The fallback rating of the application is the rating of the score
    service. *)
Lemma rating_ladders_agree (score : num) : App.getScoreRating score = _getScoreRating score.
Proof. reflexivity. Qed.

End MoreScoreOrder.

(** X4: worse conditions never score higher: if cloud cover, humidity and moon
    illumination are no lower, the moon is as risen as before, and the
    seeing and transparency ratings are at least 1 and no higher, then
    under any proper mode the overall score is no higher, and so is the
    number of stars. *)
Theorem X4_worse_conditions_score_no_higher (c c' : Score.Conditions.t) (mode : option string) :
  Spec.proper_mode mode -> Spec.no_better c c' ->
  Spec.num_le (Score.Result.overallScore (Score.calculateScore c' mode))
              (Score.Result.overallScore (Score.calculateScore c mode)) /\
  Score.getStars (Score.Result.overallScore (Score.calculateScore c' mode))
  <= Score.getStars (Score.Result.overallScore (Score.calculateScore c mode)).
Proof.
  intros Hmode (Hcc & Hhum & Hmoon & Hup & Hs1 & Hs & Ht1 & Ht).
  destruct (subscores_finite c) as (a & b & t & m & h & Ea & Eb & Et & Em & Eh).
  destruct (subscores_finite c') as (a' & b' & t' & m' & h' & Ea' & Eb' & Et' & Em' & Eh').
  assert (Ha : (a' <= a)%Q).
  { destruct (Score.Conditions.cloudCover c) as [| | x]; try contradiction.
    destruct (Score.Conditions.cloudCover c') as [| | y]; try contradiction.
    pose proof (cloud_score_antitone x y Hcc) as Hle. rewrite Ea, Ea' in Hle. exact Hle. }
  assert (Hh : (h' <= h)%Q).
  { destruct (Score.Conditions.humidity c) as [| | x]; try contradiction.
    destruct (Score.Conditions.humidity c') as [| | y]; try contradiction.
    pose proof (humidity_score_antitone x y Hhum) as Hle. rewrite Eh, Eh' in Hle. exact Hle. }
  assert (Hm : (m' <= m)%Q).
  { destruct (Score.Conditions.moonIllumination c) as [| | x]; try contradiction.
    destruct (Score.Conditions.moonIllumination c') as [| | y]; try contradiction.
    rewrite Hup in Em.
    pose proof (moon_score_antitone x y (Score.Conditions.isMoonUp c') Hmoon) as Hle.
    rewrite Em, Em' in Hle. exact Hle. }
  assert (Hb : (b' <= b)%Q).
  { destruct (Score.Conditions.seeing c) as [| | x]; try (destruct (Score.Conditions.seeing c'); contradiction).
    destruct (Score.Conditions.seeing c') as [| | y]; try contradiction.
    pose proof (seeing_score_monotone y x Hs1 Hs) as Hle. rewrite Eb, Eb' in Hle. exact Hle. }
  assert (Htt : (t' <= t)%Q).
  { rewrite transparency_score_eq in Et, Et'.
    destruct (Score.Conditions.transparency c) as [| | x];
      try (destruct (Score.Conditions.transparency c'); contradiction).
    destruct (Score.Conditions.transparency c') as [| | y]; try contradiction.
    pose proof (seeing_score_monotone y x Ht1 Ht) as Hle. rewrite Et, Et' in Hle. exact Hle. }
  destruct (overall_score_weighted c mode a b t m h Hmode Ea Eb Et Em Eh)
    as (wc & ws & wt & wm & wh & Hw & Hlook & ->).
  destruct (overall_score_weighted c' mode a' b' t' m' h' Hmode Ea' Eb' Et' Em' Eh')
    as (wc' & ws' & wt' & wm' & wh' & _ & Hlook' & ->).
  rewrite Hlook in Hlook'. injection Hlook' as <- <- <- <- <-.
  assert (Hround : Math.roundQ (a' * wc + b' * ws + t' * wt + m' * wm + h' * wh)
                   <= Math.roundQ (a * wc + b * ws + t * wt + m * wm + h * wh)).
  { apply roundQ_mono. nra. }
  split.
  - simpl. rewrite <- Zle_Qle. exact Hround.
  - apply stars_monotone. rewrite <- Zle_Qle. exact Hround.
Qed.

(** The bad night of the scenario is no better than the fair night. *)
Lemma X4_worse_conditions_score_no_higher_witness :
  Spec.proper_mode (Some "deep-sky"%string) /\
  Spec.no_better Spec.fair_night (Spec.bad_night (number 2)) /\
  Spec.num_le
    (Score.Result.overallScore (Score.calculateScore (Spec.bad_night (number 2)) (Some "deep-sky"%string)))
    (Score.Result.overallScore (Score.calculateScore Spec.fair_night (Some "deep-sky"%string))) /\
  Score.getStars
    (Score.Result.overallScore (Score.calculateScore (Spec.bad_night (number 2)) (Some "deep-sky"%string)))
  <= Score.getStars
       (Score.Result.overallScore (Score.calculateScore Spec.fair_night (Some "deep-sky"%string))).
Proof.
  assert (Hmode : Spec.proper_mode (Some "deep-sky"%string)) by reflexivity.
  assert (Hworse : Spec.no_better Spec.fair_night (Spec.bad_night (number 2))).
  { unfold Spec.no_better. simpl. unfold Qle. simpl. repeat split; lia. }
  split; [exact Hmode |]. split; [exact Hworse |].
  exact (X4_worse_conditions_score_no_higher Spec.fair_night (Spec.bad_night (number 2))
           (Some "deep-sky"%string) Hmode Hworse).
Defined.

(* ===================================================================== *)
(** * More on the cache *)
(* ===================================================================== *)

Section MoreCache.
Import Cache Spec.
Context {V : Type}.
Implicit Types (store : gmap string (item V)) (st : state V) (k key : string).

Lemma append_inj_prefix (p s t : string) : p +:+ s = p +:+ t -> s = t.
Proof.
  induction p as [| a p IH]; [rewrite !append_nil; trivial |].
  rewrite !append_cons. intros Heq. injection Heq as Heq. apply IH, Heq.
Qed.

Lemma generateKey_inj key key' : _generateKey key = _generateKey key' -> key = key'.
Proof. apply append_inj_prefix. Qed.

Lemma prefix_append (p s : string) : String.prefix p (p +:+ s) = true.
Proof.
  induction p as [| a p IH]; [rewrite append_nil; destruct s; reflexivity |].
  rewrite append_cons. simpl. destruct (ascii_dec a a); [exact IH | congruence].
Qed.

Lemma generateKey_prefixed key : startsWith CACHE_PREFIX (_generateKey key) = true.
Proof. apply prefix_append. Qed.

(** A read looks at nothing but the entries of its own key. *)
Lemma get_local st st' key now :
  memoryCache st !! _generateKey key = memoryCache st' !! _generateKey key ->
  localStorage st !! _generateKey key = localStorage st' !! _generateKey key ->
  (get key now st).1 = (get key now st').1.
Proof.
  intros Hm Hl. unfold get. rewrite <- Hm.
  assert (Hstored : forall s s' : state V,
             localStorage s !! _generateKey key = localStorage s' !! _generateKey key ->
             (get_stored (_generateKey key) now s).1 = (get_stored (_generateKey key) now s').1).
  { intros s s' Hs. unfold get_stored. rewrite <- Hs.
    destruct (localStorage s !! _generateKey key) as [[| c] |]; simpl; try reflexivity.
    destruct (unexpired now c); reflexivity. }
  destruct (memoryCache st !! _generateKey key) as [c |].
  - destruct (unexpired now c); [reflexivity |]. apply Hstored. exact Hl.
  - apply Hstored. exact Hl.
Qed.

Lemma lookup_foldl_delete_keys store (l : list string) k :
  foldl (fun s k' => delete k' s) store l !! k
  = if bool_decide (k ∈ l) then None else store !! k.
Proof.
  revert store. induction l as [| e l IH]; intros store; [reflexivity |].
  cbn [foldl]. rewrite IH. clear IH. destruct (decide (k = e)) as [-> | Hne].
  - rewrite lookup_delete_eq.
    rewrite (bool_decide_eq_true_2 (e ∈ e :: l)) by apply list_elem_of_here.
    destruct (bool_decide _); reflexivity.
  - rewrite lookup_delete_ne by congruence.
    apply (f_equal (fun b : bool => if b then None else store !! k)).
    apply bool_decide_ext. rewrite elem_of_cons. tauto.
Qed.

Lemma elem_of_Object_keys store k : k ∈ Object_keys store <-> is_Some (store !! k).
Proof.
  unfold Object_keys. rewrite list_elem_of_fmap. split.
  - intros ([k' v] & -> & Hin). apply elem_of_map_to_list in Hin. eauto.
  - intros [v Hv]. exists (k, v). split; [reflexivity | apply elem_of_map_to_list, Hv].
Qed.

(** What [clear] leaves of the durable tier. *)
Lemma clear_lookup st k :
  localStorage (clear st) !! k
  = if startsWith CACHE_PREFIX k then None else localStorage st !! k.
Proof.
  unfold clear. cbn [localStorage]. rewrite lookup_foldl_delete_keys.
  destruct (startsWith CACHE_PREFIX k) eqn:Hk.
  - case_bool_decide as Hin; [reflexivity |].
    destruct (localStorage st !! k) as [v |] eqn:Hv; [| reflexivity].
    exfalso. apply Hin. apply list_elem_of_filter. split; [exact Hk |].
    apply elem_of_Object_keys. eauto.
  - rewrite bool_decide_eq_false_2; [reflexivity |].
    intros Hin. apply list_elem_of_filter in Hin. destruct Hin as [Hp _]. congruence.
Qed.

(** A read of a key neither tier has is a miss that changes nothing. *)
Lemma get_absent st key now :
  memoryCache st !! _generateKey key = None ->
  localStorage st !! _generateKey key = None ->
  get key now st = (None, st).
Proof. intros Hm Hl. unfold get, get_stored. rewrite Hm, Hl. reflexivity. Qed.

End MoreCache.

(** X5: after [remove(key)] neither tier has the key and a [get(key)] at any
    time is a miss that changes nothing; what a [get] of another key
    returns is what it returned before. *)
Theorem X5_remove_then_miss {V : Type} (st : Cache.state V) (key key' : string) (now : Z) :
  key' <> key ->
  Cache.memoryCache (Cache.remove key st) !! Cache._generateKey key = None /\
  Cache.localStorage (Cache.remove key st) !! Cache._generateKey key = None /\
  Cache.get key now (Cache.remove key st) = (None, Cache.remove key st) /\
  (Cache.get key' now (Cache.remove key st)).1 = (Cache.get key' now st).1.
Proof.
  intros Hne.
  assert (Hm : Cache.memoryCache (Cache.remove key st) !! Cache._generateKey key = None)
    by apply lookup_delete_eq.
  assert (Hl : Cache.localStorage (Cache.remove key st) !! Cache._generateKey key = None)
    by apply lookup_delete_eq.
  split_and!; [exact Hm | exact Hl | apply get_absent; assumption |].
  assert (Hck : Cache._generateKey key <> Cache._generateKey key').
  { intros Heq. apply Hne. symmetry. apply generateKey_inj, Heq. }
  apply get_local; unfold Cache.remove; simpl; apply lookup_delete_ne; exact Hck.
Qed.

(** Chur is removed from the cache that holds Bern and Chur. *)
Lemma X5_remove_then_miss_witness :
  "bern"%string <> "chur"%string /\
  Cache.memoryCache (Cache.remove "chur" Spec.two_entries) !! Cache._generateKey "chur" = None /\
  Cache.localStorage (Cache.remove "chur" Spec.two_entries) !! Cache._generateKey "chur" = None /\
  Cache.get "chur" 7 (Cache.remove "chur" Spec.two_entries)
  = (None, Cache.remove "chur" Spec.two_entries) /\
  (Cache.get "bern" 7 (Cache.remove "chur" Spec.two_entries)).1
  = (Cache.get "bern" 7 Spec.two_entries).1.
Proof.
  assert (Hne : "bern"%string <> "chur"%string) by discriminate.
  split; [exact Hne |].
  exact (X5_remove_then_miss Spec.two_entries "chur" "bern" 7 Hne).
Defined.

(** X6: keys do not interfere: a [set] whose durable write is accepted leaves
    what a [get] of any other key returns as it was. *)
Theorem X6_set_leaves_other_keys {V : Type}
    (quotaExceeded : gmap string (Cache.item V) -> string -> Cache.item V -> bool)
    (st : Cache.state V) (key key' : string) (d : V) (ttl : option Z) (now t : Z) :
  key <> key' ->
  quotaExceeded (Cache.localStorage st) (Cache._generateKey key)
    (Cache.JSON_stringify
       {| Cache.data := d; Cache.expiry := Some (now + default Cache.DEFAULT_TTL ttl);
          Cache.timestamp := Some now |}) = false ->
  (Cache.get key' t (Cache.set quotaExceeded key d ttl now st).2).1 = (Cache.get key' t st).1.
Proof.
  intros Hne Hroom.
  assert (Hck : Cache._generateKey key <> Cache._generateKey key').
  { intros Heq. apply Hne, generateKey_inj, Heq. }
  apply get_local; unfold Cache.set, Cache.setItem; rewrite Hroom; simpl;
    apply lookup_insert_ne; exact Hck.
Qed.

(** Chur is set while the cache holds Bern alone. *)
Lemma X6_set_leaves_other_keys_witness :
  "chur"%string <> "bern"%string /\
  Spec.two_items_quota (Cache.localStorage Spec.one_entry) (Cache._generateKey "chur")
    (Cache.JSON_stringify
       {| Cache.data := "storm"%string;
          Cache.expiry := Some (5 + default Cache.DEFAULT_TTL (Some 10));
          Cache.timestamp := Some 5 |}) = false /\
  (Cache.get "bern" 7
     (Cache.set Spec.two_items_quota "chur" "storm"%string (Some 10) 5 Spec.one_entry).2).1
  = (Cache.get "bern" 7 Spec.one_entry).1.
Proof.
  assert (Hne : "chur"%string <> "bern"%string) by discriminate.
  split; [exact Hne |]. split; [reflexivity |].
  exact (X6_set_leaves_other_keys Spec.two_items_quota Spec.one_entry
           "chur" "bern" "storm"%string (Some 10) 5 7 Hne eq_refl).
Defined.

(** X7: [clear] empties the fast tier and removes from the durable tier
    exactly the items whose key starts with the cache prefix: afterwards
    every [get] is a miss that changes nothing, and every other item of
    localStorage, the settings, favorites and last location of the storage
    service among them, is untouched. *)
Theorem X7_clear_removes_the_cache_only {V : Type} (st : Cache.state V) :
  Cache.memoryCache (Cache.clear st) = ∅ /\
  (forall key now, Cache.get key now (Cache.clear st) = (None, Cache.clear st)) /\
  (forall k, Cache.localStorage (Cache.clear st) !! k
             = if Cache.startsWith Cache.CACHE_PREFIX k then None
               else Cache.localStorage st !! k) /\
  Forall (fun k => Cache.localStorage (Cache.clear st) !! k = Cache.localStorage st !! k)
         Storage.STORAGE_KEYS.
Proof.
  split_and!.
  - reflexivity.
  - intros key now. apply get_absent; [apply lookup_empty |].
    rewrite clear_lookup, generateKey_prefixed. reflexivity.
  - apply clear_lookup.
  - unfold Storage.STORAGE_KEYS.
    repeat (apply List.Forall_cons; [rewrite clear_lookup; reflexivity |]).
    apply List.Forall_nil.
Qed.


Section MoreCacheReads.
Import Cache Spec.
Context {V : Type}.
Implicit Types (st : state V) (key : string).

(** The state a read leaves is one on which the same read changes
    nothing more: a hit stays a hit up to the time of the first read, a
    miss stays a miss for good. *)
Lemma get_stored_outcome st key now :
  memoryCache st !! _generateKey key = None ->
  match (get_stored (_generateKey key) now st).1 with
  | Some d =>
      exists c, localStorage st !! _generateKey key = Some (Json c) /\
                unexpired now c = true /\ data c = d /\
                (get_stored (_generateKey key) now st).2
                = {| memoryCache := <[_generateKey key := c]> (memoryCache st);
                     localStorage := localStorage st |}
  | None =>
      memoryCache (get_stored (_generateKey key) now st).2 !! _generateKey key = None /\
      (localStorage (get_stored (_generateKey key) now st).2 !! _generateKey key = None \/
       localStorage (get_stored (_generateKey key) now st).2 !! _generateKey key
       = Some Unparsable)
  end.
Proof.
  intros Hm. unfold get_stored.
  destruct (localStorage st !! _generateKey key) as [[| c] |] eqn:Hl; simpl.
  - split; [exact Hm | right; exact Hl].
  - destruct (unexpired now c) eqn:Hlive; simpl.
    + exists c. auto.
    + split; [exact Hm | left; apply lookup_delete_eq].
  - split; [exact Hm | left; exact Hl].
Qed.

Lemma unexpired_earlier (c : cached V) (now now' : Z) :
  now' <= now -> unexpired now c = true -> unexpired now' c = true.
Proof.
  unfold unexpired. destruct (expiry c) as [e |]; [| trivial].
  intros Hle Hlive. apply Z.ltb_lt in Hlive. apply Z.ltb_lt. lia.
Qed.

Lemma get_hit_from_memory st key now c :
  memoryCache st !! _generateKey key = Some c -> unexpired now c = true ->
  get key now st = (Some (data c), st).
Proof. intros Hm Hlive. unfold get. rewrite Hm, Hlive. reflexivity. Qed.

Lemma get_miss_settled st key now :
  memoryCache st !! _generateKey key = None ->
  (localStorage st !! _generateKey key = None \/
   localStorage st !! _generateKey key = Some Unparsable) ->
  get key now st = (None, st).
Proof.
  intros Hm [Hl | Hl]; unfold get, get_stored; rewrite Hm, Hl; reflexivity.
Qed.

(** What a read leaves behind. *)
Lemma get_outcome st key now :
  match (get key now st).1 with
  | Some d =>
      exists c, memoryCache (get key now st).2 !! _generateKey key = Some c /\
                unexpired now c = true /\ data c = d
  | None =>
      memoryCache (get key now st).2 !! _generateKey key = None /\
      (localStorage (get key now st).2 !! _generateKey key = None \/
       localStorage (get key now st).2 !! _generateKey key = Some Unparsable)
  end.
Proof.
  assert (Hstored : forall s : state V,
             memoryCache s !! _generateKey key = None ->
             match (get_stored (_generateKey key) now s).1 with
             | Some d =>
                 exists c, memoryCache (get_stored (_generateKey key) now s).2 !! _generateKey key
                           = Some c /\ unexpired now c = true /\ data c = d
             | None =>
                 memoryCache (get_stored (_generateKey key) now s).2 !! _generateKey key = None /\
                 (localStorage (get_stored (_generateKey key) now s).2 !! _generateKey key = None \/
                  localStorage (get_stored (_generateKey key) now s).2 !! _generateKey key
                  = Some Unparsable)
             end).
  { intros s Hs. pose proof (get_stored_outcome s key now Hs) as Hout.
    destruct ((get_stored (_generateKey key) now s).1) as [d |]; [| exact Hout].
    destruct Hout as (c & _ & Hlive & Hd & ->). exists c. simpl.
    rewrite lookup_insert_eq. auto. }
  unfold get. destruct (memoryCache st !! _generateKey key) as [c |] eqn:Hm.
  - destruct (unexpired now c) eqn:Hlive.
    + simpl. exists c. auto.
    + apply Hstored. simpl. apply lookup_delete_eq.
  - apply Hstored. exact Hm.
Qed.

End MoreCacheReads.

(** X8: a read settles the cache: a second [get(key)] returns what the first
    returned and changes nothing more, provided the first was a miss (then
    the second may come at any time) or the second comes at a time up to
    that of the first. *)
Theorem X8_get_settles {V : Type} (st : Cache.state V) (key : string) (now now' : Z) :
  (Cache.get key now st).1 = None \/ now' <= now ->
  Cache.get key now' (Cache.get key now st).2
  = ((Cache.get key now st).1, (Cache.get key now st).2).
Proof.
  intros Hcase. pose proof (get_outcome st key now) as Hout.
  destruct ((Cache.get key now st).1) as [d |].
  - destruct Hcase as [Hnone | Hle]; [discriminate |].
    destruct Hout as (c & Hm & Hlive & <-).
    apply get_hit_from_memory; [exact Hm |].
    eapply unexpired_earlier; eassumption.
  - destruct Hout as [Hm Hl]. apply get_miss_settled; assumption.
Qed.

(** The forecast for Bern is read at 7, then again at 3. *)
Lemma X8_get_settles_witness :
  ((Cache.get "bern" 7 (Spec.reloaded Spec.one_entry)).1 = None \/ 3 <= 7) /\
  Cache.get "bern" 3 (Cache.get "bern" 7 (Spec.reloaded Spec.one_entry)).2
  = ((Cache.get "bern" 7 (Spec.reloaded Spec.one_entry)).1,
     (Cache.get "bern" 7 (Spec.reloaded Spec.one_entry)).2).
Proof.
  assert (H : (Cache.get "bern" 7 (Spec.reloaded Spec.one_entry)).1 = None \/ 3 <= 7)
    by (right; lia).
  split; [exact H |].
  exact (X8_get_settles (Spec.reloaded Spec.one_entry) "bern" 7 3 H).
Defined.

(** X9: a value survives a reload of the page when the durable write of its
    [set] was accepted: read before its expiry from a cache whose fast
    tier is empty, it is returned from the durable tier and put back into
    the fast tier. *)
Theorem X9_set_survives_reload {V : Type}
    (quotaExceeded : gmap string (Cache.item V) -> string -> Cache.item V -> bool)
    (st : Cache.state V) (key : string) (d : V) (ttl now t' : Z) :
  quotaExceeded (Cache.localStorage st) (Cache._generateKey key)
                (Cache.JSON_stringify (Spec.entry d ttl now)) = false ->
  t' < now + ttl ->
  let st1 := Spec.reloaded (Cache.set quotaExceeded key d (Some ttl) now st).2 in
  (Cache.get key t' st1).1 = Some d /\
  Cache.memoryCache (Cache.get key t' st1).2 !! Cache._generateKey key
  = Some (Spec.entry d ttl now) /\
  Cache.localStorage (Cache.get key t' st1).2 = Cache.localStorage st1.
Proof.
  intros Hroom Hfresh st1. subst st1. unfold Cache.set, Cache.setItem.
  change (default Cache.DEFAULT_TTL (Some ttl)) with ttl.
  fold (Spec.entry d ttl now). rewrite Hroom.
  unfold Spec.reloaded, Cache.get, Cache.get_stored. simpl.
  rewrite lookup_empty, lookup_insert_eq. simpl.
  unfold Cache.unexpired. simpl.
  destruct (Z.ltb_spec t' (now + ttl)); [| lia]. simpl.
  rewrite lookup_insert_eq. auto.
Qed.

Lemma X9_set_survives_reload_witness :
  Spec.two_items_quota (Cache.localStorage Spec.one_entry) (Cache._generateKey "chur")
                       (Cache.JSON_stringify (Spec.entry "cloudy"%string 1000 1)) = false /\
  500 < 1 + 1000 /\
  let st1 := Spec.reloaded
               (Cache.set Spec.two_items_quota "chur" "cloudy"%string (Some 1000) 1
                          Spec.one_entry).2 in
  (Cache.get "chur" 500 st1).1 = Some "cloudy"%string /\
  Cache.memoryCache (Cache.get "chur" 500 st1).2 !! Cache._generateKey "chur"
  = Some (Spec.entry "cloudy"%string 1000 1) /\
  Cache.localStorage (Cache.get "chur" 500 st1).2 = Cache.localStorage st1.
Proof.
  assert (Hfresh : 500 < 1 + 1000) by lia.
  split; [reflexivity |]. split; [exact Hfresh |].
  exact (X9_set_survives_reload Spec.two_items_quota Spec.one_entry "chur" "cloudy"%string
           1000 1 500 eq_refl Hfresh).
Defined.

(** X10: [getMeta] against [get], for an entry that the durable tier alone
    holds: the metadata repeat the time stamp and the expiry of the entry
    and give the age as the time since the time stamp; they say expired
    exactly when the entry has an expiry that is not after now; and the
    [get] misses exactly when the metadata say expired or the entry has no
    expiry, so an entry without expiry is reported as live and dropped by
    the read all the same. *)
Theorem X10_meta_agrees_with_get {V : Type} (st : Cache.state V) (key : string) (now : Z)
    (c : Cache.cached V) :
  Cache.memoryCache st !! Cache._generateKey key = None ->
  Cache.localStorage st !! Cache._generateKey key = Some (Cache.Json c) ->
  exists m,
    Cache.getMeta key now st = Some m /\
    Cache.Meta.timestamp m = Cache.timestamp c /\
    Cache.Meta.expiry m = Cache.expiry c /\
    Cache.Meta.age m = (fun t => now - t) <$> Cache.timestamp c /\
    (Cache.Meta.isExpired m = true <-> exists e, Cache.expiry c = Some e /\ e <= now) /\
    ((Cache.get key now st).1 = None <->
     Cache.Meta.isExpired m = true \/ Cache.expiry c = None).
Proof.
  intros Hm Hl. unfold Cache.getMeta, Cache.get, Cache.get_stored. rewrite Hm, Hl. simpl.
  eexists. split; [reflexivity |]. simpl. split_and!; try reflexivity.
  - destruct (Cache.expiry c) as [e |].
    + rewrite Z.leb_le. split; [intros Hle; eauto | intros (e' & [= <-] & Hle); exact Hle].
    + split; [discriminate | intros (e' & [=] & _)].
  - unfold Cache.unexpired. destruct (Cache.expiry c) as [e |]; simpl.
    + destruct (Z.ltb_spec now e), (Z.leb_spec e now); simpl; try lia;
        split; intros; try discriminate; try (left; reflexivity); try reflexivity;
        intuition discriminate.
    + split; auto.
Qed.

(** The forecast for Bern after a reload, asked about after its expiry. *)
Lemma X10_meta_agrees_with_get_witness :
  Cache.memoryCache (Spec.reloaded Spec.one_entry) !! Cache._generateKey "bern" = None /\
  Cache.localStorage (Spec.reloaded Spec.one_entry) !! Cache._generateKey "bern"
  = Some (Cache.Json (Spec.entry "clear"%string 1000 0)) /\
  exists m,
    Cache.getMeta "bern" 1500 (Spec.reloaded Spec.one_entry) = Some m /\
    Cache.Meta.timestamp m = Cache.timestamp (Spec.entry "clear"%string 1000 0) /\
    Cache.Meta.expiry m = Cache.expiry (Spec.entry "clear"%string 1000 0) /\
    Cache.Meta.age m = (fun t => 1500 - t) <$> Cache.timestamp (Spec.entry "clear"%string 1000 0) /\
    (Cache.Meta.isExpired m = true <->
     exists e, Cache.expiry (Spec.entry "clear"%string 1000 0) = Some e /\ e <= 1500) /\
    ((Cache.get "bern" 1500 (Spec.reloaded Spec.one_entry)).1 = None <->
     Cache.Meta.isExpired m = true \/ Cache.expiry (Spec.entry "clear"%string 1000 0) = None).
Proof.
  assert (Hm : Cache.memoryCache (Spec.reloaded Spec.one_entry) !! Cache._generateKey "bern" = None)
    by reflexivity.
  assert (Hl : Cache.localStorage (Spec.reloaded Spec.one_entry) !! Cache._generateKey "bern"
               = Some (Cache.Json (Spec.entry "clear"%string 1000 0)))
    by (vm_compute; reflexivity).
  split; [exact Hm |]. split; [exact Hl |].
  exact (X10_meta_agrees_with_get (Spec.reloaded Spec.one_entry) "bern" 1500
           (Spec.entry "clear"%string 1000 0) Hm Hl).
Defined.

(* ===================================================================== *)
(** * More on the feeds *)
(* ===================================================================== *)

Section MoreAstro.
Import Data Astro Spec.

(** [xs.map(f)] returns exactly when [f] returns on every element. *)
Lemma map_throwing_normal {A B} (f : A -> completion B) (xs : list A) (ys : list B) :
  map_throwing f xs = Normal ys <-> Forall2 (fun x y => f x = Normal y) xs ys.
Proof.
  revert ys. induction xs as [| x xs IH]; intros ys; simpl.
  - split; [intros [= <-]; constructor | intros Hall; inversion Hall; reflexivity].
  - split.
    + destruct (f x) as [y | e] eqn:Hx; simpl; [| discriminate].
      destruct (map_throwing f xs) as [ys' | e]; simpl; [| discriminate].
      intros [= <-]. constructor; [exact Hx | apply IH; reflexivity].
    + intros Hall. inversion Hall as [| x' y xs' ys' Hx Hrest]; subst.
      rewrite Hx. simpl. apply IH in Hrest. rewrite Hrest. reflexivity.
Qed.

Lemma convertSeeing_rating (v : value) : rating (number (_convertSeeing v)).
Proof.
  unfold _convertSeeing, rating.
  repeat match goal with |- context [if ?b then _ else _] => destruct b end;
    eexists; (split; [reflexivity | lia]).
Qed.

Lemma convertTransparency_rating (v : value) : rating (number (_convertTransparency v)).
Proof.
  unfold _convertTransparency, rating.
  repeat match goal with |- context [if ?b then _ else _] => destruct b end;
    eexists; (split; [reflexivity | lia]).
Qed.

Lemma rating_label_known (v : value) :
  rating v -> match v with number q => In (rating_label q) rating_labels | _ => False end.
Proof.
  intros (r & -> & Hr).
  assert (Hcases : r = 1 \/ r = 2 \/ r = 3 \/ r = 4 \/ r = 5) by lia.
  destruct Hcases as [-> | [-> | [-> | [-> | ->]]]]; vm_compute; tauto.
Qed.

Lemma midpoint_range (n : nat) : (3 <= default 50 (midpoints !! n) <= 97)%Q.
Proof. do 10 (destruct n as [| n]; [simpl; lra |]). simpl. lra. Qed.

Lemma convertCloudCover_range (v : value) : (3 <= _convertCloudCover v <= 97)%Q.
Proof.
  unfold _convertCloudCover. destruct (negb (truthy v)); [lra |].
  destruct (ToNumber v) as [| q]; [lra |].
  destruct (as_integer (q - 1)) as [i |]; [| lra].
  destruct (0 <=? i); [apply midpoint_range | lra].
Qed.

Lemma convertHumidity_range (v : value) : (5 <= _convertHumidity v <= 100)%Q.
Proof.
  unfold _convertHumidity. destruct v as [| | q]; try lra.
  destruct (as_integer q) as [code |]; [| lra].
  destruct (-4 <=? code); [| lra].
  unfold humidityMap. generalize (Z.to_nat (code + 4)). intros n.
  do 22 (destruct n as [| n]; [simpl; lra |]). simpl. lra.
Qed.

Lemma convertWindSpeed_range (v : value) : (0 <= _convertWindSpeed v <= 59)%Q.
Proof.
  unfold _convertWindSpeed. destruct v as [| | q]; try lra.
  destruct (as_integer q) as [code |]; simpl; [| lra].
  unfold speedMap. destruct (code <=? 0); simpl; [lra |].
  generalize (Z.to_nat (code - 1)). intros n.
  do 9 (destruct n as [| n]; [simpl; lra |]). simpl. lra.
Qed.

(** What [process_entry] returns is in range, and stamped with the init
    time plus the time point in hours. *)
Lemma process_entry_converted baseTime entry h :
  process_entry baseTime entry = Normal h ->
  converted h /\
  exists base, baseTime = Some base /\
               RawEntry.timepoint entry = Some (AstroHour.timepoint h) /\
               AstroHour.timestamp h = base + AstroHour.timepoint h * 3600000 /\
               AstroHour.seeingRaw h = RawEntry.seeing entry /\
               AstroHour.transparencyRaw h = RawEntry.transparency entry.
Proof.
  unfold process_entry. destruct baseTime as [base |]; [| discriminate].
  destruct (RawEntry.timepoint entry) as [tp |]; [| discriminate].
  destruct (Date.valid _); [| discriminate].
  intros [= <-]. split.
  - unfold converted. cbn -[_convertSeeing _convertTransparency _convertCloudCover
                             _convertHumidity _convertWindSpeed rating_labels].
    refine (conj _ (conj _ (conj _ (conj _ (conj _ (conj _ _)))))).
    + apply convertSeeing_rating.
    + apply convertTransparency_rating.
    + apply (rating_label_known (number (_convertSeeing (RawEntry.seeing entry)))),
        convertSeeing_rating.
    + apply (rating_label_known (number (_convertTransparency (RawEntry.transparency entry)))),
        convertTransparency_rating.
    + apply convertCloudCover_range.
    + apply convertHumidity_range.
    + apply convertWindSpeed_range.
  - exists base. cbn. refine (conj _ (conj _ (conj _ (conj _ _)))); try reflexivity. lia.
Qed.

End MoreAstro.

(** X11: for a 7Timer! response whose codes are numbers, [null] or missing,
    whatever the numbers are, every entry that [_processAstroData] returns
    has seeing and transparency ratings from 1 to 5 with one of the five
    labels (never "Unbekannt"), a cloud cover from 3 to 97, a humidity from
    5 to 100 and a wind speed from 0 to 59.  (Text in the place of a code
    is outside the feed modelled here: see [humidityMap].) *)
Theorem X11_processed_entries_in_range (data : option Astro.RawData.t) (now : Z)
    (d : Data.AstroData.t) :
  Astro._processAstroData data now = Normal d ->
  Forall Spec.converted (Data.AstroData.hourly d).
Proof.
  unfold Astro._processAstroData.
  destruct data as [data |]; [| intros [= <-]; constructor].
  destruct (Astro.RawData.dataseries data) as [ds |]; [| intros [= <-]; constructor].
  destruct (map_throwing _ ds) as [hs |] eqn:Hmap; simpl; [| discriminate].
  intros [= <-]. simpl. apply map_throwing_normal in Hmap.
  induction Hmap as [| e h ds hs He _ IH]; constructor; [| exact IH].
  apply process_entry_converted in He. apply He.
Qed.

Lemma X11_processed_entries_in_range_witness :
  Astro._processAstroData (Some Spec.raw_feed) 1769212800000 = Normal Spec.processed_feed /\
  Forall Spec.converted (Data.AstroData.hourly Spec.processed_feed).
Proof.
  assert (H : Astro._processAstroData (Some Spec.raw_feed) 1769212800000
              = Normal Spec.processed_feed) by (vm_compute; reflexivity).
  split; [exact H |].
  exact (X11_processed_entries_in_range (Some Spec.raw_feed) 1769212800000 Spec.processed_feed H).
Defined.

(** X12: when [_processAstroData] returns for a response that has a data
    series, it returns one record per entry, in the order of the feed, each
    with the time point of its entry and the time stamp of the init time
    plus that many hours; the init stamp is kept and the data are not
    marked as default. *)
Theorem X12_processed_entries_follow_the_feed (data : Astro.RawData.t)
    (dataseries : list Astro.RawEntry.t) (now : Z) (d : Data.AstroData.t) :
  Astro.RawData.dataseries data = Some dataseries ->
  Astro._processAstroData (Some data) now = Normal d ->
  Data.AstroData.init d = Astro.RawData.init data /\
  Data.AstroData.isDefault d = false /\
  length (Data.AstroData.hourly d) = length dataseries /\
  Forall2
    (fun entry h =>
       Astro.RawEntry.timepoint entry = Some (Data.AstroHour.timepoint h) /\
       Data.AstroHour.seeingRaw h = Astro.RawEntry.seeing entry /\
       exists base,
         Astro._parseInitTime (Astro.RawData.init data) now = Some base /\
         Data.AstroHour.timestamp h = base + Data.AstroHour.timepoint h * 3600000)
    dataseries (Data.AstroData.hourly d).
Proof.
  intros Hds. unfold Astro._processAstroData. rewrite Hds.
  destruct (map_throwing _ dataseries) as [hs |] eqn:Hmap; simpl; [| discriminate].
  intros [= <-]. simpl. apply map_throwing_normal in Hmap.
  split; [reflexivity |]. split; [reflexivity |].
  split; [symmetry; eapply Forall2_length; exact Hmap |].
  eapply Forall2_impl; [exact Hmap |]. intros e h He. simpl in He.
  apply process_entry_converted in He.
  destruct He as [_ (base & Hbase & Htp & Hts & Hraw & _)].
  split; [exact Htp |]. split; [exact Hraw |]. exists base. auto.
Qed.

Lemma X12_processed_entries_follow_the_feed_witness :
  Astro.RawData.dataseries Spec.raw_feed
  = Some [Spec.raw_entry 3 2 7; Spec.raw_entry 6 5 4] /\
  Astro._processAstroData (Some Spec.raw_feed) 1769212800000 = Normal Spec.processed_feed /\
  Data.AstroData.init Spec.processed_feed = Astro.RawData.init Spec.raw_feed /\
  Data.AstroData.isDefault Spec.processed_feed = false /\
  length (Data.AstroData.hourly Spec.processed_feed)
  = length [Spec.raw_entry 3 2 7; Spec.raw_entry 6 5 4] /\
  Forall2
    (fun entry h =>
       Astro.RawEntry.timepoint entry = Some (Data.AstroHour.timepoint h) /\
       Data.AstroHour.seeingRaw h = Astro.RawEntry.seeing entry /\
       exists base,
         Astro._parseInitTime (Astro.RawData.init Spec.raw_feed) 1769212800000 = Some base /\
         Data.AstroHour.timestamp h = base + Data.AstroHour.timepoint h * 3600000)
    [Spec.raw_entry 3 2 7; Spec.raw_entry 6 5 4] (Data.AstroData.hourly Spec.processed_feed).
Proof.
  assert (H : Astro._processAstroData (Some Spec.raw_feed) 1769212800000
              = Normal Spec.processed_feed) by (vm_compute; reflexivity).
  split; [reflexivity |]. split; [exact H |].
  exact (X12_processed_entries_follow_the_feed Spec.raw_feed
           [Spec.raw_entry 3 2 7; Spec.raw_entry 6 5 4] 1769212800000 Spec.processed_feed
           eq_refl H).
Defined.


Section MoreFeeds.
Import Data Spec.
Variable quotaExceeded : gmap string (Cache.item payload) -> string -> Cache.item payload -> bool.

(** [set] always returns normally. *)
Lemma set_returns (key : string) (d : payload) (ttl : option Z) (now : Z)
    (st : Cache.state payload) :
  (Cache.set quotaExceeded key d ttl now st).1 = Normal tt.
Proof. unfold Cache.set. destruct (Cache.setItem _ _ _ _); reflexivity. Qed.

(** The [try] block of the seeing service, when the response is good. *)
Lemma astro_fetch_processed cacheKey now status data processed st :
  Net.ok status = true ->
  Astro._processAstroData data now = Normal processed ->
  Astro.fetch_and_process quotaExceeded cacheKey now (Net.Responded status (Normal data)) st
  = Normal (OfAstro processed,
            (Cache.set quotaExceeded cacheKey (OfAstro processed) (Some Astro.CACHE_TTL) now st).2).
Proof.
  intros Hok Hproc. unfold Astro.fetch_and_process. rewrite Hok. simpl. rewrite Hproc. simpl.
  pose proof (set_returns cacheKey (OfAstro processed) (Some Astro.CACHE_TTL) now st) as Hset.
  destruct (Cache.set _ _ _ _ _ _) as [done st']. simpl in *. rewrite Hset. reflexivity.
Qed.

Lemma weather_fetch_processed cacheKey now status data processed st :
  Net.ok status = true ->
  Weather._processWeatherData data now = Normal processed ->
  Weather.fetch_and_process quotaExceeded cacheKey now (Net.Responded status (Normal data)) st
  = Normal (OfWeather processed,
            (Cache.set quotaExceeded cacheKey (OfWeather processed) (Some Weather.CACHE_TTL)
                       now st).2).
Proof.
  intros Hok Hproc. unfold Weather.fetch_and_process. rewrite Hok. simpl. rewrite Hproc. simpl.
  pose proof (set_returns cacheKey (OfWeather processed) (Some Weather.CACHE_TTL) now st) as Hset.
  destruct (Cache.set _ _ _ _ _ _) as [done st']. simpl in *. rewrite Hset. reflexivity.
Qed.

(** When the [try] block of the seeing service returns, it returns the
    response processed. *)
Lemma astro_fetch_returns cacheKey now net st p st' :
  Astro.fetch_and_process quotaExceeded cacheKey now net st = Normal (p, st') ->
  exists status data processed,
    net = Net.Responded status (Normal data) /\ Net.ok status = true /\
    Astro._processAstroData data now = Normal processed /\ p = OfAstro processed.
Proof.
  unfold Astro.fetch_and_process. destruct net as [e | status [data | e]]; try discriminate.
  - destruct (Net.ok status) eqn:Hok; simpl; [| discriminate].
    destruct (Astro._processAstroData data now) as [processed | e] eqn:Hproc; simpl;
      [| discriminate].
    destruct (Cache.set _ _ _ _ _ _) as [[done | e] st'']; simpl; [| discriminate].
    intros [= <- <-]. exists status, data, processed. auto.
  - destruct (Net.ok status); simpl; discriminate.
Qed.

End MoreFeeds.


(** X14: a processed response is served from the cache afterwards.  When the
    cache has nothing for the position and the request brings a response
    that [_processAstroData] accepts, [fetchAstroData] returns the data
    processed; and every call for the same position before three hours
    have passed returns the same data and leaves the cache as it is,
    whatever the network would answer, and whether or not the durable
    write was accepted.  The default data that stand for a response
    without a data series are kept in the same way. *)
Theorem X14_astro_refetch_served_from_cache
    (quotaExceeded : gmap string (Cache.item Data.payload) -> string
                     -> Cache.item Data.payload -> bool)
    (latitude longitude : Q) (now now' : Z) (status : Z) (data : option Astro.RawData.t)
    (processed : Data.AstroData.t) (net' : Net.fetched (option Astro.RawData.t))
    (st : Cache.state Data.payload) :
  (Cache.get (Spec.astro_key latitude longitude) now st).1 = None ->
  Net.ok status = true ->
  Astro._processAstroData data now = Normal processed ->
  now' < now + Astro.CACHE_TTL ->
  let first := Astro.fetchAstroData quotaExceeded latitude longitude now
                 (Net.Responded status (Normal data)) st in
  first.1 = Normal (Data.OfAstro processed) /\
  Astro.fetchAstroData quotaExceeded latitude longitude now' net' first.2
  = (Normal (Data.OfAstro processed), first.2).
Proof.
  intros Hmiss Hok Hproc Hfresh. unfold Astro.fetchAstroData.
  fold (Spec.astro_key latitude longitude).
  destruct (Cache.get (Spec.astro_key latitude longitude) now st) as [[cached |] st0] eqn:Hget;
    [discriminate |].
  rewrite (astro_fetch_processed quotaExceeded _ now status data processed st0 Hok Hproc).
  cbn [fst snd]. split; [reflexivity |].
  rewrite (get_after_set_fresh quotaExceeded st0 _ (Data.OfAstro processed)
             Astro.CACHE_TTL now now' Hfresh).
  reflexivity.
Qed.

(** The sample response arrives on an empty cache; a second later the
    device is offline. *)
Lemma X14_astro_refetch_served_from_cache_witness :
  (Cache.get (Spec.astro_key 47.3769 8.5417) 1769212800000 Spec.empty_payload_cache).1 = None /\
  Net.ok 200 = true /\
  Astro._processAstroData (Some Spec.raw_feed) 1769212800000 = Normal Spec.processed_feed /\
  1769212801000 < 1769212800000 + Astro.CACHE_TTL /\
  let first := Astro.fetchAstroData Spec.no_quota 47.3769 8.5417 1769212800000
                 (Net.Responded 200 (Normal (Some Spec.raw_feed))) Spec.empty_payload_cache in
  first.1 = Normal (Data.OfAstro Spec.processed_feed) /\
  Astro.fetchAstroData Spec.no_quota 47.3769 8.5417 1769212801000
    (Net.Rejected (TypeError "Failed to fetch")) first.2
  = (Normal (Data.OfAstro Spec.processed_feed), first.2).
Proof.
  assert (Hmiss : (Cache.get (Spec.astro_key 47.3769 8.5417) 1769212800000
                             Spec.empty_payload_cache).1 = None) by reflexivity.
  assert (Hproc : Astro._processAstroData (Some Spec.raw_feed) 1769212800000
                  = Normal Spec.processed_feed) by (vm_compute; reflexivity).
  assert (Hfresh : 1769212801000 < 1769212800000 + Astro.CACHE_TTL) by (vm_compute; reflexivity).
  split; [exact Hmiss |]. split; [reflexivity |]. split; [exact Hproc |]. split; [exact Hfresh |].
  exact (X14_astro_refetch_served_from_cache Spec.no_quota 47.3769 8.5417 1769212800000
           1769212801000 200 (Some Spec.raw_feed) Spec.processed_feed
           (Net.Rejected (TypeError "Failed to fetch")) Spec.empty_payload_cache
           Hmiss eq_refl Hproc Hfresh).
Defined.

(** X15: the weather service does the same: a response that
    [_processWeatherData] accepts is returned, and returned again from the
    cache by every call for the same position within three hours, whatever
    the network would answer. *)
Theorem X15_weather_refetch_served_from_cache
    (quotaExceeded : gmap string (Cache.item Data.payload) -> string
                     -> Cache.item Data.payload -> bool)
    (latitude longitude : Q) (now now' : Z) (status : Z) (data : Weather.RawData.t)
    (processed : Data.WeatherData.t) (net' : Net.fetched Weather.RawData.t)
    (st : Cache.state Data.payload) :
  (Cache.get (Spec.weather_key latitude longitude) now st).1 = None ->
  Net.ok status = true ->
  Weather._processWeatherData data now = Normal processed ->
  now' < now + Weather.CACHE_TTL ->
  let first := Weather.fetchWeatherData quotaExceeded latitude longitude now
                 (Net.Responded status (Normal data)) st in
  first.1 = Normal (Data.OfWeather processed) /\
  Weather.fetchWeatherData quotaExceeded latitude longitude now' net' first.2
  = (Normal (Data.OfWeather processed), first.2).
Proof.
  intros Hmiss Hok Hproc Hfresh. unfold Weather.fetchWeatherData.
  fold (Spec.weather_key latitude longitude).
  destruct (Cache.get (Spec.weather_key latitude longitude) now st) as [[cached |] st0] eqn:Hget;
    [discriminate |].
  rewrite (weather_fetch_processed quotaExceeded _ now status data processed st0 Hok Hproc).
  cbn [fst snd]. split; [reflexivity |].
  rewrite (get_after_set_fresh quotaExceeded st0 _ (Data.OfWeather processed)
             Weather.CACHE_TTL now now' Hfresh).
  reflexivity.
Qed.

Lemma X15_weather_refetch_served_from_cache_witness :
  (Cache.get (Spec.weather_key 47.3769 8.5417) 1769212800000 Spec.empty_payload_cache).1 = None /\
  Net.ok 200 = true /\
  Weather._processWeatherData Spec.raw_weather 1769212800000 = Normal Spec.processed_weather /\
  1769212801000 < 1769212800000 + Weather.CACHE_TTL /\
  let first := Weather.fetchWeatherData Spec.no_quota 47.3769 8.5417 1769212800000
                 (Net.Responded 200 (Normal Spec.raw_weather)) Spec.empty_payload_cache in
  first.1 = Normal (Data.OfWeather Spec.processed_weather) /\
  Weather.fetchWeatherData Spec.no_quota 47.3769 8.5417 1769212801000
    (Net.Rejected (TypeError "Failed to fetch")) first.2
  = (Normal (Data.OfWeather Spec.processed_weather), first.2).
Proof.
  assert (Hmiss : (Cache.get (Spec.weather_key 47.3769 8.5417) 1769212800000
                             Spec.empty_payload_cache).1 = None) by reflexivity.
  assert (Hproc : Weather._processWeatherData Spec.raw_weather 1769212800000
                  = Normal Spec.processed_weather) by (vm_compute; reflexivity).
  assert (Hfresh : 1769212801000 < 1769212800000 + Weather.CACHE_TTL) by (vm_compute; reflexivity).
  split; [exact Hmiss |]. split; [reflexivity |]. split; [exact Hproc |]. split; [exact Hfresh |].
  exact (X15_weather_refetch_served_from_cache Spec.no_quota 47.3769 8.5417 1769212800000
           1769212801000 200 Spec.raw_weather Spec.processed_weather
           (Net.Rejected (TypeError "Failed to fetch")) Spec.empty_payload_cache
           Hmiss eq_refl Hproc Hfresh).
Defined.


Section MoreWeather.
Import Data Weather Spec.

Lemma Qltb_true (x y : Q) : Qltb x y = true <-> (x < y)%Q.
Proof.
  unfold Qltb. destruct (Qle_bool y x) eqn:E; simpl; qorder; split; intros; try lra; discriminate.
Qed.

(** What [process_hour] returns: the hour of its time, with its band. *)
Lemma process_hour_returns hourly i time h :
  process_hour hourly (i, time) = Normal h ->
  time = Some (WeatherHour.timestamp h) /\ cloud_band h /\ required_arrays hourly.
Proof.
  unfold process_hour, index.
  destruct (RawHourly.cloud_cover hourly) as [cc |] eqn:Hcc; [| discriminate]. simpl.
  destruct time as [t |]; [| discriminate].
  destruct (RawHourly.temperature_2m hourly) as [temp |] eqn:Htemp; [| discriminate]. simpl.
  destruct (RawHourly.relative_humidity_2m hourly) as [hum |] eqn:Hhum; [| discriminate]. simpl.
  destruct (RawHourly.wind_speed_10m hourly) as [wind |] eqn:Hwind; [| discriminate]. simpl.
  destruct (RawHourly.wind_direction_10m hourly) as [dir |] eqn:Hdir; [| discriminate]. simpl.
  intros Heq. injection Heq as Heq. subst h. split; [reflexivity |]. split.
  - unfold cloud_band. cbn [WeatherHour.cloudCover WeatherHour.cloudCoverMin
                             WeatherHour.cloudCoverMax WeatherHour.cloudCoverSpread
                             WeatherHour.cloudCoverConfidence].
    set (total := or0 (default undefined (cc !! i))).
    set (low := or0 _). set (mid := or0 _). set (high := or0 _).
    do 4 eexists. do 4 (split; [reflexivity |]).
    assert (Hspread : (0 <= Qmax (Qmax low mid) high - Qmin (Qmin low mid) high)%Q).
    { unfold Qmax, Qmin. qcases; qorder; lra. }
    set (spread := (Qmax (Qmax low mid) high - Qmin (Qmin low mid) high)%Q) in *.
    split; [unfold Qmax; qcases; qorder; lra |].
    split; [unfold Qmin; qcases; qorder; lra |].
    split; [exact Hspread |].
    split; [intros Hcover; unfold Qmax, Qmin; qcases; qorder; lra |].
    destruct (Qltb spread 20) eqn:E20; [| destruct (Qltb spread 40) eqn:E40].
    + apply Qltb_true in E20.
      split; [tauto |]. split; (split; [discriminate | intros; lra]).
    + apply Qltb_true in E40. apply negb_false_iff in E20. qorder.
      split; [split; [discriminate | intros; lra] |].
      split; [tauto |]. split; [discriminate | intros; lra].
    + apply negb_false_iff in E20, E40. qorder.
      split; [split; [discriminate | intros; lra] |].
      split; [split; [discriminate | intros; lra] |]. tauto.
  - unfold required_arrays. rewrite Hcc, Htemp, Hhum, Hwind, Hdir. repeat split; discriminate.
Qed.

(** With the arrays it needs and a time it can read, [process_hour] returns. *)
Lemma process_hour_total hourly i t :
  required_arrays hourly -> exists h, process_hour hourly (i, Some t) = Normal h.
Proof.
  intros (Hcc & Htemp & Hhum & Hwind & Hdir). unfold process_hour, index.
  destruct (RawHourly.cloud_cover hourly); [| congruence].
  destruct (RawHourly.temperature_2m hourly); [| congruence].
  destruct (RawHourly.relative_humidity_2m hourly); [| congruence].
  destruct (RawHourly.wind_speed_10m hourly); [| congruence].
  destruct (RawHourly.wind_direction_10m hourly); [| congruence].
  simpl. eexists. reflexivity.
Qed.

(** The loop over the numbered times. *)
Lemma process_hours_returns hourly (xs : list (nat * option Z)) hs :
  map_throwing (process_hour hourly) xs = Normal hs ->
  map Some (map WeatherHour.timestamp hs) = map snd xs /\ Forall cloud_band hs /\
  (xs = [] \/ required_arrays hourly).
Proof.
  revert hs. induction xs as [| [i t] xs IH]; intros hs; cbn [map_throwing].
  - intros [= <-]. split; [reflexivity |]. split; [constructor | left; reflexivity].
  - destruct (process_hour hourly (i, t)) as [h | e] eqn:Hh; cbn [bind]; [| discriminate].
    destruct (map_throwing _ _) as [hs' | e] eqn:Hrest; cbn [bind]; [| discriminate].
    intros [= <-]. apply process_hour_returns in Hh. destruct Hh as (-> & Hband & Hreq).
    destruct (IH hs' eq_refl) as (Htimes & Hbands & _).
    simpl. rewrite Htimes. split; [reflexivity |]. split; [constructor; assumption |].
    right. exact Hreq.
Qed.

Lemma process_hours_total hourly (xs : list (nat * option Z)) :
  Forall is_Some (map snd xs) -> xs = [] \/ required_arrays hourly ->
  exists hs, map_throwing (process_hour hourly) xs = Normal hs.
Proof.
  induction xs as [| [i t] xs IH]; intros Hall Hreq; cbn [map_throwing].
  - eexists. reflexivity.
  - destruct Hreq as [Hnil | Hreq]; [discriminate |].
    simpl in Hall. apply Forall_cons in Hall. destruct Hall as [[t' Ht'] Hall].
    simpl in Ht'. subst t.
    destruct (process_hour_total hourly i t' Hreq) as [h ->]. cbn [bind].
    destruct (IH Hall (or_intror Hreq)) as [hs ->]. cbn [bind].
    eexists. reflexivity.
Qed.

Lemma snd_imap_pair {A} (g : nat -> nat) (l : list A) :
  map snd (imap (fun i x => (g i, x)) l) = l.
Proof.
  revert g. induction l as [| x l IH]; intros g; simpl; [reflexivity |].
  f_equal. apply (IH (g ∘ S)).
Qed.

Lemma imap_pair_nil {A} (l : list A) : imap pair l = [] -> l = [].
Proof. destruct l; [reflexivity | discriminate]. Qed.

End MoreWeather.

(** X16: every hour that [_processWeatherData] returns has a band: bounds that
    are numbers with 0 <= cloudCoverMin and cloudCoverMax <= 100, a spread
    that is not negative, the cloud cover between the bounds whenever it
    is itself a percentage, and the confidence high, medium or low exactly
    when the spread is below 20, from 20 to below 40, or at least 40.
    The hours are those of the response, one per time and in its order. *)
Theorem X16_weather_hours_banded (data : Weather.RawData.t) (now : Z) (d : Data.WeatherData.t) :
  Weather._processWeatherData data now = Normal d ->
  Forall Spec.cloud_band (Data.WeatherData.hourly d) /\
  (exists hourly,
     Weather.RawData.hourly data = Some hourly /\
     Weather.RawHourly.time hourly
     = Some (map Some (map Data.WeatherHour.timestamp (Data.WeatherData.hourly d)))) /\
  Data.WeatherData.timezone d = Weather.RawData.timezone data.
Proof.
  unfold Weather._processWeatherData.
  destruct (Weather.RawData.hourly data) as [hourly |]; [| discriminate].
  destruct (Weather.RawHourly.time hourly) as [times |] eqn:Htimes; [| discriminate].
  destruct (map_throwing _ _) as [hs |] eqn:Hmap; simpl; [| discriminate].
  intros [= <-]. simpl.
  apply process_hours_returns in Hmap.
  destruct Hmap as (Hts & Hbands & _).
  rewrite (snd_imap_pair (fun i => i)) in Hts.
  split; [exact Hbands |]. split; [| reflexivity].
  exists hourly. rewrite Hts. auto.
Qed.

Lemma X16_weather_hours_banded_witness :
  Weather._processWeatherData Spec.raw_weather 1769212800000 = Normal Spec.processed_weather /\
  Forall Spec.cloud_band (Data.WeatherData.hourly Spec.processed_weather) /\
  (exists hourly,
     Weather.RawData.hourly Spec.raw_weather = Some hourly /\
     Weather.RawHourly.time hourly
     = Some (map Some (map Data.WeatherHour.timestamp
                           (Data.WeatherData.hourly Spec.processed_weather)))) /\
  Data.WeatherData.timezone Spec.processed_weather = Weather.RawData.timezone Spec.raw_weather.
Proof.
  assert (H : Weather._processWeatherData Spec.raw_weather 1769212800000
              = Normal Spec.processed_weather) by (vm_compute; reflexivity).
  split; [exact H |].
  exact (X16_weather_hours_banded Spec.raw_weather 1769212800000 Spec.processed_weather H).
Defined.

(** X17: [_processWeatherData] returns exactly when the response has an
    [hourly] object with a [time] array, every time in it can be read as a
    date, and, unless there is no time at all, the arrays of cloud cover,
    temperature, humidity, wind speed and wind direction are there;
    otherwise it throws. *)
Theorem X17_weather_processing_returns_iff (data : Weather.RawData.t) (now : Z) :
  (exists d, Weather._processWeatherData data now = Normal d) <->
  (exists hourly times,
     Weather.RawData.hourly data = Some hourly /\
     Weather.RawHourly.time hourly = Some times /\
     Forall is_Some times /\
     (times = [] \/ Spec.required_arrays hourly)).
Proof.
  unfold Weather._processWeatherData. split.
  - intros [d Hd].
    destruct (Weather.RawData.hourly data) as [hourly |]; [| discriminate].
    destruct (Weather.RawHourly.time hourly) as [times |] eqn:Htimes; [| discriminate].
    destruct (map_throwing _ _) as [hs |] eqn:Hmap; simpl in Hd; [| discriminate].
    apply process_hours_returns in Hmap.
    destruct Hmap as (Hts & _ & Hreq).
    rewrite (snd_imap_pair (fun i => i)) in Hts.
    assert (Hreq' : times = [] \/ Spec.required_arrays hourly).
    { destruct Hreq as [Hnil | Hreq]; [left; apply imap_pair_nil, Hnil | right; exact Hreq]. }
    clear Hreq. rename Hreq' into Hreq.
    exists hourly, times. split; [reflexivity |]. split; [exact Htimes |].
    split; [| exact Hreq].
    rewrite <- Hts. apply Forall_forall. intros t Ht.
    apply list_elem_of_In, in_map_iff in Ht. destruct Ht as (z & <- & _). eauto.
  - intros (hourly & times & -> & -> & Hall & Hreq).
    destruct (process_hours_total hourly (imap pair times)) as [hs Hhs].
    + rewrite (snd_imap_pair (fun i => i)). exact Hall.
    + destruct Hreq as [-> | Hreq]; [left; reflexivity | right; exact Hreq].
    + rewrite Hhs. simpl. eexists. reflexivity.
Qed.


Section MoreWind.
Import Weather.

Lemma Qfloor_between (x : Q) (lo hi : Z) :
  (inject_Z lo <= x)%Q -> (x < inject_Z hi + 1)%Q -> lo <= Qfloor x <= hi.
Proof.
  intros Hlo Hhi. split.
  - rewrite <- (Qfloor_Z lo). apply Qfloor_resp_le. exact Hlo.
  - destruct (Z_lt_le_dec hi (Qfloor x)) as [Hgt | Hle]; [| exact Hle].
    exfalso. pose proof (Qfloor_le x) as Hfl.
    assert (Hz : (inject_Z (hi + 1) <= inject_Z (Qfloor x))%Q) by (rewrite <- Zle_Qle; lia).
    rewrite inject_Z_plus in Hz. change (inject_Z 1) with 1%Q in Hz. lra.
Qed.

(** The remainder of a division by 360 that truncates towards zero. *)
Lemma Qrem_nonneg (d : Q) : (0 <= d)%Q -> (0 <= Qrem d 360 < 360)%Q.
Proof.
  intros Hd. unfold Qrem, Qtrunc.
  assert (Hq : (0 <= d / 360)%Q) by (apply Qle_shift_div_l; lra).
  apply Qle_bool_iff in Hq. rewrite Hq.
  pose proof (Qfloor_le (d / 360)) as Hlo. pose proof (Qlt_floor (d / 360)) as Hhi.
  rewrite inject_Z_plus in Hhi. change (inject_Z 1) with 1%Q in Hhi.
  set (k := inject_Z (Qfloor (d / 360))) in *.
  assert (Hdiv : (d / 360 * 360 == d)%Q) by (field).
  split; nra.
Qed.

Lemma Qrem_small_negative (d : Q) : (-360 < d)%Q -> (d < 0)%Q -> (Qrem d 360 == d)%Q.
Proof.
  intros Hlo Hhi. unfold Qrem, Qtrunc.
  assert (Hdiv : (d / 360 * 360 == d)%Q) by (field).
  assert (Hq : Qle_bool 0 (d / 360) = false).
  { destruct (Qle_bool 0 (d / 360)) eqn:E; [| reflexivity]. qorder. lra. }
  rewrite Hq. unfold Qceiling.
  assert (Hfl : Qfloor (- (d / 360)) = 0).
  { pose proof (Qfloor_between (- (d / 360)) 0 0) as Hb.
    change (inject_Z 0) with 0%Q in Hb.
    assert (0 <= Qfloor (- (d / 360)) <= 0); [apply Hb; lra | lia]. }
  rewrite Hfl. change (inject_Z (- 0)) with 0%Q. ring.
Qed.

(** The index the label is read with. *)
Lemma wind_index_nonneg (d : Q) :
  (0 <= d)%Q -> 0 <= Z.rem (Math.roundQ (Qrem d 360 / 45)) 8 < 8.
Proof.
  intros Hd. destruct (Qrem_nonneg d Hd) as [Hlo Hhi].
  set (r := Qrem d 360) in *. clearbody r.
  assert (Hdiv : (r / 45 * 45 == r)%Q) by field.
  assert (Hround : 0 <= Math.roundQ (r / 45) <= 8).
  { unfold Math.roundQ. apply Qfloor_between.
    - change (inject_Z 0) with 0%Q. lra.
    - change (inject_Z 8) with 8%Q. lra. }
  pose proof (Z.rem_bound_pos (Math.roundQ (r / 45)) 8). lia.
Qed.

Lemma wind_index_negative (d : Q) :
  (-337.5 <= d)%Q -> (d < 0)%Q ->
  (d < -22.5)%Q /\ Z.rem (Math.roundQ (Qrem d 360 / 45)) 8 < 0 \/
  (-22.5 <= d)%Q /\ Z.rem (Math.roundQ (Qrem d 360 / 45)) 8 = 0.
Proof.
  intros Hlo Hhi.
  assert (Hrem : (Qrem d 360 == d)%Q) by (apply Qrem_small_negative; lra).
  assert (Hdiv : (d / 45 * 45 == d)%Q) by field.
  assert (Hfloor : forall lo hi,
             (inject_Z lo <= d / 45 + (1 # 2))%Q -> (d / 45 + (1 # 2) < inject_Z hi + 1)%Q ->
             lo <= Math.roundQ (Qrem d 360 / 45) <= hi).
  { intros lo hi H1 H2. unfold Math.roundQ. apply Qfloor_between; rewrite Hrem; assumption. }
  destruct (Qlt_le_dec d (-22.5)) as [Hneg | Hnear].
  - left. split; [exact Hneg |].
    assert (Hround : -7 <= Math.roundQ (Qrem d 360 / 45) <= -1).
    { apply Hfloor; [change (inject_Z (-7)) with (-7)%Q | change (inject_Z (-1)) with (-1)%Q]; lra. }
    pose proof (Z.rem_bound_pos_neg (Math.roundQ (Qrem d 360 / 45)) 8).
    assert (Hnz : Z.rem (Math.roundQ (Qrem d 360 / 45)) 8 <> 0).
    { intros Hz. apply Z.rem_divide in Hz; [| lia]. destruct Hz as [k Hk]. lia. }
    lia.
  - right. split; [exact Hnear |].
    assert (Hround : 0 <= Math.roundQ (Qrem d 360 / 45) <= 0).
    { apply Hfloor; change (inject_Z 0) with 0%Q; lra. }
    replace (Math.roundQ (Qrem d 360 / 45)) with 0 by lia. reflexivity.
Qed.

End MoreWind.

(** X18: the wind direction label of a number of degrees from -337.5 upwards:
    there is one, a member of the eight directions, exactly when the
    degrees are at least -22.5.  Degrees below that, down to -337.5, read
    the array at a negative index and get no label. *)
Theorem X18_wind_label_defined_iff (d : Q) :
  (-337.5 <= d)%Q ->
  ((exists label, Weather._getWindDirectionLabel (number d) = Some label
                  /\ In label Weather.directions)
   <-> (-22.5 <= d)%Q).
Proof.
  intros Hlo. unfold Weather._getWindDirectionLabel. cbn [ToNumber].
  destruct (Qlt_le_dec d 0) as [Hneg | Hpos].
  - destruct (wind_index_negative d Hlo Hneg) as [[Hfar Hidx] | [Hnear Hidx]].
    + destruct (Z.leb_spec 0 (Z.rem (Math.roundQ (Qrem d 360 / 45)) 8)) as [Hle | _]; [lia |].
      split; [intros (label & Hl & _); discriminate | intros; lra].
    + rewrite Hidx. simpl. split; [intros _; exact Hnear |].
      intros _. exists "N"%string. split; [reflexivity | left; reflexivity].
  - pose proof (wind_index_nonneg d Hpos) as Hidx.
    destruct (Z.leb_spec 0 (Z.rem (Math.roundQ (Qrem d 360 / 45)) 8)) as [_ | Hlt]; [| lia].
    split; [intros _; lra |]. intros _.
    destruct (lookup_lt_is_Some_2 Weather.directions
                (Z.to_nat (Z.rem (Math.roundQ (Qrem d 360 / 45)) 8))) as [label Hlabel].
    { simpl. lia. }
    exists label. split; [exact Hlabel |].
    apply list_elem_of_In. eapply list_elem_of_lookup_2. exact Hlabel.
Qed.

Lemma X18_wind_label_defined_iff_witness :
  (-337.5 <= -90)%Q /\
  ((exists label, Weather._getWindDirectionLabel (number (-90)) = Some label
                  /\ In label Weather.directions)
   <-> (-22.5 <= -90)%Q).
Proof.
  assert (H : (-337.5 <= -90)%Q) by (unfold Qle; simpl; lia).
  split; [exact H | exact (X18_wind_label_defined_iff (-90) H)].
Defined.


Section MoreEnsemble.
Import Weather.

(** The members' values of an hour are numbers. *)
Lemma ensemble_values_numbers (first : list value) (rest : list (list value)) (index : nat) :
  exists qs : list Q, _getEnsembleValues (Some (Members first rest)) index = map number qs.
Proof.
  unfold _getEnsembleValues. generalize (first :: rest). intros members.
  induction members as [| m members [qs IH]]; simpl.
  - exists []. reflexivity.
  - destruct (default undefined (m !! index)) as [| | q]; simpl.
    + exists qs. exact IH.
    + exists qs. exact IH.
    + exists (q :: qs). rewrite IH. reflexivity.
Qed.

(** Values that are whole numbers are the images of integers. *)
Lemma whole_values (bound : Z) (qs : list Q) :
  Forall (Spec.whole_within bound) (map number qs) ->
  exists zs : list Z, qs = map inject_Z zs /\ Forall (fun z => Z.abs z <= bound) zs.
Proof.
  induction qs as [| q qs IH]; intros Hall.
  - exists []. split; [reflexivity | constructor].
  - cbn [map] in Hall. apply Forall_cons in Hall. destruct Hall as [(z & Hz & Hbound) Hall].
    destruct (IH Hall) as (zs & -> & Hzs). injection Hz as ->.
    exists (z :: zs). split; [reflexivity | constructor; assumption].
Qed.

Lemma fold_min_whole (zs : list Z) (m : Z) :
  foldl (fun a b => Math.min a (ToNumber b)) (Fin (inject_Z m)) (map number (map inject_Z zs))
  = Fin (inject_Z (foldl Z.min m zs)).
Proof.
  revert m. induction zs as [| z zs IH]; intros m; [reflexivity |].
  cbn [map foldl ToNumber]. unfold Math.min at 2, lift2.
  replace (if Qle_bool (inject_Z m) (inject_Z z) then inject_Z m else inject_Z z)
    with (inject_Z (Z.min m z)); [apply IH |].
  unfold Qle_bool. cbn [Qnum Qden inject_Z]. rewrite !Z.mul_1_r.
  destruct (Z.leb_spec m z); [rewrite Z.min_l by lia | rewrite Z.min_r by lia]; reflexivity.
Qed.

Lemma fold_max_whole (zs : list Z) (m : Z) :
  foldl (fun a b => Math.max a (ToNumber b)) (Fin (inject_Z m)) (map number (map inject_Z zs))
  = Fin (inject_Z (foldl Z.max m zs)).
Proof.
  revert m. induction zs as [| z zs IH]; intros m; [reflexivity |].
  cbn [map foldl ToNumber]. unfold Math.max at 2, lift2.
  replace (if Qle_bool (inject_Z m) (inject_Z z) then inject_Z z else inject_Z m)
    with (inject_Z (Z.max m z)); [apply IH |].
  unfold Qle_bool. cbn [Qnum Qden inject_Z]. rewrite !Z.mul_1_r.
  destruct (Z.leb_spec m z); [rewrite Z.max_r by lia | rewrite Z.max_l by lia]; reflexivity.
Qed.

(** The least and the greatest of a list of integers are among them and
    bound the others. *)
Lemma foldl_min_spec (zs : list Z) (m : Z) :
  foldl Z.min m zs <= m /\ Forall (fun z => foldl Z.min m zs <= z) zs
  /\ In (foldl Z.min m zs) (m :: zs).
Proof.
  revert m. induction zs as [| z zs IH]; intros m; cbn [foldl].
  - split; [lia |]. split; [constructor | left; reflexivity].
  - destruct (IH (Z.min m z)) as (Hle & Hall & Hin).
    split; [lia |]. split; [constructor; [lia | exact Hall] |].
    destruct Hin as [Hin | Hin]; [| right; right; exact Hin].
    rewrite <- Hin. destruct (Z.min_spec m z) as [[_ ->] | [_ ->]];
      [left; reflexivity | right; left; reflexivity].
Qed.

Lemma foldl_max_spec (zs : list Z) (m : Z) :
  m <= foldl Z.max m zs /\ Forall (fun z => z <= foldl Z.max m zs) zs
  /\ In (foldl Z.max m zs) (m :: zs).
Proof.
  revert m. induction zs as [| z zs IH]; intros m; cbn [foldl].
  - split; [lia |]. split; [constructor | left; reflexivity].
  - destruct (IH (Z.max m z)) as (Hle & Hall & Hin).
    split; [lia |]. split; [constructor; [lia | exact Hall] |].
    destruct Hin as [Hin | Hin]; [| right; right; exact Hin].
    rewrite <- Hin. destruct (Z.max_spec m z) as [[_ ->] | [_ ->]];
      [right; left; reflexivity | left; reflexivity].
Qed.

(** The sum of integers between two bounds. *)
Lemma sum_between (zs : list Z) (lo hi : Z) :
  Forall (fun z => lo <= z <= hi) zs ->
  lo * Z.of_nat (length zs) <= foldr Z.add 0 zs <= hi * Z.of_nat (length zs).
Proof.
  induction 1 as [| z zs Hz _ IH]; cbn [foldr length]; [lia |].
  rewrite Nat2Z.inj_succ. lia.
Qed.

Section Doubles.
Variable rnd : Q -> Q.
Hypothesis Hrnd : Spec.rounds_like_doubles rnd.

Lemma rnd_proper (x y : Q) : (x == y)%Q -> (rnd x == rnd y)%Q.
Proof.
  intros E. destruct Hrnd as [Hmono _].
  apply Qle_antisym; apply Hmono; rewrite E; apply Qle_refl.
Qed.

Lemma rnd_whole (x : Q) (z : Z) :
  (x == inject_Z z)%Q -> Z.abs z <= 2 ^ 53 -> (rnd x == inject_Z z)%Q.
Proof.
  intros E Hz. rewrite (rnd_proper _ _ E). destruct Hrnd as [_ Hexact]. apply Hexact, Hz.
Qed.

(** While the partial sums stay within 2^53 each rounded sum is the exact
    one. *)
Lemma fold_add_whole (zs : list Z) (bound : Z) (a : Q) (acc : Z) :
  (a == inject_Z acc)%Q ->
  Forall (fun z => Z.abs z <= bound) zs ->
  Z.abs acc + Z.of_nat (length zs) * bound <= 2 ^ 53 ->
  exists total : Q,
    foldl (fun x b => rounded rnd (add x (ToNumber b))) (Fin a) (map number (map inject_Z zs))
    = Fin total /\
    (total == inject_Z (acc + foldr Z.add 0 zs)%Z)%Q.
Proof.
  revert a acc. induction zs as [| z zs IH]; intros a acc Ha Hall Hsum.
  - exists a. split; [reflexivity |]. cbn [foldr]. rewrite Z.add_0_r. exact Ha.
  - apply Forall_cons in Hall. destruct Hall as [Hz Hall].
    cbn [length] in Hsum. rewrite Nat2Z.inj_succ, Z.mul_succ_l in Hsum.
    assert (Hrest : 0 <= Z.of_nat (length zs) * bound)
      by (apply Z.mul_nonneg_nonneg; lia).
    cbn [map foldl ToNumber add lift2 rounded].
    destruct (IH (rnd (a + inject_Z z)) (acc + z)) as (total & Htotal & Hval).
    + apply rnd_whole; [rewrite Ha, inject_Z_plus; reflexivity | lia].
    + exact Hall.
    + lia.
    + exists total. split; [exact Htotal |].
      cbn [foldr]. rewrite Hval. rewrite Z.add_assoc. reflexivity.
Qed.

End Doubles.

Lemma Qle_bool_eq_l (x y c : Q) : (x == y)%Q -> Qle_bool x c = Qle_bool y c.
Proof.
  intros E. apply eq_true_iff_eq. rewrite !Qle_bool_iff, E. reflexivity.
Qed.

(** The sample rounding keeps the order and the whole numbers. *)
Lemma to_1024ths_rounds : Spec.rounds_like_doubles Spec.to_1024ths.
Proof.
  split.
  - intros x y Hxy. unfold Spec.to_1024ths, Qdiv.
    apply Qmult_le_compat_r; [| unfold Qle; simpl; lia].
    rewrite <- Zle_Qle. apply Qfloor_resp_le. lra.
  - intros z _. unfold Spec.to_1024ths.
    assert (E : Qfloor (inject_Z z * 1024 + (1 # 2)) = z * 1024).
    { unfold Qfloor, Qplus, Qmult, inject_Z. cbn [Qnum Qden].
      Z.div_mod_to_equations. lia. }
    rewrite E, inject_Z_mult. change (inject_Z 1024) with 1024%Q. field.
Qed.

End MoreEnsemble.

(** X19: the statistics of an ensemble.  For the values that the members of an
    ensemble give for an hour, from which missing values are dropped, and
    which are whole numbers small enough for their sums to be exact in
    doubles, minimum, mean and maximum are numbers with
    min <= mean <= max under any rounding that behaves like that of
    doubles, and the confidence is low, medium or high as the spread
    max - min is above 30, above 15, or neither. *)
Theorem X19_ensemble_statistics_ordered (rnd : Q -> Q) (bound : Z)
    (first : list value) (rest : list (list value)) (index : nat) :
  let values := Weather._getEnsembleValues (Some (Weather.Members first rest)) index in
  Spec.rounds_like_doubles rnd ->
  Forall (Spec.whole_within bound) values ->
  Z.of_nat (length values) * bound <= 2 ^ 53 ->
  exists lo mean hi : Q,
    Weather._calculateMin values = Fin lo /\
    Weather._calculateMean rnd values = Fin mean /\
    Weather._calculateMax values = Fin hi /\
    (lo <= mean)%Q /\ (mean <= hi)%Q /\
    Weather._getConfidence rnd values
    = (if Qltb 30 (hi - lo) then "low" else if Qltb 15 (hi - lo) then "medium" else "high")%string.
Proof.
  intros values Hrnd Hwhole Hsize. subst values.
  destruct (ensemble_values_numbers first rest index) as [qs Hqs].
  rewrite Hqs in *. clear Hqs.
  destruct (whole_values bound qs Hwhole) as (zs & -> & Hzs). clear Hwhole.
  rewrite !length_map in Hsize.
  destruct zs as [| z zs].
  - exists 0%Q, 0%Q, 0%Q. repeat split; reflexivity || lra.
  - unfold Weather._getConfidence, Weather._calculateMin, Weather._calculateMax,
      Weather._calculateMean.
    cbn [map ToNumber]. rewrite fold_min_whole, fold_max_whole.
    destruct (foldl_min_spec zs z) as (Hlo & Hlos & Hlo_in).
    destruct (foldl_max_spec zs z) as (Hhi & His & Hhi_in).
    set (zl := foldl Z.min z zs) in *. set (zh := foldl Z.max z zs) in *.
    assert (Hbound : 0 <= bound).
    { apply Forall_cons in Hzs. destruct Hzs as [Hz _]. lia. }
    assert (Hn : 1 <= Z.of_nat (length (z :: zs))) by (cbn [length]; lia).
    assert (Hzl : Z.abs zl <= bound).
    { eapply Forall_forall in Hzs; [exact Hzs | apply list_elem_of_In, Hlo_in]. }
    assert (Hzh : Z.abs zh <= bound).
    { eapply Forall_forall in Hzs; [exact Hzs | apply list_elem_of_In, Hhi_in]. }
    assert (Hall : Forall (fun x => zl <= x <= zh) (z :: zs)).
    { constructor; [lia |]. apply Forall_forall. intros x Hx.
      eapply Forall_forall in Hlos; [| exact Hx]. eapply Forall_forall in His; [| exact Hx].
      simpl in Hlos, His. lia. }
    pose proof (sum_between (z :: zs) zl zh Hall) as Hsum.
    destruct (fold_add_whole rnd Hrnd (z :: zs) bound 0 0) as (total & Htotal & Hval).
    { reflexivity. }
    { exact Hzs. }
    { change (Z.abs 0) with 0. lia. }
    change (map number (map inject_Z (z :: zs)))
      with (number (inject_Z z) :: map number (map inject_Z zs)) in Htotal.
    rewrite Htotal. rewrite Z.add_0_l in Hval.
    assert (Hlen : length (number (inject_Z z) :: map number (map inject_Z zs))
                   = length (z :: zs)) by (cbn [length]; rewrite !length_map; reflexivity).
    rewrite Hlen.
    set (n := Z.of_nat (length (z :: zs))) in *.
    set (sum := foldr Z.add 0 (z :: zs)) in *.
    assert (Hpos : (0 < inject_Z n)%Q)
      by (change 0%Q with (inject_Z 0); rewrite <- Zlt_Qlt; lia).
    unfold div. destruct (Qeq_bool (inject_Z n) 0) eqn:Ez.
    { apply Qeq_bool_iff in Ez. rewrite Ez in Hpos. exfalso. revert Hpos. apply Qlt_irrefl. }
    cbn [Weather.rounded].
    assert (Hlimit : bound <= 2 ^ 53) by nia.
    assert (Hmean_lo : (inject_Z zl <= total / inject_Z n)%Q).
    { apply Qle_shift_div_l; [exact Hpos |].
      rewrite Hval, <- inject_Z_mult, <- Zle_Qle. lia. }
    assert (Hmean_hi : (total / inject_Z n <= inject_Z zh)%Q).
    { apply Qle_shift_div_r; [exact Hpos |].
      rewrite Hval, <- inject_Z_mult, <- Zle_Qle. lia. }
    destruct Hrnd as [Hmono Hexact].
    exists (inject_Z zl), (rnd (total / inject_Z n)%Q), (inject_Z zh).
    split; [reflexivity |]. split; [reflexivity |]. split; [reflexivity |].
    split; [| split].
    + rewrite <- (Hexact zl) by lia. apply Hmono, Hmean_lo.
    + rewrite <- (Hexact zh) by lia. apply Hmono, Hmean_hi.
    + destruct (length (z :: zs) <=? 1)%nat eqn:Elen.
      * apply Nat.leb_le in Elen. destruct zs as [| z' zs']; [| cbn [length] in Elen; lia].
        subst zl zh. cbn [foldl]. unfold Qltb.
        destruct (Qle_bool (inject_Z z - inject_Z z) 30) eqn:E30; [| qorder; lra].
        destruct (Qle_bool (inject_Z z - inject_Z z) 15) eqn:E15; [| qorder; lra].
        reflexivity.
      * apply Nat.leb_gt in Elen.
        assert (Hspread : (rnd (inject_Z zh - inject_Z zl) == inject_Z zh - inject_Z zl)%Q).
        { assert (E : (inject_Z zh - inject_Z zl == inject_Z (zh - zl)%Z)%Q).
          { unfold Z.sub, Qminus. rewrite inject_Z_plus, inject_Z_opp. reflexivity. }
          rewrite (rnd_proper rnd (conj Hmono Hexact) _ _ E), E. apply Hexact.
          subst n. nia. }
        cbn [sub lift2 Weather.rounded gt lt cmp]. unfold Qltb.
        rewrite !(Qle_bool_eq_l _ _ _ Hspread). reflexivity.
Qed.

(** Three members of whole percentages, rounded to ten binary places. *)
Lemma X19_ensemble_statistics_ordered_witness :
  Spec.rounds_like_doubles Spec.to_1024ths /\
  Forall (Spec.whole_within 100)
         (Weather._getEnsembleValues
            (Some (Weather.Members Spec.cloud_first Spec.cloud_rest)) 0) /\
  Z.of_nat (length (Weather._getEnsembleValues
                      (Some (Weather.Members Spec.cloud_first Spec.cloud_rest)) 0)) * 100
  <= 2 ^ 53 /\
  exists lo mean hi : Q,
    Weather._calculateMin
      (Weather._getEnsembleValues (Some (Weather.Members Spec.cloud_first Spec.cloud_rest)) 0)
    = Fin lo /\
    Weather._calculateMean Spec.to_1024ths
      (Weather._getEnsembleValues (Some (Weather.Members Spec.cloud_first Spec.cloud_rest)) 0)
    = Fin mean /\
    Weather._calculateMax
      (Weather._getEnsembleValues (Some (Weather.Members Spec.cloud_first Spec.cloud_rest)) 0)
    = Fin hi /\
    (lo <= mean)%Q /\ (mean <= hi)%Q /\
    Weather._getConfidence Spec.to_1024ths
      (Weather._getEnsembleValues (Some (Weather.Members Spec.cloud_first Spec.cloud_rest)) 0)
    = (if Qltb 30 (hi - lo) then "low" else if Qltb 15 (hi - lo) then "medium" else "high")%string.
Proof.
  assert (Hwhole : Forall (Spec.whole_within 100)
                     (Weather._getEnsembleValues
                        (Some (Weather.Members Spec.cloud_first Spec.cloud_rest)) 0)).
  { repeat constructor.
    - exists 20. split; [reflexivity | vm_compute; discriminate].
    - exists 35. split; [reflexivity | vm_compute; discriminate].
    - exists 25. split; [reflexivity | vm_compute; discriminate]. }
  assert (Hsize : Z.of_nat (length (Weather._getEnsembleValues
                      (Some (Weather.Members Spec.cloud_first Spec.cloud_rest)) 0)) * 100
                  <= 2 ^ 53) by (vm_compute; discriminate).
  split; [exact to_1024ths_rounds |]. split; [exact Hwhole |]. split; [exact Hsize |].
  exact (X19_ensemble_statistics_ordered Spec.to_1024ths 100 Spec.cloud_first Spec.cloud_rest 0
           to_1024ths_rounds Hwhole Hsize).
Defined.

(** The sample ensemble: the first hour has the values 20, 35 and 25, whose
    mean 80/3 is rounded to 27307/1024; the second hour has two values. *)
Example ensemble_statistics_sample :
  Weather._getEnsembleValues (Some (Weather.Members Spec.cloud_first Spec.cloud_rest)) 0
  = [number 20; number 35; number 25] /\
  Weather._calculateMin [number 20; number 35; number 25] = Fin 20 /\
  Weather._calculateMax [number 20; number 35; number 25] = Fin 35 /\
  (exists mean, Weather._calculateMean Spec.to_1024ths [number 20; number 35; number 25]
                = Fin mean /\ (mean == 27307 # 1024)%Q) /\
  Weather._getConfidence Spec.to_1024ths [number 20; number 35; number 25] = "high"%string /\
  Weather._getEnsembleValues (Some (Weather.Members Spec.cloud_first Spec.cloud_rest)) 1
  = [number 80; number 40] /\
  Weather._getConfidence Spec.to_1024ths [number 80; number 40] = "low"%string.
Proof.
  split; [reflexivity |]. split; [reflexivity |]. split; [reflexivity |].
  split; [eexists; split; [vm_compute; reflexivity | reflexivity] |].
  split; [vm_compute; reflexivity |]. split; [reflexivity |]. vm_compute. reflexivity.
Qed.

(* ===================================================================== *)
(** * More on the forecast *)
(* ===================================================================== *)

Section MoreCurrentHour.
Import Data App Spec.

Lemma findCurrentHourIndex_from_spec (i : nat) (hourly : list WeatherHour.t) (now : Z) :
  (exists past next later,
     first_upcoming now hourly past next later /\
     findCurrentHourIndex_from i hourly now = Nat.pred (i + length past)) \/
  (Forall (fun h => WeatherHour.timestamp h < now) hourly /\
   findCurrentHourIndex_from i hourly now = 0%nat).
Proof.
  revert i. induction hourly as [| h hourly IH]; intros i; simpl.
  - right. split; [constructor | reflexivity].
  - destruct (Z.leb_spec now (WeatherHour.timestamp h)) as [Hle | Hlt].
    + left. exists [], h, hourly. split; [split; [reflexivity | split; [constructor | exact Hle]] |].
      simpl. lia.
    + destruct (IH (S i)) as [(past & next & later & (-> & Hpast & Hnext) & ->) | [Hall ->]].
      * left. exists (h :: past), next, later.
        split; [split; [reflexivity | split; [constructor; assumption | exact Hnext]] |].
        simpl. f_equal. lia.
      * right. split; [constructor; assumption | reflexivity].
Qed.

Lemma current_hour_index_aux (hourly : list WeatherHour.t) (now : Z) :
  hourly = [] \/ (findCurrentHourIndex hourly now < length hourly)%nat.
Proof.
  unfold findCurrentHourIndex.
  destruct (findCurrentHourIndex_from_spec 0 hourly now)
    as [(past & next & later & Hsplit & Hidx) | [Hall Hidx]].
  - right. rewrite Hidx. destruct Hsplit as (-> & _ & _). rewrite length_app. simpl. lia.
  - destruct hourly as [| h hourly]; [left; reflexivity | right; rewrite Hidx; simpl; lia].
Qed.

End MoreCurrentHour.

(** X20: the current hour.  [findCurrentHourIndex] returns the index of the
    hour before the first hour that is not before now, or 0 if that first
    hour opens the series; when every hour of the series is before now it
    returns 0, the oldest hour.  The index is inside every series that is
    not empty. *)
Theorem X20_current_hour_index (hourly : list Data.WeatherHour.t) (now : Z) :
  Spec.current_index now hourly (App.findCurrentHourIndex hourly now) /\
  (hourly = [] \/ (App.findCurrentHourIndex hourly now < length hourly)%nat).
Proof.
  split; [| apply current_hour_index_aux].
  unfold Spec.current_index, App.findCurrentHourIndex.
  destruct (findCurrentHourIndex_from_spec 0 hourly now)
    as [(past & next & later & Hsplit & Hidx) | [Hall Hidx]].
  - left. exists past, next, later. split; [exact Hsplit | exact Hidx].
  - right. split; [exact Hall | exact Hidx].
Qed.

(** X21: [processWeatherData] throws exactly when the weather data hold no
    hour.  Otherwise the conditions it stores are those of the hour
    [findCurrentHourIndex] points at (the fallback on the first hour is
    never taken), the score is the score of these conditions under the
    mode of the state, and the forecast is the one [buildForecastData]
    makes. *)
Theorem X21_process_weather_current_hour (zone : Date.TimeZone)
    (weatherData : Data.WeatherData.t) (astroData : option Data.AstroData.t)
    (astronomicalData : option Data.AstronomicalData.t) (now : Z) (state : App.State.t) :
  match Data.WeatherData.hourly weatherData with
  | [] =>
      App.processWeatherData (Some weatherData) astroData astronomicalData now state
      = Throw (TypeError "Cannot read properties of undefined")
  | _ :: _ =>
      exists state' c h,
        App.processWeatherData (Some weatherData) astroData astronomicalData now state
        = Normal state' /\
        Data.WeatherData.hourly weatherData
          !! App.findCurrentHourIndex (Data.WeatherData.hourly weatherData) now = Some h /\
        App.State.conditions state' = Some c /\
        Score.Conditions.timestamp c = Some (Data.WeatherHour.timestamp h) /\
        Score.Conditions.cloudCover c = Data.WeatherHour.cloudCover h /\
        Score.Conditions.humidity c = Data.WeatherHour.humidity h /\
        Score.Conditions.isMoonUp c = App.isMoonUp now /\
        App.State.score state'
        = Some (Score.calculateScore c (App.State.photographyMode state)) /\
        App.State.forecast state'
        = App.buildForecastData weatherData astroData astronomicalData
                                (App.State.photographyMode state) /\
        App.State.photographyMode state' = App.State.photographyMode state
  end.
Proof.
  unfold App.processWeatherData.
  destruct (current_hour_index_aux (Data.WeatherData.hourly weatherData) now) as [Hnil | Hlt].
  - rewrite Hnil. reflexivity.
  - destruct (Data.WeatherData.hourly weatherData) as [| h0 rest] eqn:Hh; [simpl in Hlt; lia |].
    destruct (lookup_lt_is_Some_2 _ _ Hlt) as [h Hcur]. rewrite Hcur. simpl.
    do 3 eexists. split; [reflexivity |]. split; [reflexivity |].
    simpl. repeat split; reflexivity.
Qed.


Section MoreBestHour.
Import Data App Spec.

(** The loop of [findBestHour] from a best so far. *)
Lemma best_from (l : list HourlyScore.t) (b : HourlyScore.t) :
  (exists q, HourlyScore.score b = Fin q) -> scored l ->
  let r := foldl (fun best h => if gt (HourlyScore.score h) (HourlyScore.score best)
                                then h else best) b l in
  (r = b /\ Forall (fun h => num_le (HourlyScore.score h) (HourlyScore.score b)) l) \/
  (exists before after,
     l = before ++ r :: after /\
     num_lt (HourlyScore.score b) (HourlyScore.score r) /\
     Forall (fun h => num_lt (HourlyScore.score h) (HourlyScore.score r)) before /\
     Forall (fun h => num_le (HourlyScore.score h) (HourlyScore.score r)) after).
Proof.
  revert b. induction l as [| x l IH]; intros b [qb Hb] Hl; cbn [foldl].
  - left. split; [reflexivity | constructor].
  - apply Forall_cons in Hl. destruct Hl as [[qx Hx] Hl].
    destruct (gt (HourlyScore.score x) (HourlyScore.score b)) eqn:Hcmp;
      rewrite Hx, Hb in Hcmp; unfold gt, lt, cmp, Qltb in Hcmp.
    + apply negb_true_iff in Hcmp. qorder.
      destruct (IH x (ex_intro _ qx Hx) Hl) as [[Hr Hall] | (bf & af & Heq & Hlt & Hbf & Haf)].
      * right. exists [], l. cbn zeta in Hr. rewrite Hr.
        split; [reflexivity |]. split; [rewrite Hb, Hx; exact Hcmp |].
        split; [constructor | exact Hall].
      * right. exists (x :: bf), af. split; [rewrite Heq at 1; reflexivity |].
        rewrite Hx in Hlt. rewrite Hb.
        destruct (HourlyScore.score (foldl _ x l)) as [| qr]; [contradiction |]. simpl in Hlt.
        split; [simpl; lra |]. split; [| exact Haf].
        constructor; [rewrite Hx; exact Hlt | exact Hbf].
    + apply negb_false_iff in Hcmp. qorder.
      destruct (IH b (ex_intro _ qb Hb) Hl) as [[Hr Hall] | (bf & af & Heq & Hlt & Hbf & Haf)].
      * left. split; [exact Hr |]. constructor; [rewrite Hx, Hb; exact Hcmp | exact Hall].
      * right. exists (x :: bf), af. split; [rewrite Heq at 1; reflexivity |].
        split; [exact Hlt |]. split; [| exact Haf].
        constructor; [| exact Hbf].
        rewrite Hb in Hlt. rewrite Hx.
        destruct (HourlyScore.score (foldl _ b l)) as [| qr]; [contradiction |].
        simpl in Hlt |- *. lra.
Qed.

(** [findBestHour] on scores that are numbers. *)
Lemma best_hour_first_max (hourlyScores : list HourlyScore.t) :
  scored hourlyScores -> first_best hourlyScores (findBestHour hourlyScores).
Proof.
  intros Hall. unfold first_best, findBestHour.
  destruct hourlyScores as [| first rest]; [reflexivity |].
  pose proof Hall as Hall'. apply Forall_cons in Hall'. destruct Hall' as [[q Hq] Hrest].
  destruct (best_from (first :: rest) first (ex_intro _ q Hq) Hall)
    as [[Hr Hle] | (bf & af & Heq & Hlt & Hbf & Haf)].
  - cbn zeta in Hr. rewrite Hr. exists first, [], rest.
    split; [reflexivity |]. split; [reflexivity |]. split; [constructor |].
    apply Forall_cons in Hle. apply Hle.
  - cbn zeta in Heq, Hlt, Hbf, Haf.
    eexists _, bf, af. split; [reflexivity |]. split; [exact Heq |]. split; assumption.
Qed.

End MoreBestHour.

(** X22: the best hour of a day.  For hourly scores that are all numbers,
    [findBestHour] returns the time stamp of the first record with the
    highest score: every record before it scores strictly lower, none
    after it scores higher.  For no records it returns nothing. *)
Theorem X22_best_hour_first_maximum (hourlyScores : list App.HourlyScore.t) :
  Spec.scored hourlyScores -> Spec.first_best hourlyScores (App.findBestHour hourlyScores).
Proof.
  intros Hscored. unfold Spec.first_best, App.findBestHour.
  destruct hourlyScores as [| first rest]; [reflexivity |].
  assert (Hfirst : exists q, App.HourlyScore.score first = Fin q).
  { apply Forall_cons in Hscored. apply Hscored. }
  destruct (best_from (first :: rest) first Hfirst Hscored)
    as [[Hsame Hle] | (before & after & Hsplit & _ & Hbefore & Hafter)].
  - cbn zeta in Hsame. rewrite Hsame. exists first, [], rest.
    split; [reflexivity |]. split; [reflexivity |]. split; [constructor |].
    apply Forall_cons in Hle. apply Hle.
  - cbn zeta in Hsplit, Hbefore, Hafter.
    eexists _, before, after.
    split; [reflexivity |]. split; [exact Hsplit |]. split; assumption.
Qed.

Lemma X22_best_hour_first_maximum_witness :
  Spec.scored Spec.hourly_sample /\
  Spec.first_best Spec.hourly_sample (App.findBestHour Spec.hourly_sample) /\
  App.findBestHour Spec.hourly_sample = Some 200.
Proof.
  assert (H : Spec.scored Spec.hourly_sample).
  { unfold Spec.scored, Spec.hourly_sample. repeat (constructor; [eexists; reflexivity |]).
    constructor. }
  split; [exact H |]. split; [exact (X22_best_hour_first_maximum Spec.hourly_sample H) |].
  reflexivity.
Defined.


Section MoreGrouping.
Import Data App Spec.
Context `{Date.TimeZone}.

Implicit Types (g : list (string * list WeatherHour.t)) (h : WeatherHour.t) (k : string).

Lemma keys_push_group_In k k' h g :
  In k' (map fst (push_group k h g)) <-> k' = k \/ In k' (map fst g).
Proof.
  destruct (keys_push_group k h g) as [[Hin ->] | [Hnin ->]].
  - split; [auto | intros [-> | Hk']; assumption].
  - rewrite in_app_iff. simpl. split; [intros [Hk' | [<- | []]]; auto | intros [-> | Hk']; auto].
Qed.

Lemma keys_push_group_NoDup k h g :
  NoDup (map fst g) -> NoDup (map fst (push_group k h g)).
Proof.
  intros Hnd. destruct (keys_push_group k h g) as [[Hin ->] | [Hnin ->]]; [exact Hnd |].
  apply NoDup_app. split; [exact Hnd |]. split.
  - intros x Hx Hx'. apply list_elem_of_In in Hx. apply list_elem_of_singleton in Hx'.
    subst x. contradiction.
  - apply NoDup_singleton.
Qed.

(** The keys of the groups: without repetition, and the date keys of the
    hours that were grouped, on top of those there were. *)
Lemma group_keys (hourly : list WeatherHour.t) g :
  let groups :=
    foldl (fun dailyGroups hour => push_group (dateKey (WeatherHour.timestamp hour)) hour dailyGroups)
          g hourly in
  (NoDup (map fst g) -> NoDup (map fst groups)) /\
  (forall k, In k (map fst groups)
             <-> In k (map fst g) \/ In k (map (fun h => dateKey (WeatherHour.timestamp h)) hourly)).
Proof.
  revert g. induction hourly as [| h hourly IH]; intros g; simpl.
  - split; [trivial |]. intros k. tauto.
  - destruct (IH (push_group (dateKey (WeatherHour.timestamp h)) h g)) as [Hnd Hkeys].
    split.
    + intros Hg. apply Hnd, keys_push_group_NoDup, Hg.
    + intros k. rewrite Hkeys, keys_push_group_In. intuition.
Qed.

Lemma lookup_group_In k (hs : list WeatherHour.t) g :
  NoDup (map fst g) -> In (k, hs) g -> lookup_group k g = hs.
Proof.
  induction g as [| [k0 hs0] g IH]; simpl; [tauto |].
  intros Hnd Hin. apply NoDup_cons in Hnd. destruct Hnd as [Hk0 Hnd].
  destruct Hin as [[= -> ->] | Hin].
  - rewrite String.eqb_refl. reflexivity.
  - destruct (String.eqb_spec k0 k) as [-> | Hne]; [| apply IH; assumption].
    exfalso. apply Hk0. apply list_elem_of_In. apply (in_map fst) in Hin. exact Hin.
Qed.

Lemma filter_all {A} (f : A -> bool) (l : list A) :
  Forall (fun x => f x = true) l -> List.filter f l = l.
Proof.
  induction 1 as [| x l Hx _ IH]; simpl; [reflexivity |]. rewrite Hx, IH. reflexivity.
Qed.

Lemma In_imap {A B} (f : nat -> A -> B) (l : list A) (y : B) :
  In y (imap f l) -> exists i x, y = f i x /\ In x l.
Proof.
  intros Hy. apply list_elem_of_In, elem_of_lookup_imap in Hy.
  destruct Hy as (i & x & -> & Hx). exists i, x. split; [reflexivity |].
  apply list_elem_of_In. eapply list_elem_of_lookup_2. exact Hx.
Qed.

(** A day of the forecast is made of one of the keys of the groups. *)
Lemma forecast_day_of (weatherData : WeatherData.t) astroData astronomicalData mode day :
  In day (buildForecastData weatherData astroData astronomicalData mode) ->
  exists i k,
    day = forecast_day (group_by_day (WeatherData.hourly weatherData))
                       astroData astronomicalData mode i k /\
    In k (map fst (group_by_day (WeatherData.hourly weatherData))).
Proof.
  unfold buildForecastData. intros Hday. apply In_imap in Hday.
  destruct Hday as (i & k & -> & Hk). exists i, k. split; [reflexivity |].
  apply list_elem_of_In in Hk. apply list_elem_of_In.
  eapply elem_of_sublist; [exact Hk | apply sublist_take].
Qed.

(** The records of a day: one per night hour of its bucket. *)
Lemma forecast_day_hours dailyGroups astroData astronomicalData mode (i : nat) k :
  map HourlyScore.timestamp
      (DayForecast.hourlyScores (forecast_day dailyGroups astroData astronomicalData mode i k))
  = map WeatherHour.timestamp (List.filter isNightHour (lookup_group k dailyGroups)).
Proof.
  unfold forecast_day.
  destruct (List.filter isNightHour (lookup_group k dailyGroups)) as [| h hs]; [reflexivity |].
  cbn [DayForecast.hourlyScores]. rewrite !map_map. reflexivity.
Qed.

End MoreGrouping.

(** X23: the groups of [buildForecastData].  Grouping a series by local date
    gives buckets with pairwise different keys; every hour of the series
    has the key of a bucket; and every bucket holds, in their order,
    exactly the hours of the series with its key, at least one.  No hour
    is lost and none is counted twice. *)
Theorem X23_groups_partition_the_hours (zone : Date.TimeZone) (hourly : list Data.WeatherHour.t) :
  NoDup (map fst (App.group_by_day hourly)) /\
  Forall (fun h => In (App.dateKey (Data.WeatherHour.timestamp h))
                      (map fst (App.group_by_day hourly))) hourly /\
  Forall (Spec.bucket_of hourly) (App.group_by_day hourly).
Proof.
  destruct (group_keys hourly []) as [Hnd Hkeys]. fold (App.group_by_day hourly) in Hnd, Hkeys.
  assert (Hnd' : NoDup (map fst (App.group_by_day hourly))) by (apply Hnd; constructor).
  split; [exact Hnd' |]. split.
  - apply Forall_forall. intros h Hh. apply Hkeys. right.
    apply (in_map (fun h => App.dateKey (Data.WeatherHour.timestamp h))).
    apply list_elem_of_In. exact Hh.
  - apply Forall_forall. intros [k hs] Hin. apply list_elem_of_In in Hin.
    assert (Hhs : hs = List.filter
                         (fun h => String.eqb (App.dateKey (Data.WeatherHour.timestamp h)) k)
                         hourly).
    { rewrite <- lookup_group_by_day. symmetry. apply lookup_group_In; assumption. }
    split; [| exact Hhs]. simpl.
    assert (Hk : In k (map fst (App.group_by_day hourly))) by (apply (in_map fst) in Hin; exact Hin).
    apply Hkeys in Hk. destruct Hk as [[] | Hk].
    apply in_map_iff in Hk. destruct Hk as (h & Hkey & Hh).
    intros Hnil. rewrite Hhs in Hnil.
    assert (Hin' : In h (List.filter
                           (fun h => String.eqb (App.dateKey (Data.WeatherHour.timestamp h)) k)
                           hourly)).
    { apply filter_In. split; [exact Hh |]. rewrite Hkey. apply String.eqb_refl. }
    rewrite Hnil in Hin'. destruct Hin'.
Qed.

(** X24: the hourly scores of a day of the forecast are those of the night
    hours (local hour at least 18 or at most 6) of that local date, one
    per hour and in the order of the series; and the filter of the hourly
    chart, which applies the same rule again, drops none of them. *)
Theorem X24_forecast_hours_are_night_hours (zone : Date.TimeZone)
    (weatherData : Data.WeatherData.t) (astroData : option Data.AstroData.t)
    (astronomicalData : option Data.AstronomicalData.t) (mode : option string)
    (day : App.DayForecast.t) :
  In day (App.buildForecastData weatherData astroData astronomicalData mode) ->
  map App.HourlyScore.timestamp (App.DayForecast.hourlyScores day)
  = map Data.WeatherHour.timestamp
        (Spec.night_hours_of (Data.WeatherData.hourly weatherData) (App.DayForecast.date day)) /\
  HourlyChart.filterNightHours (App.DayForecast.hourlyScores day)
  = App.DayForecast.hourlyScores day.
Proof.
  intros Hday. apply forecast_day_of in Hday. destruct Hday as (i & k & -> & _).
  rewrite forecast_day_date.
  assert (Hts : map App.HourlyScore.timestamp
                    (App.DayForecast.hourlyScores
                       (App.forecast_day (App.group_by_day (Data.WeatherData.hourly weatherData))
                                         astroData astronomicalData mode i k))
                = map Data.WeatherHour.timestamp
                      (Spec.night_hours_of (Data.WeatherData.hourly weatherData) k)).
  { rewrite forecast_day_hours, lookup_group_by_day. reflexivity. }
  split; [exact Hts |].
  unfold HourlyChart.filterNightHours. apply filter_all.
  set (scores := App.DayForecast.hourlyScores _) in *.
  assert (Hall : Forall (fun t => (18 <=? Date.getHours t) || (Date.getHours t <=? 6) = true)
                        (map App.HourlyScore.timestamp scores)).
  { rewrite Hts. unfold Spec.night_hours_of. apply Forall_forall. intros t Ht.
    apply list_elem_of_In, in_map_iff in Ht. destruct Ht as (h & <- & Hh).
    apply filter_In in Hh. destruct Hh as [_ Hnight]. exact Hnight. }
  clear Hts. induction scores as [| s scores IH]; [constructor |].
  simpl in Hall. apply Forall_cons in Hall. destruct Hall as [Hs Hall].
  constructor; [exact Hs | apply IH, Hall].
Qed.

Lemma X24_forecast_hours_are_night_hours_witness :
  In Spec.week_first_day
     (App.buildForecastData (H := Date.fixedOffset 60) Spec.week_weather None None None) /\
  map App.HourlyScore.timestamp (App.DayForecast.hourlyScores Spec.week_first_day)
  = map Data.WeatherHour.timestamp
        (Spec.night_hours_of (H := Date.fixedOffset 60)
           (Data.WeatherData.hourly Spec.week_weather)
           (App.DayForecast.date Spec.week_first_day)) /\
  HourlyChart.filterNightHours (H := Date.fixedOffset 60)
    (App.DayForecast.hourlyScores Spec.week_first_day)
  = App.DayForecast.hourlyScores Spec.week_first_day.
Proof.
  assert (Hin : In Spec.week_first_day
                   (App.buildForecastData (H := Date.fixedOffset 60) Spec.week_weather
                                          None None None)) by (vm_compute; left; reflexivity).
  split; [exact Hin |].
  exact (X24_forecast_hours_are_night_hours (Date.fixedOffset 60) Spec.week_weather
           None None None Spec.week_first_day Hin).
Defined.


Section MoreForecastScores.
Import Data Score App Spec.

(** The aligner returns an entry of the series. *)
Lemma findMatchingAstroData_In (astroData : AstroData.t) (targetTime : Z) (a : AstroHour.t) :
  findMatchingAstroData (Some astroData) targetTime = Some a -> In a (AstroData.hourly astroData).
Proof.
  unfold findMatchingAstroData. destruct (AstroData.hourly astroData) as [| first rest]; [discriminate |].
  intros [= <-].
  assert (Hgen : forall l c m, In (foldl (closer targetTime) (c, m) l).1 (c :: l)).
  { induction l as [| x l IH]; intros c m; simpl; [left; reflexivity |].
    destruct (App.below _ m).
    - destruct (IH x (Some (Math.abs (AstroHour.timestamp x - targetTime)))) as [Heq | Hin];
        [right; left; exact Heq | right; right; exact Hin].
    - destruct (IH c m) as [Heq | Hin]; [left; exact Heq | right; right; exact Hin]. }
  destruct (Hgen (first :: rest) first None) as [Heq | Hin]; [left; exact Heq | exact Hin].
Qed.

Lemma or_rating (v : value) : rating v -> or v (number 3) = v /\ nonnegative v.
Proof.
  intros (r & -> & Hr). unfold or, truthy.
  assert (Hnz : Qeq_bool (inject_Z r) 0 = false).
  { destruct (Qeq_bool (inject_Z r) 0) eqn:E; [| reflexivity]. qorder.
    unfold Qeq in E. simpl in E. lia. }
  rewrite Hnz. split; [reflexivity |]. simpl.
  change 0%Q with (inject_Z 0). rewrite <- Zle_Qle. lia.
Qed.

Lemma or_percentage (v : value) (q : Q) :
  percentage v -> (0 <= q <= 100)%Q -> percentage (or v (number q)).
Proof.
  intros Hv Hq. unfold or. destruct (truthy v); [exact Hv | exact Hq].
Qed.

(** The sum of scores that are within bounds. *)
Lemma sum_within (scores : list num) (acc : Q) :
  Forall (within 0 100) scores ->
  exists total,
    foldl add (Fin acc) scores = Fin total /\
    (acc <= total)%Q /\ (total <= acc + 100 * inject_Z (Z.of_nat (length scores)))%Q.
Proof.
  revert acc. induction scores as [| s scores IH]; intros acc Hall.
  - exists acc. split; [reflexivity |].
    change (inject_Z (Z.of_nat (length (@nil num)))) with 0%Q. split; lra.
  - apply Forall_cons in Hall. destruct Hall as [Hs Hall].
    destruct s as [| q]; [contradiction |]. simpl in Hs.
    destruct (IH (acc + q)%Q Hall) as (total & Htotal & Hlo & Hhi).
    exists total. split; [exact Htotal |].
    cbn [length]. rewrite Nat2Z.inj_succ. unfold Z.succ. rewrite inject_Z_plus.
    change (inject_Z 1) with 1%Q. split; lra.
Qed.

Lemma whole_within (n : num) : whole_score n -> within 0 100 n.
Proof.
  intros (z & -> & Hz). simpl.
  change 0%Q with (inject_Z 0). change 100%Q with (inject_Z 100).
  rewrite <- !Zle_Qle. exact Hz.
Qed.

(** The mean of whole scores, rounded, is a whole score. *)
Lemma mean_whole (scores : list num) :
  scores <> [] -> Forall whole_score scores ->
  whole_score
    (Math.round (div (foldl add (Fin 0) scores) (Fin (inject_Z (Z.of_nat (length scores)))))).
Proof.
  intros Hne Hall.
  assert (Hall' : Forall (within 0 100) scores).
  { eapply Forall_impl; [exact Hall |]. intros n. apply whole_within. }
  destruct (sum_within scores 0 Hall') as (total & -> & Hlo & Hhi).
  set (n := inject_Z (Z.of_nat (length scores))) in *.
  assert (Hn : (1 <= n)%Q).
  { subst n. destruct scores as [| s scores]; [congruence |].
    cbn [length]. rewrite Nat2Z.inj_succ. unfold Z.succ. rewrite inject_Z_plus.
    change (inject_Z 1) with 1%Q.
    assert ((0 <= inject_Z (Z.of_nat (length scores)))%Q)
      by (change 0%Q with (inject_Z 0); rewrite <- Zle_Qle; lia).
    lra. }
  clearbody n. unfold div. destruct (Qeq_bool n 0) eqn:Ez; [qorder; lra |].
  simpl. eexists. split; [reflexivity |]. apply roundQ_range.
  split; [apply Qle_shift_div_l; lra | apply Qle_shift_div_r; lra].
Qed.

(** The band of an hourly record made of a whole score. *)
Lemma hourly_score_banded (h : WeatherHour.t) (c : Conditions.t) (mode : option string) :
  whole_score (Result.overallScore (calculateScore c mode)) ->
  banded (hourly_score h (calculateScore c mode)).
Proof.
  intros Hs. split; [exact Hs |].
  apply whole_within in Hs. unfold hourly_score.
  cbn [HourlyScore.scoreMin HourlyScore.score HourlyScore.scoreMax].
  destruct (within_finite _ _ _ Hs) as [s Es]. rewrite Es in Hs |- *. simpl in Hs.
  assert (Hu : exists u, Result.scoreUncertainty (calculateScore c mode) = Fin u
                         /\ (0 <= u <= 20)%Q).
  { unfold calculateScore. cbn [Result.scoreUncertainty]. unfold _calculateUncertainty.
    repeat match goal with |- context [gt ?a ?b] => destruct (gt a b) end;
      eexists; (split; [reflexivity | lra]). }
  destruct Hu as (u & -> & Hu).
  unfold Math.max, Math.min, sub, add, lift2.
  do 3 eexists. split; [reflexivity |]. split; [reflexivity |]. split; [reflexivity |].
  qcases; qorder; lra.
Qed.

Context `{Date.TimeZone}.

(** The score of a forecast hour is whole when the feeds are in range. *)
Lemma score_hour_whole astroData moonData mode (h : WeatherHour.t) :
  proper_mode mode -> converted_feed astroData ->
  percentage (MoonPhase.illumination moonData) ->
  whole_score (Result.overallScore (score_hour astroData moonData mode h)).
Proof.
  intros Hmode Hfeed Hmoon. unfold score_hour.
  apply overall_score_whole; [exact Hmode |].
  unfold in_domain. cbn [Conditions.seeing Conditions.transparency Conditions.moonIllumination].
  assert (Hmatch : match findMatchingAstroData astroData (WeatherHour.timestamp h) with
                   | Some a => converted a
                   | None => True
                   end).
  { destruct astroData as [a |]; [| exact I].
    destruct (findMatchingAstroData (Some a) (WeatherHour.timestamp h)) as [e |] eqn:He;
      [| exact I].
    apply findMatchingAstroData_In in He. simpl in Hfeed.
    eapply Forall_forall in Hfeed; [exact Hfeed | apply list_elem_of_In, He]. }
  destruct (findMatchingAstroData astroData (WeatherHour.timestamp h)) as [a |]; simpl.
  - destruct Hmatch as (Hs & Ht & _).
    destruct (or_rating _ Hs) as [-> Hs']. destruct (or_rating _ Ht) as [-> Ht'].
    split; [exact Hs' |]. split; [exact Ht' |]. apply or_percentage; [exact Hmoon | lra].
  - split; [lra |]. split; [lra |]. apply or_percentage; [exact Hmoon | lra].
Qed.

(** A day of the forecast is sound when the feeds are in range. *)
Lemma forecast_day_sound dailyGroups astroData astronomicalData mode (i : nat) (k : string) :
  proper_mode mode -> converted_feed astroData -> moon_percentages astronomicalData ->
  sound_day (forecast_day dailyGroups astroData astronomicalData mode i k).
Proof.
  intros Hmode Hfeed Hmoon. unfold forecast_day.
  set (moonData := default MoonPhase.empty _).
  assert (Hmd : percentage (MoonPhase.illumination moonData)).
  { subst moonData.
    destruct (optional_at AstronomicalData.moonPhases astronomicalData i) as [m |] eqn:Hm;
      [apply (Hmoon i m Hm) | exact I]. }
  destruct (List.filter isNightHour (lookup_group k dailyGroups)) as [| h hs] eqn:Hnight.
  - unfold sound_day. cbn. split; [exists 50; split; [reflexivity | lia] |].
    split; [constructor |]. split; [reflexivity |]. split; reflexivity.
  - set (nightHours := h :: hs).
    set (results := map (fun h => (h, score_hour astroData moonData mode h)) nightHours).
    unfold sound_day.
    cbn [DayForecast.overallScore DayForecast.hourlyScores DayForecast.scoreRating
         DayForecast.bestHour].
    assert (Hwhole : Forall (fun hr => whole_score (Result.overallScore hr.2)) results).
    { subst results. apply Forall_forall. intros hr Hhr.
      apply list_elem_of_In, in_map_iff in Hhr. destruct Hhr as (h' & <- & _).
      apply score_hour_whole; assumption. }
    assert (Hbanded : Forall banded (map (fun hr => hourly_score hr.1 hr.2) results)).
    { subst results. apply Forall_forall. intros s Hs.
      apply list_elem_of_In, in_map_iff in Hs. destruct Hs as (hr & <- & Hhr).
      apply in_map_iff in Hhr. destruct Hhr as (h' & <- & _).
      apply hourly_score_banded, score_hour_whole; assumption. }
    split.
    { apply mean_whole; [subst results nightHours; discriminate |].
      apply Forall_forall. intros n Hn. apply list_elem_of_In, in_map_iff in Hn.
      destruct Hn as (hr & <- & Hhr).
      eapply Forall_forall in Hwhole; [exact Hwhole | apply list_elem_of_In, Hhr]. }
    split; [exact Hbanded |]. split; [reflexivity |].
    split; [symmetry; apply rating_ladders_agree |].
    apply best_hour_first_max.
    eapply Forall_impl; [exact Hbanded |]. intros s [(z & Hz & _) _]. eauto.
Qed.

End MoreForecastScores.


(** X25: every day of the forecast is sound when the feeds are in range.  For a
    proper mode, a seeing feed whose entries are converted (as
    [_processAstroData] makes them) or no seeing feed at all, and moon
    illuminations that are percentages, every day of the forecast has a
    whole overall score from 0 to 100 with the rating of that score,
    hourly scores that are whole with 0 <= scoreMin <= score <= scoreMax
    <= 100, and as best hour the first hour with the highest score. *)
Theorem X25_forecast_days_sound (zone : Date.TimeZone)
    (weatherData : Data.WeatherData.t) (astroData : option Data.AstroData.t)
    (astronomicalData : option Data.AstronomicalData.t) (mode : option string)
    (day : App.DayForecast.t) :
  Spec.proper_mode mode -> Spec.converted_feed astroData ->
  Spec.moon_percentages astronomicalData ->
  In day (App.buildForecastData weatherData astroData astronomicalData mode) ->
  Spec.sound_day day.
Proof.
  intros Hmode Hfeed Hmoon Hday. apply forecast_day_of in Hday.
  destruct Hday as (i & k & -> & _). apply forecast_day_sound; assumption.
Qed.

Lemma X25_forecast_days_sound_witness :
  Spec.proper_mode None /\ Spec.converted_feed None /\ Spec.moon_percentages None /\
  In Spec.week_first_day
     (App.buildForecastData (H := Date.fixedOffset 60) Spec.week_weather None None None) /\
  Spec.sound_day Spec.week_first_day.
Proof.
  assert (Hmode : Spec.proper_mode None) by reflexivity.
  assert (Hfeed : Spec.converted_feed None) by exact I.
  assert (Hmoon : Spec.moon_percentages None) by (intros i m Hm; discriminate Hm).
  assert (Hin : In Spec.week_first_day
                   (App.buildForecastData (H := Date.fixedOffset 60) Spec.week_weather
                                          None None None)) by (vm_compute; left; reflexivity).
  split; [exact Hmode |]. split; [exact Hfeed |]. split; [exact Hmoon |]. split; [exact Hin |].
  exact (X25_forecast_days_sound (Date.fixedOffset 60) Spec.week_weather None None None
           Spec.week_first_day Hmode Hfeed Hmoon Hin).
Defined.

(* ===================================================================== *)
(** * The storage service *)
(* ===================================================================== *)

Section MoreStorage.
Import Storage Spec.
Variable quotaExceeded : state -> state -> bool.

Lemma spread_stringify (s : Settings.t) : spread DEFAULT_SETTINGS (JSON_stringify s) = s.
Proof. destruct s. reflexivity. Qed.

Lemma find_none_existsb {A} (f : A -> bool) (l : list A) :
  List.find f l = None <-> existsb f l = false.
Proof.
  induction l as [| x l IH]; simpl; [tauto |].
  destruct (f x); simpl; [split; discriminate | exact IH].
Qed.

Lemma apart_snoc (l : list Favorite.t) (f : Favorite.t) :
  apart l -> existsb (near (Favorite.latitude f) (Favorite.longitude f)) l = false ->
  apart (l ++ [f]).
Proof.
  unfold apart. intros Hl Hf. induction Hl as [| x l Hx Hl IH]; simpl.
  - constructor; constructor.
  - simpl in Hf. apply orb_false_iff in Hf. destruct Hf as [Hxf Hf].
    constructor; [| apply IH, Hf].
    apply Forall_app. split; [exact Hx | constructor; [exact Hxf | constructor]].
Qed.

Lemma apart_filter (p : Favorite.t -> bool) (l : list Favorite.t) :
  apart l -> apart (List.filter p l).
Proof.
  unfold apart. induction 1 as [| x l Hx Hl IH]; simpl; [constructor |].
  destruct (p x); [| exact IH]. constructor; [| exact IH].
  apply Forall_forall. intros y Hy. apply list_elem_of_In, filter_In in Hy.
  destruct Hy as [Hy _]. eapply Forall_forall in Hx; [exact Hx | apply list_elem_of_In, Hy].
Qed.

Lemma find_snoc {A} (p : A -> bool) (l : list A) (x : A) :
  List.find p l = None -> p x = true -> List.find p (l ++ [x]) = Some x.
Proof.
  intros Hl Hx. induction l as [| y l IH]; simpl in *; [rewrite Hx; reflexivity |].
  destruct (p y); [discriminate | apply IH, Hl].
Qed.

Lemma find_filter_snoc {A} (p q : A -> bool) (l : list A) (x : A) :
  List.find p l = None -> q x = false -> List.find p (List.filter q (l ++ [x])) = None.
Proof.
  intros Hl Hx. induction l as [| y l IH]; simpl in *; [rewrite Hx; reflexivity |].
  destruct (p y) eqn:Hy; [discriminate |].
  destruct (q y); simpl; [rewrite Hy |]; apply IH, Hl.
Qed.

Lemma filter_length_le {A} (p : A -> bool) (l : list A) :
  (length (List.filter p l) <= length l)%nat.
Proof. induction l as [| x l IH]; simpl; [lia |]. destruct (p x); simpl; lia. Qed.

(** What [addFavorite] does, case by case. *)
Lemma addFavorite_cases (location : Location.t) (now : Z) (random : string) (st : state) :
  let added := getFavorites st ++ [favorite_of location now random] in
  (addFavorite quotaExceeded location now random st = (true, favorites_written added st) /\
   (length (getFavorites st) < 5)%nat /\
   isFavorite (Location.latitude location) (Location.longitude location) st = None /\
   quotaExceeded st (favorites_written added st) = false) \/
  (addFavorite quotaExceeded location now random st = (false, st) /\
   ((5 <= length (getFavorites st))%nat \/
    isFavorite (Location.latitude location) (Location.longitude location) st <> None \/
    quotaExceeded st (favorites_written added st) = true)).
Proof.
  intros added. unfold addFavorite, isFavorite.
  fold (favorite_of location now random). fold added. fold (favorites_written added st).
  destruct (Nat.leb_spec 5 (length (getFavorites st))) as [Hfull | Hroom].
  - right. split; [reflexivity | left; exact Hfull].
  - destruct (existsb _ (getFavorites st)) eqn:Hnear.
    + right. split; [reflexivity |]. right. left.
      intros Hnone. apply find_none_existsb in Hnone. congruence.
    + apply find_none_existsb in Hnear.
      destruct (quotaExceeded st (favorites_written added st)) eqn:Hq.
      * right. split; [reflexivity |]. right. right. reflexivity.
      * left. split; [reflexivity |]. split; [exact Hroom |]. split; [exact Hnear | reflexivity].
Qed.

End MoreStorage.



(** X27: [addFavorite] returns true exactly when fewer than five favorites are
    kept, none of them is near the location, and the write is accepted;
    then the favorites are the old ones followed by the new one.  When it
    returns false the storage is as it was. *)
Theorem X27_add_favorite_iff (quotaExceeded : Storage.state -> Storage.state -> bool)
    (location : Storage.Location.t) (now : Z) (random : string) (st : Storage.state) :
  ((Storage.addFavorite quotaExceeded location now random st).1 = true <->
   (length (Storage.getFavorites st) < 5)%nat /\
   Storage.isFavorite (Storage.Location.latitude location)
                      (Storage.Location.longitude location) st = None /\
   quotaExceeded st
     (Spec.favorites_written
        (Storage.getFavorites st ++ [Spec.favorite_of location now random]) st) = false) /\
  Storage.getFavorites (Storage.addFavorite quotaExceeded location now random st).2
  = (if (Storage.addFavorite quotaExceeded location now random st).1
     then Storage.getFavorites st ++ [Spec.favorite_of location now random]
     else Storage.getFavorites st) /\
  Storage.settings (Storage.addFavorite quotaExceeded location now random st).2
  = Storage.settings st.
Proof.
  destruct (addFavorite_cases quotaExceeded location now random st)
    as [(-> & Hroom & Hnone & Hq) | [-> Hwhy]]; cbn [fst snd].
  - split; [tauto |]. split; reflexivity.
  - split; [| split; reflexivity].
    split; [discriminate |]. intros (Hroom & Hnone & Hq).
    destruct Hwhy as [Hfull | [Hnear | Hfullq]]; [lia | contradiction | congruence].
Qed.



(** X29: [updateSettings] returns the settings that [getSettings] reads from
    the storage it leaves; these are the settings before with the updates
    laid over them when the write is accepted, and the settings before,
    in an unchanged storage, when it is not.  Favorites and last location
    are not touched. *)
Theorem X29_settings_round_trip (quotaExceeded : Storage.state -> Storage.state -> bool)
    (updates : Storage.Updates.t) (st : Storage.state) :
  Storage.getSettings (Storage.updateSettings quotaExceeded updates st).2
  = (Storage.updateSettings quotaExceeded updates st).1 /\
  Storage.updateSettings quotaExceeded updates st
  = (if quotaExceeded st (Spec.settings_written updates st)
     then (Storage.getSettings st, st)
     else (Storage.spread (Storage.getSettings st) updates, Spec.settings_written updates st)) /\
  Storage.favorites (Storage.updateSettings quotaExceeded updates st).2 = Storage.favorites st /\
  Storage.lastLocation (Storage.updateSettings quotaExceeded updates st).2
  = Storage.lastLocation st.
Proof.
  unfold Storage.updateSettings. fold (Spec.settings_written updates st).
  destruct (quotaExceeded st (Spec.settings_written updates st)); cbn [fst snd].
  - repeat split; reflexivity.
  - split; [| repeat split; reflexivity].
    unfold Storage.getSettings at 1. cbn. apply spread_stringify.
Qed.


(** X30: a change of the photography mode reaches the score, not the forecast.
    After [processWeatherData] has filled the state from weather data that
    hold an hour, an [updateSettings] with a new, non-empty mode whose
    write is accepted stores the mode and replaces the score by the score
    that the same feeds give under the new mode; the forecast stays the
    one built under the old mode, because [this.buildForecastData;] names
    the method without calling it. *)
Theorem X30_mode_change_keeps_forecast (zone : Date.TimeZone)
    (quotaExceeded : Storage.state -> Storage.state -> bool)
    (weatherData : Data.WeatherData.t) (astroData : option Data.AstroData.t)
    (astronomicalData : option Data.AstronomicalData.t) (now : Z)
    (state : App.State.t) (storage : Storage.state) (mode : string) :
  mode <> ""%string ->
  Data.WeatherData.hourly weatherData <> [] ->
  quotaExceeded storage (Spec.settings_written (Spec.mode_update mode) storage) = false ->
  let shown := Spec.processed_state weatherData astroData astronomicalData now state in
  let fresh := Spec.processed_state weatherData astroData astronomicalData now
                 (Spec.with_mode state mode) in
  let r := App.updateSettings quotaExceeded (Spec.mode_update mode) storage shown in
  App.State.photographyMode r.1 = Some mode /\
  Storage.Settings.photographyMode (Storage.getSettings r.2) = mode /\
  App.State.conditions r.1 = App.State.conditions fresh /\
  App.State.score r.1 = App.State.score fresh /\
  App.State.forecast r.1
  = App.buildForecastData weatherData astroData astronomicalData
                          (App.State.photographyMode state).
Proof.
  intros Hmode Hhours Hroom shown fresh r.
  assert (Hcur : exists h,
             Data.WeatherData.hourly weatherData
               !! App.findCurrentHourIndex (Data.WeatherData.hourly weatherData) now = Some h).
  { destruct (current_hour_index_aux (Data.WeatherData.hourly weatherData) now) as [Hnil | Hlt];
      [contradiction | apply lookup_lt_is_Some_2, Hlt]. }
  destruct Hcur as [h Hcur].
  assert (Hunion : Data.WeatherData.hourly weatherData
                      !! App.findCurrentHourIndex (Data.WeatherData.hourly weatherData) now
                    ∪ Data.WeatherData.hourly weatherData !! 0%nat = Some h).
  { rewrite Hcur. destruct (Data.WeatherData.hourly weatherData !! 0%nat); reflexivity. }
  subst r shown fresh. unfold Spec.processed_state, App.processWeatherData. rewrite Hunion.
  cbn [Spec.returned].
  unfold App.updateSettings, Storage.updateSettings.
  fold (Spec.settings_written (Spec.mode_update mode) storage). rewrite Hroom.
  destruct mode as [| a rest]; [congruence |].
  cbn. repeat split; reflexivity.
Qed.

Lemma X30_mode_change_keeps_forecast_witness :
  "planetary"%string <> ""%string /\
  Data.WeatherData.hourly Spec.week_weather <> [] /\
  Spec.roomy Spec.empty_storage
             (Spec.settings_written (Spec.mode_update "planetary") Spec.empty_storage) = false /\
  let shown := Spec.processed_state (H := Date.fixedOffset 60) Spec.week_weather None None
                 1769252400000 Spec.blank_state in
  let fresh := Spec.processed_state (H := Date.fixedOffset 60) Spec.week_weather None None
                 1769252400000 (Spec.with_mode Spec.blank_state "planetary") in
  let r := App.updateSettings Spec.roomy (Spec.mode_update "planetary") Spec.empty_storage shown in
  App.State.photographyMode r.1 = Some "planetary"%string /\
  Storage.Settings.photographyMode (Storage.getSettings r.2) = "planetary"%string /\
  App.State.conditions r.1 = App.State.conditions fresh /\
  App.State.score r.1 = App.State.score fresh /\
  App.State.forecast r.1
  = App.buildForecastData (H := Date.fixedOffset 60) Spec.week_weather None None
                          (App.State.photographyMode Spec.blank_state).
Proof.
  assert (H1 : "planetary"%string <> ""%string) by discriminate.
  assert (H2 : Data.WeatherData.hourly Spec.week_weather <> []) by discriminate.
  split; [exact H1 |]. split; [exact H2 |]. split; [reflexivity |].
  exact (X30_mode_change_keeps_forecast (Date.fixedOffset 60) Spec.roomy Spec.week_weather None None
           1769252400000 Spec.blank_state Spec.empty_storage "planetary" H1 H2 eq_refl).
Defined.

(** On the sample week the forecast under the planetary mode differs from
    the one the state keeps after the change of mode. *)
Example stale_forecast_differs :
  map App.DayForecast.overallScore
      (App.buildForecastData (H := Date.fixedOffset 60) Spec.week_weather None None
                             (Some "planetary"%string))
  <> map App.DayForecast.overallScore
         (App.buildForecastData (H := Date.fixedOffset 60) Spec.week_weather None None
                                (Some "general"%string)).
Proof. vm_compute. discriminate. Qed.
